(** * M24SR driver: block-protocol engine

    A shallow embedding of [m24sr_driver.cpp]: the CRC engine, the response
    validator, the I-block frame codec and the command state machine, with
    the properties that the driver's specification states about them.

    Integers are [Z] with the C conversions written out ([u8], [u16]);
    buffers are lists of bytes indexed from 0; a computation that would read
    or write outside a buffer has no result ([None]). A local array starts
    zeroed; the properties that read one assume the transport filled it. *)

From Stdlib Require Import ZArith Lia List Bool.
From stdpp Require Import base tactics option numbers list gmap.

Local Open Scope Z_scope.

(** ** Machine integers *)

Definition u8 (x : Z) : Z := x mod 256.
Definition u16 (x : Z) : Z := x mod 65536.

(* #define GETMSB(val) ((uint8_t) ((val & 0xFF00)>>8)) *)
Definition GETMSB (val : Z) : Z := u8 (Z.shiftr (Z.land val 0xFF00) 8).
(* #define GETLSB(val) ((uint8_t) (val & 0x00FF)) *)
Definition GETLSB (val : Z) : Z := u8 (Z.land val 0x00FF).

(** ** Constants of the driver *)

Definition MAX_OPERATION_SIZE : Z := 246.
Definition NFC_COMMAND_SUCCESS : Z := 0x9000.
Definition UB_STATUS_OFFSET : Z := 4.
Definition LB_STATUS_OFFSET : Z := 3.

Definition C_APDU_CLA_DEFAULT : Z := 0x00.
Definition C_APDU_CLA_ST : Z := 0xA2.
Definition C_APDU_SELECT_FILE : Z := 0xA4.
Definition C_APDU_UPDATE_BINARY : Z := 0xD6.
Definition C_APDU_READ_BINARY : Z := 0xB0.

Definition CC_FILE_ID_BYTES : list Z := [0xE1; 0x03].

Definition STATUSRESPONSE_NBBYTE : Z := 5.
Definition WATINGTIMEEXTRESPONSE_NBBYTE : Z := 4.
Definition DESELECTREQUEST_COMMAND : list Z := [0xC2; 0xE0; 0xB4].
Definition SELECTAPPLICATION_COMMAND : list Z :=
  [0xD2; 0x76; 0x00; 0x00; 0x85; 0x01; 0x01].

Definition CMD_MASK_SELECTAPPLICATION : Z := 0x01FF.
Definition CMD_MASK_SELECTCCFILE : Z := 0x017F.
Definition CMD_MASK_SELECTNDEFFILE : Z := 0x017F.
Definition CMD_MASK_READBINARY : Z := 0x019F.
Definition CMD_MASK_UPDATEBINARY : Z := 0x017F.

Definition PCB_NEEDED : Z := 0x0001.
Definition CLA_NEEDED : Z := 0x0002.
Definition INS_NEEDED : Z := 0x0004.
Definition P1_NEEDED : Z := 0x0008.
Definition P2_NEEDED : Z := 0x0010.
Definition LC_NEEDED : Z := 0x0020.
Definition DATA_NEEDED : Z := 0x0040.
Definition LE_NEEDED : Z := 0x0080.
Definition CRC_NEEDED : Z := 0x0100.
Definition DID_NEEDED : Z := 0x08.

Definition OFFSET_PCB : Z := 0.
Definition MASK_BLOCK : Z := 0xC0.
Definition MASK_SBLOCK : Z := 0xC0.

(** ** CRC engine *)

(* static uint16_t update_crc(uint8_t ch, uint16_t *lpw_crc) *)
Definition update_crc (ch lpw_crc : Z) : Z :=
  let ch := u8 (Z.lxor ch (u8 (Z.land lpw_crc 0x00FF))) in
  let ch := u8 (Z.lxor ch (Z.shiftl ch 4)) in
  u16 (Z.lxor (Z.lxor (Z.lxor (Z.shiftr lpw_crc 8) (Z.shiftl (u16 ch) 8))
                      (Z.shiftl (u16 ch) 3))
              (Z.shiftr (u16 ch) 4)).

(** The [do { ... } while (--length)] loop of [compute_crc]: the counter is
    a [uint8_t], so a call with [length = 0] wraps and runs 256 times. The
    fuel bounds the number of iterations; 256 is always enough. *)
Fixpoint compute_crc_loop (fuel : nat) (data : list Z) (length crc16 : Z)
  : option Z :=
  match fuel with
  | O => None
  | S fuel =>
      match data with
      | [] => None
      | chBlock :: data =>
          let crc16 := update_crc chBlock crc16 in
          let length := u8 (length - 1) in
          if length =? 0 then Some crc16
          else compute_crc_loop fuel data length crc16
      end
  end.

(* static uint16_t compute_crc(uint8_t *data, uint8_t length) *)
Definition compute_crc (data : list Z) (length : Z) : option Z :=
  compute_crc_loop 256 data (u8 length) 0x6363.

(** The accumulator after folding a span, as a plain left fold. *)
Definition crc16_fold (b : list Z) : Z :=
  fold_left (fun crc ch => update_crc ch crc) b 0x6363.

Arguments update_crc : simpl never.
Arguments crc16_fold : simpl never.
Arguments compute_crc : simpl never.

(** ** Response validator *)

(** Read of [data[i]]; an index outside the buffer has no value. *)
Definition peek (data : list Z) (i : Z) : option Z :=
  if i <? 0 then None else data !! Z.to_nat i.

Section Driver.

(** The values of the [M24srError_t] enumerators are declared in
    [m24sr_driver.h]; the development is parametric in them. *)
Variables M24SR_SUCCESS M24SR_ERROR : Z.
Variables M24SR_IO_ERROR_I2CTIMEOUT M24SR_IO_ERROR_CRC : Z.

(** The error codes differ from success. *)
Hypothesis timeout_is_failure : M24SR_IO_ERROR_I2CTIMEOUT <> M24SR_SUCCESS.
Hypothesis crc_error_is_failure : M24SR_IO_ERROR_CRC <> M24SR_SUCCESS.

(* (M24srError_t) (((hi << 8) & 0xFF00) | (lo & 0x00FF)) *)
Definition status_word (hi lo : Z) : Z :=
  Z.lor (Z.land (Z.shiftl hi 8) 0xFF00) (Z.land lo 0x00FF).

(* if (status == NFC_COMMAND_SUCCESS) status = M24SR_SUCCESS; *)
Definition to_status (status : Z) : Z :=
  if status =? NFC_COMMAND_SUCCESS then M24SR_SUCCESS else status.

(* static M24srError_t is_correct_crc_residue(uint8_t *data, uint8_t length) *)
Definition is_correct_crc_residue (data : list Z) (length : Z) : option Z :=
  let length := u8 length in
  res_crc ← (if length =? 0 then Some 0x0000 else compute_crc data length);
  if res_crc =? 0x0000 then
    hi ← peek data (length - UB_STATUS_OFFSET);
    lo ← peek data (length - LB_STATUS_OFFSET);
    Some (to_status (status_word hi lo))
  else
    res_crc ← compute_crc data 5;
    if negb (res_crc =? 0x0000) then Some M24SR_IO_ERROR_CRC
    else
      hi ← peek data 1;
      lo ← peek data 2;
      Some (to_status (status_word hi lo)).


(** ** Frame codec *)

(** The command descriptor [C_APDU] ([header] and [body] flattened); every
    field is a byte. [body_data] is the payload [body.data] points to, or
    [None] for a null pointer. *)
Record C_APDU := {
  CLA : Z; INS : Z; P1 : Z; P2 : Z;
  LC : Z; body_data : option (list Z); LE : Z
}.

(* (mask & FLAG) != 0 *)
Definition needed (mask flag : Z) : bool := negb (Z.land mask flag =? 0).

(** A write cursor [(length, buffer)]. *)
Definition cursor : Type := Z * list Z.

(* command_buffer[length++] = v *)
Definition emit (v : Z) (s : cursor) : option cursor :=
  let '(length, buffer) := s in
  if decide (Z.to_nat length < List.length buffer)%nat
  then Some (u16 (length + 1), <[Z.to_nat length := v]> buffer)
  else None.

(* memcpy(&dst[off], src, n) *)
Definition memcpy_at (dst : list Z) (off : Z) (src : list Z) (n : Z)
  : option (list Z) :=
  if decide (0 <= off /\ 0 <= n /\ n <= Z.of_nat (List.length src) /\
             off + n <= Z.of_nat (List.length dst))
  then Some (take (Z.to_nat off) dst ++ take (Z.to_nat n) src ++
             drop (Z.to_nat (off + n)) dst)
  else None.

(* memset(&dst[off], c, n) *)
Definition memset_at (dst : list Z) (off c n : Z) : option (list Z) :=
  memcpy_at dst off (replicate (Z.to_nat n) c) n.

(* block_number = !block_number *)
Definition toggle (block_number : Z) : Z :=
  if block_number =? 0 then 1 else 0.

(** [build_I_block_command]: the static [block_number] is passed in and
    returned; the result is [(length, command_buffer, block_number)]. *)
Definition build_I_block_command (command_mask : Z) (command : C_APDU)
    (did : Z) (block_number : Z) (command_buffer : list Z)
  : option (Z * list Z * Z) :=
  let s : cursor := (0, command_buffer) in
  (* add the PCD byte *)
  let block_number :=
    if needed command_mask PCB_NEEDED then toggle block_number
    else block_number in
  s ← (if needed command_mask PCB_NEEDED
       then emit (Z.lor 0x02 block_number) s else Some s);
  (* add the DID byte *)
  s ← (if needed block_number DID_NEEDED then emit did s else Some s);
  (* add the Class byte *)
  s ← (if needed command_mask CLA_NEEDED then emit (CLA command) s else Some s);
  (* add the instruction byte *)
  s ← (if needed command_mask INS_NEEDED then emit (INS command) s else Some s);
  (* add the Selection Mode bytes *)
  s ← (if needed command_mask P1_NEEDED then emit (P1 command) s else Some s);
  s ← (if needed command_mask P2_NEEDED then emit (P2 command) s else Some s);
  (* add Data field length byte *)
  s ← (if needed command_mask LC_NEEDED then emit (LC command) s else Some s);
  (* add Data field *)
  s ← (if needed command_mask DATA_NEEDED then
         buffer ← match body_data command with
                  | Some data => memcpy_at (snd s) (fst s) data (LC command)
                  | None => memset_at (snd s) (fst s) 0 (LC command)
                  end;
         Some (u16 (fst s + LC command), buffer)
       else Some s);
  (* add Le field *)
  s ← (if needed command_mask LE_NEEDED then emit (LE command) s else Some s);
  (* add CRC field *)
  s ← (if needed command_mask CRC_NEEDED then
         crc16 ← compute_crc (snd s) (u8 (fst s));
         s ← emit (GETLSB crc16) s;
         emit (GETMSB crc16) s
       else Some s);
  Some (fst s, snd s, block_number).

(** ** Block classifier *)

(* static M24srError_t is_S_block(uint8_t *buffer) *)
Definition is_S_block (buffer : list Z) : option Z :=
  pcb ← peek buffer OFFSET_PCB;
  Some (if Z.land pcb MASK_BLOCK =? MASK_SBLOCK then M24SR_SUCCESS
        else M24SR_ERROR).

(** ** Driver state and its environment *)

(** The two communication modes; the source tests for [SYNC]. *)
Inductive CommunicationType := SYNC | ASYNC.

(** The pending command, with the enumerators [manage_event] dispatches
    on. *)
Inductive Command :=
| NONE | DESELECT | SELECT_APPLICATION | SELECT_CC_FILE | SELECT_NDEF_FILE
| SELECT_SYSTEM_FILE | READ | UPDATE | VERIFY | CHANGE_REFERENCE_DATA
| ENABLE_VERIFICATION_REQUIREMENT | DISABLE_VERIFICATION_REQUIREMENT
| ENABLE_PERMANET_STATE | DISABLE_PERMANET_STATE.

(** A [uint8_t *] of the caller: null, or the start of a block of the
    caller's memory. *)
Definition ptr : Type := option nat.

Record LastCommandData := {
  lcd_data : ptr; lcd_length : Z; lcd_offset : Z
}.

(** The I2C channel as a script: the values the next [write] calls return
    (0 is an acknowledge; an exhausted script acknowledges), the results of
    the next [read] calls (return value and bytes clocked in; an exhausted
    script fails), and the log of what has been written. *)
Record I2C := {
  i2c_acks : list Z;
  i2c_replies : list (Z * list Z);
  i2c_sent : list (list Z)
}.

(** The completion callbacks reached through [get_callback()], as events:
    a call is recorded with its arguments, whichever listener is installed. *)
Inductive Callback :=
| on_deselect (status : Z)
| on_selected_application (status : Z)
| on_selected_cc_file (status : Z)
| on_selected_ndef_file (status : Z)
| on_read_byte (status offset : Z) (data : ptr) (length : Z)
| on_updated_binary (status offset : Z) (data : ptr) (length : Z).

(** The driver and what surrounds it: the members of [M24srDriver] the
    operations use, the static [block_number] of [build_I_block_command],
    the caller's memory as blocks of bytes, and the callbacks delivered so
    far. *)
Record World := {
  _buffer : list Z;
  _did_byte : Z;
  _communication_type : CommunicationType;
  _last_command : Command;
  _last_command_data : LastCommandData;
  block_number : Z;
  _i2c_channel : I2C;
  mem : gmap nat (list Z);
  callbacks : list Callback
}.

Definition set_buffer (v : list Z) (w : World) : World :=
  {| _buffer := v; _did_byte := _did_byte w;
     _communication_type := _communication_type w;
     _last_command := _last_command w;
     _last_command_data := _last_command_data w;
     block_number := block_number w; _i2c_channel := _i2c_channel w;
     mem := mem w; callbacks := callbacks w |}.

Definition set_last_command (v : Command) (w : World) : World :=
  {| _buffer := _buffer w; _did_byte := _did_byte w;
     _communication_type := _communication_type w;
     _last_command := v;
     _last_command_data := _last_command_data w;
     block_number := block_number w; _i2c_channel := _i2c_channel w;
     mem := mem w; callbacks := callbacks w |}.

Definition set_last_command_data (v : LastCommandData) (w : World) : World :=
  {| _buffer := _buffer w; _did_byte := _did_byte w;
     _communication_type := _communication_type w;
     _last_command := _last_command w;
     _last_command_data := v;
     block_number := block_number w; _i2c_channel := _i2c_channel w;
     mem := mem w; callbacks := callbacks w |}.

Definition set_block_number (v : Z) (w : World) : World :=
  {| _buffer := _buffer w; _did_byte := _did_byte w;
     _communication_type := _communication_type w;
     _last_command := _last_command w;
     _last_command_data := _last_command_data w;
     block_number := v; _i2c_channel := _i2c_channel w;
     mem := mem w; callbacks := callbacks w |}.

Definition set_i2c_channel (v : I2C) (w : World) : World :=
  {| _buffer := _buffer w; _did_byte := _did_byte w;
     _communication_type := _communication_type w;
     _last_command := _last_command w;
     _last_command_data := _last_command_data w;
     block_number := block_number w; _i2c_channel := v;
     mem := mem w; callbacks := callbacks w |}.

Definition set_mem (v : gmap nat (list Z)) (w : World) : World :=
  {| _buffer := _buffer w; _did_byte := _did_byte w;
     _communication_type := _communication_type w;
     _last_command := _last_command w;
     _last_command_data := _last_command_data w;
     block_number := block_number w; _i2c_channel := _i2c_channel w;
     mem := v; callbacks := callbacks w |}.

Definition set_callbacks (v : list Callback) (w : World) : World :=
  {| _buffer := _buffer w; _did_byte := _did_byte w;
     _communication_type := _communication_type w;
     _last_command := _last_command w;
     _last_command_data := _last_command_data w;
     block_number := block_number w; _i2c_channel := _i2c_channel w;
     mem := mem w; callbacks := v |}.

(** ** The monad of driver operations: state, and no result on an access
    outside a buffer *)

Definition M (A : Type) : Type := World -> option (A * World).

Definition ret {A} (a : A) : M A := fun w => Some (a, w).

Definition bind {A B} (c : M A) (k : A -> M B) : M B :=
  fun w => match c w with Some (a, w') => k a w' | None => None end.

Notation "'let*' x ':=' c 'in' k" := (bind c (fun x => k))
  (at level 10, x pattern, c at level 100, k at level 200).
Notation "c ';;' k" := (bind c (fun _ => k))
  (at level 100, k at level 200, right associativity).

Definition gets {A} (f : World -> A) : M A := fun w => Some (f w, w).
Definition modify (f : World -> World) : M unit := fun w => Some (tt, f w).
Definition lift {A} (o : option A) : M A :=
  fun w => match o with Some a => Some (a, w) | None => None end.

(* get_callback()->on_...(this, ...) *)
Definition callback (c : Callback) : M unit :=
  modify (fun w => set_callbacks (callbacks w ++ [c]) w).

(* status != M24SR_SUCCESS *)
Definition failed (status : Z) : bool := negb (status =? M24SR_SUCCESS).

(** ** Transport *)

(* _i2c_channel.write(M24SR_ADDR, bytes, length) *)
Definition i2c_write (bytes : list Z) : M Z := fun w =>
  let ch := _i2c_channel w in
  Some (hd 0 (i2c_acks ch),
        set_i2c_channel {| i2c_acks := tl (i2c_acks ch);
                           i2c_replies := i2c_replies ch;
                           i2c_sent := i2c_sent ch ++ [bytes] |} w).

(* _i2c_channel.read(M24SR_ADDR, buffer, length) *)
Definition i2c_read : M (Z * list Z) := fun w =>
  let ch := _i2c_channel w in
  Some (hd (1, []) (i2c_replies ch),
        set_i2c_channel {| i2c_acks := i2c_acks ch;
                           i2c_replies := tl (i2c_replies ch);
                           i2c_sent := i2c_sent ch |} w).

(* M24srDriver::io_send_i2c_command(uint8_t length, const uint8_t *buffer) *)
Definition io_send_i2c_command (length : Z) (buffer : list Z) : M Z :=
  let length := u8 length in
  if decide (length <= Z.of_nat (List.length buffer)) then
    let* r := i2c_write (take (Z.to_nat length) buffer) in
    ret (if r =? 0 then M24SR_SUCCESS else M24SR_IO_ERROR_I2CTIMEOUT)
  else lift None.

(** [io_receive_i2c_response(length, buffer)]: the bytes read overwrite the
    start of [buffer]; the result is the status and the buffer. *)
Definition io_receive_i2c_response (length : Z) (buffer : list Z)
  : M (Z * list Z) :=
  let length := u8 length in
  if decide (length <= Z.of_nat (List.length buffer)) then
    let* (r, bytes) := i2c_read in
    let got := take (Z.to_nat length) bytes in
    ret (if r =? 0 then M24SR_SUCCESS else M24SR_IO_ERROR_I2CTIMEOUT,
         got ++ drop (List.length got) buffer)
  else lift None.

(** [io_poll_i2c]: probe the address until it is acknowledged. The script
    holds finitely many refusals, which bounds the loop. *)
Fixpoint io_poll_i2c_loop (fuel : nat) : M Z :=
  match fuel with
  | O => lift None
  | S fuel =>
      let* status := i2c_write [] in
      if negb (status =? 0) then io_poll_i2c_loop fuel
      else ret M24SR_SUCCESS
  end.

Definition io_poll_i2c : M Z :=
  fun w => io_poll_i2c_loop (S (List.length (i2c_acks (_i2c_channel w)))) w.

(** ** Commands *)

(* M24srDriver::receive_deselect() *)
Definition receive_deselect : M Z :=
  let buffer := replicate 4 0 in
  let* (status, buffer) := io_receive_i2c_response 4 buffer in
  callback (on_deselect status);;
  ret status.

(* M24srDriver::deselect() *)
Definition deselect : M Z :=
  let buffer := DESELECTREQUEST_COMMAND in
  (* send the request *)
  let* status := io_send_i2c_command 3 buffer in
  (if failed status then callback (on_deselect status) else ret tt);;
  modify (set_last_command DESELECT);;
  let* ct := gets _communication_type in
  match ct with
  | SYNC =>
      let* status := io_poll_i2c in
      if status =? M24SR_SUCCESS then receive_deselect
      else
        modify (set_last_command NONE);;
        callback (on_selected_application status);;
        ret status
  | ASYNC => ret M24SR_SUCCESS
  end.

(* M24srDriver::receive_select_ndef_file() *)
Definition receive_select_ndef_file : M Z :=
  let data_in := replicate 5 0 in
  modify (set_last_command NONE);;
  let* (status, data_in) := io_receive_i2c_response 5 data_in in
  if failed status then
    callback (on_selected_ndef_file status);;
    ret status
  else
    let* status := lift (is_correct_crc_residue data_in 5) in
    callback (on_selected_ndef_file status);;
    ret status.

(** Run the codec on [_buffer] with the driver's [_did_byte] and the static
    block number; the result is the frame length. *)
Definition build_in_buffer (command_mask : Z) (command : C_APDU) : M Z :=
  fun w =>
    match build_I_block_command command_mask command (_did_byte w)
                                (block_number w) (_buffer w) with
    | Some (length, buffer, bn) =>
        Some (length, set_block_number bn (set_buffer buffer w))
    | None => None
    end.

(* M24srDriver::select_ndef_file(uint16_t ndef_file_id) *)
Definition select_ndef_file (ndef_file_id : Z) : M Z :=
  let data_out := [GETMSB ndef_file_id; GETLSB ndef_file_id] in
  let P1_P2 := 0x000C in
  (* build the command; LE is not set by the source and not selected *)
  let command := {| CLA := C_APDU_CLA_DEFAULT; INS := C_APDU_SELECT_FILE;
                    P1 := GETMSB P1_P2; P2 := GETLSB P1_P2;
                    LC := 2; body_data := Some data_out; LE := 0 |} in
  let* length := build_in_buffer CMD_MASK_SELECTNDEFFILE command in
  (* send the request *)
  let* buffer := gets _buffer in
  let* status := io_send_i2c_command length buffer in
  if failed status then ret status
  else
    modify (set_last_command SELECT_NDEF_FILE);;
    let* ct := gets _communication_type in
    match ct with
    | SYNC =>
        let* status := io_poll_i2c in
        if status =? M24SR_SUCCESS then receive_select_ndef_file
        else
          modify (set_last_command NONE);;
          callback (on_selected_ndef_file status);;
          ret status
    | ASYNC => ret M24SR_SUCCESS
    end.

(* M24srDriver::receive_select_cc_file() *)
Definition receive_select_cc_file : M Z :=
  let data_in := replicate 5 0 in
  modify (set_last_command NONE);;
  let* (status, data_in) := io_receive_i2c_response 5 data_in in
  if failed status then
    callback (on_selected_cc_file status);;
    ret status
  else
    let* status := lift (is_correct_crc_residue data_in 5) in
    callback (on_selected_cc_file status);;
    ret status.

(* M24srDriver::select_cc_file() *)
Definition select_cc_file : M Z :=
  let data_out := CC_FILE_ID_BYTES in
  let P1_P2 := 0x000C in
  (* build the command; LE is not set by the source and not selected *)
  let command := {| CLA := C_APDU_CLA_DEFAULT; INS := C_APDU_SELECT_FILE;
                    P1 := GETMSB P1_P2; P2 := GETLSB P1_P2;
                    LC := 2; body_data := Some data_out; LE := 0 |} in
  let* length := build_in_buffer CMD_MASK_SELECTCCFILE command in
  (* send the request *)
  let* buffer := gets _buffer in
  let* status := io_send_i2c_command length buffer in
  if failed status then
    callback (on_selected_cc_file status);;
    ret status
  else
    modify (set_last_command SELECT_CC_FILE);;
    let* ct := gets _communication_type in
    match ct with
    | SYNC =>
        let* status := io_poll_i2c in
        if status =? M24SR_SUCCESS then receive_select_cc_file
        else
          modify (set_last_command NONE);;
          callback (on_selected_cc_file status);;
          ret status
    | ASYNC => ret M24SR_SUCCESS
    end.

(** The bytes a [const uint8_t *] of the caller points to; a null pointer
    has none, and a pointer to no block of the caller has no meaning. *)
Definition deref (p : ptr) : M (option (list Z)) := fun w =>
  match p with
  | Some a => block ← mem w !! a; Some (Some block, w)
  | None => Some (None, w)
  end.

(* memcpy(_last_command_data.data, &_buffer[1], length) *)
Definition copy_to_caller (dst : ptr) (length : Z) : M unit := fun w =>
  match dst with
  | Some a =>
      block ← mem w !! a;
      block ← memcpy_at block 0 (drop 1 (_buffer w)) length;
      Some (tt, set_mem (<[a := block]> (mem w)) w)
  | None => None
  end.

(* M24srDriver::receive_read_binary() *)
Definition receive_read_binary : M Z :=
  let* lcd := gets _last_command_data in
  let length := lcd_length lcd in
  let offset := lcd_offset lcd in
  let data := lcd_data lcd in
  modify (set_last_command NONE);;
  let* buffer := gets _buffer in
  let* (status, buffer) :=
    io_receive_i2c_response (length + STATUSRESPONSE_NBBYTE) buffer in
  modify (set_buffer buffer);;
  if failed status then
    callback (on_read_byte status offset data length);;
    ret status
  else
    let* status :=
      lift (is_correct_crc_residue buffer (length + STATUSRESPONSE_NBBYTE)) in
    if failed status then
      callback (on_read_byte status offset data length);;
      ret status
    else
      (* retrieve the data without SW1 & SW2 *)
      copy_to_caller data length;;
      callback (on_read_byte status offset data length);;
      ret status.

(* M24srDriver::read_binary(uint16_t offset, uint8_t length, uint8_t *buffer) *)
Definition read_binary (offset length : Z) (buffer : ptr) : M Z :=
  (* clamp the buffer to the max size *)
  let length :=
    if length >? MAX_OPERATION_SIZE then MAX_OPERATION_SIZE else length in
  (* build the command; LC and data are not set by the source and not
     selected *)
  let command := {| CLA := C_APDU_CLA_DEFAULT; INS := C_APDU_READ_BINARY;
                    P1 := GETMSB offset; P2 := GETLSB offset;
                    LC := 0; body_data := None; LE := length |} in
  let* command_length := build_in_buffer CMD_MASK_READBINARY command in
  let* frame := gets _buffer in
  let* status := io_send_i2c_command command_length frame in
  if failed status then
    callback (on_read_byte status offset buffer length);;
    ret status
  else
    modify (set_last_command READ);;
    modify (set_last_command_data
              {| lcd_data := buffer; lcd_length := length;
                 lcd_offset := offset |});;
    let* ct := gets _communication_type in
    match ct with
    | SYNC =>
        let* status := io_poll_i2c in
        if status =? M24SR_SUCCESS then receive_read_binary
        else
          modify (set_last_command NONE);;
          callback (on_read_byte status offset buffer length);;
          ret status
    | ASYNC => ret M24SR_SUCCESS
    end.

(** [st_read_binary] records the buffer and the length of the pending read,
    not its offset: the recorded offset stays what it was. *)
(* M24srDriver::st_read_binary(uint16_t offset, uint8_t length, uint8_t *buffer) *)
Definition st_read_binary (offset length : Z) (buffer : ptr) : M Z :=
  (* clamp the buffer to the max size *)
  let length :=
    if length >? MAX_OPERATION_SIZE then MAX_OPERATION_SIZE else length in
  (* build the command; LC and data are not set by the source and not
     selected *)
  let command := {| CLA := C_APDU_CLA_ST; INS := C_APDU_READ_BINARY;
                    P1 := GETMSB offset; P2 := GETLSB offset;
                    LC := 0; body_data := None; LE := length |} in
  let* command_length := build_in_buffer CMD_MASK_READBINARY command in
  let* frame := gets _buffer in
  let* status := io_send_i2c_command command_length frame in
  if failed status then
    callback (on_read_byte status offset buffer length);;
    ret status
  else
    modify (set_last_command READ);;
    modify (fun w =>
              set_last_command_data
                {| lcd_data := buffer; lcd_length := length;
                   lcd_offset := lcd_offset (_last_command_data w) |} w);;
    let* ct := gets _communication_type in
    match ct with
    | SYNC =>
        let* status := io_poll_i2c in
        if status =? M24SR_SUCCESS then receive_read_binary
        else
          modify (set_last_command NONE);;
          callback (on_read_byte status offset buffer length);;
          ret status
    | ASYNC => ret M24SR_SUCCESS
    end.

(** [send_fwt_extension], open in the receive step it ends with. *)
Definition send_fwt_extension_with (receive_update_binary : M Z)
    (fwt_byte : Z) : M Z :=
  let s : cursor := (0, replicate (Z.to_nat STATUSRESPONSE_NBBYTE) 0) in
  (* create the response *)
  let* s := lift (emit 0xF2 s) in
  let* s := lift (emit fwt_byte s) in
  (* compute the CRC *)
  let* crc16 := lift (compute_crc (snd s) 0x02) in
  (* append the CRC16 *)
  let* s := lift (emit (GETLSB crc16) s) in
  let* s := lift (emit (GETMSB crc16) s) in
  (* send the request *)
  let* status := io_send_i2c_command (fst s) (snd s) in
  if failed status then ret status
  else
    modify (set_last_command UPDATE);;
    let* ct := gets _communication_type in
    match ct with
    | SYNC =>
        let* status := io_poll_i2c in
        if status =? M24SR_SUCCESS then receive_update_binary
        else
          modify (set_last_command NONE);;
          let* lcd := gets _last_command_data in
          callback (on_updated_binary status (lcd_offset lcd) (lcd_data lcd)
                                      (lcd_length lcd));;
          ret status
    | ASYNC => ret M24SR_SUCCESS
    end.

(** [receive_update_binary] and [send_fwt_extension] call each other for as
    long as the chip asks for more time. Each round consumes one scripted
    reply, so the script bounds the recursion; [fuel] counts the rounds. *)
Fixpoint receive_update_binary_rounds (fuel : nat) : M Z :=
  match fuel with
  | O => lift None
  | S fuel =>
      let response := replicate (Z.to_nat STATUSRESPONSE_NBBYTE) 0 in
      let* lcd := gets _last_command_data in
      let length := lcd_length lcd in
      let data := lcd_data lcd in
      let offset := lcd_offset lcd in
      modify (set_last_command NONE);;
      let* (status, response) :=
        io_receive_i2c_response STATUSRESPONSE_NBBYTE response in
      if failed status then
        callback (on_updated_binary status offset data length);;
        ret status
      else
        let* sblock := lift (is_S_block response) in
        if sblock =? M24SR_SUCCESS then
          (* check the CRC *)
          let* status :=
            lift (is_correct_crc_residue response
                                         WATINGTIMEEXTRESPONSE_NBBYTE) in
          if negb (status =? M24SR_IO_ERROR_CRC) then
            (* send the FrameExension response *)
            let* fwt_byte := lift (peek response (OFFSET_PCB + 1)) in
            let* status :=
              send_fwt_extension_with (receive_update_binary_rounds fuel)
                                      fwt_byte in
            (if failed status then
               callback (on_updated_binary status offset data length)
             else ret tt);;
            ret status
          else ret status
        else
          let* status :=
            lift (is_correct_crc_residue response STATUSRESPONSE_NBBYTE) in
          callback (on_updated_binary status offset data length);;
          ret status
  end.

(* M24srDriver::receive_update_binary() *)
Definition receive_update_binary : M Z :=
  fun w =>
    receive_update_binary_rounds
      (S (List.length (i2c_replies (_i2c_channel w)))) w.

(* M24srDriver::send_fwt_extension(uint8_t fwt_byte) *)
Definition send_fwt_extension (fwt_byte : Z) : M Z :=
  send_fwt_extension_with receive_update_binary fwt_byte.

(* M24srDriver::update_binary(uint16_t offset, uint8_t length, const uint8_t *data) *)
Definition update_binary (offset length : Z) (data : ptr) : M Z :=
  (* clamp the buffer to the max size *)
  let length :=
    if length >? MAX_OPERATION_SIZE then MAX_OPERATION_SIZE else length in
  (* build the command; LE is not set by the source and not selected *)
  let* payload := deref data in
  let command := {| CLA := C_APDU_CLA_DEFAULT; INS := C_APDU_UPDATE_BINARY;
                    P1 := GETMSB offset; P2 := GETLSB offset;
                    LC := length; body_data := payload; LE := 0 |} in
  let* command_length := build_in_buffer CMD_MASK_UPDATEBINARY command in
  let* frame := gets _buffer in
  let* status := io_send_i2c_command command_length frame in
  if failed status then
    callback (on_updated_binary status offset data length);;
    ret status
  else
    modify (set_last_command UPDATE);;
    modify (set_last_command_data
              {| lcd_data := data; lcd_length := length;
                 lcd_offset := offset |});;
    let* ct := gets _communication_type in
    match ct with
    | SYNC =>
        let* status := io_poll_i2c in
        if status =? M24SR_SUCCESS then receive_update_binary
        else
          modify (set_last_command NONE);;
          callback (on_updated_binary status offset data length);;
          ret status
    | ASYNC => ret M24SR_SUCCESS
    end.

(** ** The frame layout *)

(** An optional one-byte field. *)
Definition field (mask flag v : Z) : list Z :=
  if needed mask flag then [v] else [].

(** The payload region: [LC] bytes of the payload, or [LC] zeros when the
    descriptor has none. *)
Definition payload_field (mask : Z) (command : C_APDU) : list Z :=
  if needed mask DATA_NEEDED then
    match body_data command with
    | Some data => take (Z.to_nat (LC command)) data
    | None => replicate (Z.to_nat (LC command)) 0
    end
  else [].

(** The fields before the CRC, in frame order, around a given device-id
    field. *)
Definition frame_fields (mask : Z) (command : C_APDU) (did_field : list Z)
    (bn : Z) : list Z :=
  field mask PCB_NEEDED (Z.lor 0x02 bn) ++ did_field ++
  field mask CLA_NEEDED (CLA command) ++ field mask INS_NEEDED (INS command) ++
  field mask P1_NEEDED (P1 command) ++ field mask P2_NEEDED (P2 command) ++
  field mask LC_NEEDED (LC command) ++ payload_field mask command ++
  field mask LE_NEEDED (LE command).

Definition crc_field (mask : Z) (fields : list Z) : list Z :=
  if needed mask CRC_NEEDED
  then [GETLSB (crc16_fold fields); GETMSB (crc16_fold fields)] else [].

Definition with_crc (mask : Z) (fields : list Z) : list Z :=
  fields ++ crc_field mask fields.

(** The frame [build_I_block_command] lays out: the device-id byte follows
    bit [DID_NEEDED] of the block number. *)
Definition frame_of (mask : Z) (command : C_APDU) (did bn : Z) : list Z :=
  with_crc mask (frame_fields mask command (field bn DID_NEEDED did) bn).

(** The frame as the specification words it: the device-id byte is one of
    the fields the mask selects. *)
Definition encode_spec (mask : Z) (command : C_APDU) (did bn : Z) : list Z :=
  with_crc mask (frame_fields mask command (field mask DID_NEEDED did) bn).

(** The frame without a device-id byte. *)
Definition frame_without_did (mask : Z) (command : C_APDU) (bn : Z) : list Z :=
  with_crc mask (frame_fields mask command [] bn).

(** The block number after an encode. *)
Definition next_block_number (mask bn : Z) : Z :=
  if needed mask PCB_NEEDED then toggle bn else bn.

(** A cursor that has written [pre] at the start of [buf0]. *)
Definition cur (pre buf0 : list Z) : cursor :=
  (Z.of_nat (length pre), pre ++ drop (length pre) buf0).

Arguments cur : simpl never.
Arguments emit : simpl never.
Arguments memcpy_at : simpl never.

(** The opening of every command: build the frame in the scratch buffer
    and hand it to the channel. *)
Definition request (command_mask : Z) (command : C_APDU) : M Z :=
  let* length := build_in_buffer command_mask command in
  let* buffer := gets _buffer in
  io_send_i2c_command length buffer.

(** ** Auxiliary notions for the properties *)

(** A cursor past the header byte [h] of a buffer of [n] bytes. *)
Definition past_header (h : Z) (n : nat) (s : cursor) : Prop :=
  1 <= fst s /\ snd s !! 0%nat = Some h /\ length (snd s) = n.

(** The status a transport call reports for the value the channel returned. *)
Definition io_status (r : Z) : Z :=
  if r =? 0 then M24SR_SUCCESS else M24SR_IO_ERROR_I2CTIMEOUT.

(** The channel after a write of [bytes]. *)
Definition written (bytes : list Z) (ch : I2C) : I2C :=
  {| i2c_acks := tl (i2c_acks ch); i2c_replies := i2c_replies ch;
     i2c_sent := i2c_sent ch ++ [bytes] |}.

(** The channel after a read. *)
Definition answered (ch : I2C) : I2C :=
  {| i2c_acks := i2c_acks ch; i2c_replies := tl (i2c_replies ch);
     i2c_sent := i2c_sent ch |}.

(** The channel after polling: the refusals at the head of the script and
    the acknowledge after them are consumed, each probe an empty write. *)
Fixpoint polled_acks (acks : list Z) : list Z :=
  match acks with
  | [] => []
  | r :: acks => if negb (r =? 0) then polled_acks acks else acks
  end.

Fixpoint probes (acks : list Z) : nat :=
  match acks with
  | [] => 1
  | r :: acks => if negb (r =? 0) then S (probes acks) else 1
  end.

Definition polled (ch : I2C) : I2C :=
  {| i2c_acks := polled_acks (i2c_acks ch); i2c_replies := i2c_replies ch;
     i2c_sent := i2c_sent ch ++ replicate (probes (i2c_acks ch)) [] |}.

(** Stability of an operation under a relation [R] between the world
    before and after. *)
Definition stable_under (R : World -> World -> Prop) {A} (c : M A) : Prop :=
  forall w r w', c w = Some (r, w') -> R w w'.

(** Stability for the results that satisfy [P] only. *)
Definition stable_under_if (R : World -> World -> Prop) {A} (P : A -> Prop)
    (c : M A) : Prop :=
  forall w r w', c w = Some (r, w') -> P r -> R w w'.

(** The common shape of [read_binary] and [st_read_binary], which differ in
    the class byte and in recording the offset. *)
Definition read_binary_with (cla : Z) (record_offset : bool)
    (offset length : Z) (buffer : ptr) : M Z :=
  (* clamp the buffer to the max size *)
  let length :=
    if length >? MAX_OPERATION_SIZE then MAX_OPERATION_SIZE else length in
  (* build the command; LC and data are not set by the source and not
     selected *)
  let command := {| CLA := cla; INS := C_APDU_READ_BINARY;
                    P1 := GETMSB offset; P2 := GETLSB offset;
                    LC := 0; body_data := None; LE := length |} in
  let* command_length := build_in_buffer CMD_MASK_READBINARY command in
  let* frame := gets _buffer in
  let* status := io_send_i2c_command command_length frame in
  if failed status then
    callback (on_read_byte status offset buffer length);;
    ret status
  else
    modify (set_last_command READ);;
    let* lcd := gets _last_command_data in
    modify (set_last_command_data
              {| lcd_data := buffer; lcd_length := length;
                 lcd_offset := if record_offset then offset
                               else lcd_offset lcd |});;
    let* ct := gets _communication_type in
    match ct with
    | SYNC =>
        let* status := io_poll_i2c in
        if status =? M24SR_SUCCESS then receive_read_binary
        else
          modify (set_last_command NONE);;
          callback (on_read_byte status offset buffer length);;
          ret status
    | ASYNC => ret M24SR_SUCCESS
    end.

(** The caller's memory is unchanged. *)
Definition same_mem (w w' : World) : Prop := mem w' = mem w.

(** The log of the channel has only grown. *)
Definition sent_grows (w w' : World) : Prop :=
  exists l, i2c_sent (_i2c_channel w') = i2c_sent (_i2c_channel w) ++ l.

(** A driver whose scratch buffer has its 255 bytes and whose block number
    is a toggled one. *)
Definition driver_ok (w : World) : Prop :=
  length (_buffer w) = 255%nat /\ 0 <= block_number w <= 1.

(** A frame body followed by its CRC, low byte first. *)
Definition crc_framed (body : list Z) : list Z :=
  body ++ [GETLSB (crc16_fold body); GETMSB (crc16_fold body)].

Definition select_ndef_file_frame (bn ndef_file_id : Z) : list Z :=
  crc_framed [Z.lor 0x02 bn; C_APDU_CLA_DEFAULT; C_APDU_SELECT_FILE;
              0x00; 0x0C; 2; GETMSB ndef_file_id; GETLSB ndef_file_id].

Definition select_cc_file_frame (bn : Z) : list Z :=
  crc_framed [Z.lor 0x02 bn; C_APDU_CLA_DEFAULT; C_APDU_SELECT_FILE;
              0x00; 0x0C; 2; 0xE1; 0x03].

Definition read_binary_frame (cla bn offset len : Z) : list Z :=
  crc_framed [Z.lor 0x02 bn; cla; C_APDU_READ_BINARY;
              GETMSB offset; GETLSB offset; len].

Definition update_binary_frame (bn offset len : Z) (payload : list Z)
  : list Z :=
  crc_framed ([Z.lor 0x02 bn; C_APDU_CLA_DEFAULT; C_APDU_UPDATE_BINARY;
               GETMSB offset; GETLSB offset; len] ++
              take (Z.to_nat len) payload).

(** The world once a request frame is built in the scratch buffer and
    handed to the channel. *)
Definition requested (frame : list Z) (w : World) : World :=
  let w1 := set_block_number (toggle (block_number w))
              (set_buffer (frame ++ drop (length frame) (_buffer w)) w) in
  set_i2c_channel (written frame (_i2c_channel w1)) w1.

(** The acknowledgement [send_fwt_extension] builds. *)
Definition fwt_frame (fwt_byte : Z) : list Z := crc_framed [0xF2; fwt_byte].

(** The caller's pointer [p] addresses at least [n] bytes. *)
Definition addresses (p : ptr) (n : Z) (w : World) : Prop :=
  exists a block,
    p = Some a /\ mem w !! a = Some block /\ n <= Z.of_nat (length block).

(** ** Further commands

    The remaining commands of the state machine. Their completion callbacks
    are handed to the listener [get_callback()] returns, which is a
    parameter here: the properties hold whatever the listener does. *)

Definition SYSTEM_FILE_ID_BYTES : list Z := [0xE1; 0x01].

Definition C_APDU_VERIFY : Z := 0x20.
Definition C_APDU_CHANGE : Z := 0x24.
Definition C_APDU_DISABLE : Z := 0x26.
Definition C_APDU_ENABLE : Z := 0x28.
Definition C_APDU_INTERRUPT : Z := 0xD6.
Definition PASSWORD_NBBYTE : Z := 0x10.

Definition CMD_MASK_VERIFYBINARYWOPWD : Z := 0x013F.
Definition CMD_MASK_VERIFYBINARYWITHPWD : Z := 0x017F.
Definition CMD_MASK_CHANGEREFDATA : Z := 0x017F.
Definition CMD_MASK_ENABLEVERIFREQ : Z := 0x011F.
Definition CMD_MASK_DISABLEVERIFREQ : Z := 0x011F.
Definition CMD_MASK_SENDINTERRUPT : Z := 0x013F.
Definition CMD_MASK_GPOSTATE : Z := 0x017F.

(** More enumerators of [m24sr_driver.h]: the parameter error, the
    password types and the two GPO configurations the commands name. *)
Variable M24SR_IO_ERROR_PARAMETER : Z.
Variables READ_PASSWORD WRITE_PASSWORD I2C_PASSWORD : Z.
Variables INTERRUPT STATE_CONTROL : Z.

(** The completions of the commands below, with their arguments. *)
Inductive Completion :=
| on_session_open (status : Z)
| on_selected_system_file (status : Z)
| on_verified (status password_type : Z) (password : ptr)
| on_change_reference_data (status password_type : Z) (password : ptr)
| on_enable_verification_requirement (status password_type : Z)
| on_disable_verification_requirement (status password_type : Z)
| on_enable_permanent_state (status password_type : Z)
| on_disable_permanent_state (status password_type : Z).

(* get_callback()->on_...(this, ...) *)
Variable notify : Completion -> M unit.

(* M24srDriver::get_session(bool force) *)
Definition get_session (force : bool) : M Z :=
  (* special M24SR command *)
  let M24SR_OPENSESSION_COMMAND := 0x26 in
  let M24SR_KILLSESSION_COMMAND := 0x52 in
  let* status :=
    if force then io_send_i2c_command 1 [M24SR_OPENSESSION_COMMAND]
    else io_send_i2c_command 1 [M24SR_KILLSESSION_COMMAND] in
  if failed status then
    notify (on_session_open status);;
    ret status
  else
    (* the only way here is to poll I2C to know when M24SR is ready *)
    let* status := io_poll_i2c in
    notify (on_session_open status);;
    ret status.

(* M24srDriver::receive_select_application() *)
Definition receive_select_application : M Z :=
  let data_in := replicate 5 0 in
  modify (set_last_command NONE);;
  let* (status, data_in) := io_receive_i2c_response 5 data_in in
  if failed status then
    callback (on_selected_application status);;
    ret status
  else
    let* status := lift (is_correct_crc_residue data_in 5) in
    callback (on_selected_application status);;
    ret status.

(* M24srDriver::select_application() *)
Definition select_application : M Z :=
  let data_out := SELECTAPPLICATION_COMMAND in
  let P1_P2 := 0x0400 in
  (* build the command *)
  let command := {| CLA := C_APDU_CLA_DEFAULT; INS := C_APDU_SELECT_FILE;
                    P1 := GETMSB P1_P2; P2 := GETLSB P1_P2;
                    LC := 7; body_data := Some data_out; LE := 0 |} in
  let* length := build_in_buffer CMD_MASK_SELECTAPPLICATION command in
  (* send the request *)
  let* buffer := gets _buffer in
  let* status := io_send_i2c_command length buffer in
  if failed status then
    callback (on_selected_application status);;
    ret status
  else
    modify (set_last_command SELECT_APPLICATION);;
    let* ct := gets _communication_type in
    match ct with
    | SYNC =>
        let* status := io_poll_i2c in
        if status =? M24SR_SUCCESS then receive_select_application
        else
          modify (set_last_command NONE);;
          callback (on_selected_application status);;
          ret status
    | ASYNC => ret M24SR_SUCCESS
    end.

(* M24srDriver::receive_select_system_file() *)
Definition receive_select_system_file : M Z :=
  let data_in := replicate 5 0 in
  modify (set_last_command NONE);;
  let* (status, data_in) := io_receive_i2c_response 5 data_in in
  if failed status then
    notify (on_selected_system_file status);;
    ret status
  else
    let* status := lift (is_correct_crc_residue data_in 5) in
    notify (on_selected_system_file status);;
    ret status.

(* M24srDriver::select_system_file() *)
Definition select_system_file : M Z :=
  let data_out := SYSTEM_FILE_ID_BYTES in
  let P1_P2 := 0x000C in
  (* build the command; LE is not set by the source and not selected *)
  let command := {| CLA := C_APDU_CLA_DEFAULT; INS := C_APDU_SELECT_FILE;
                    P1 := GETMSB P1_P2; P2 := GETLSB P1_P2;
                    LC := 2; body_data := Some data_out; LE := 0 |} in
  let* length := build_in_buffer CMD_MASK_SELECTCCFILE command in
  (* send the request *)
  let* buffer := gets _buffer in
  let* status := io_send_i2c_command length buffer in
  if failed status then
    notify (on_selected_system_file status);;
    ret status
  else
    modify (set_last_command SELECT_SYSTEM_FILE);;
    let* ct := gets _communication_type in
    match ct with
    | SYNC =>
        let* status := io_poll_i2c in
        if status =? M24SR_SUCCESS then receive_select_system_file
        else
          modify (set_last_command NONE);;
          notify (on_selected_system_file status);;
          ret status
    | ASYNC => ret M24SR_SUCCESS
    end.

(* M24srDriver::receive_verify() *)
Definition receive_verify : M Z :=
  let respBuffer := replicate 5 0 in
  modify (set_last_command NONE);;
  let* lcd := gets _last_command_data in
  let data := lcd_data lcd in
  let type := lcd_offset lcd in
  let* (status, respBuffer) :=
    io_receive_i2c_response 5 respBuffer in
  if failed status then
    notify (on_verified status type data);;
    ret status
  else
    let* status :=
      lift (is_correct_crc_residue respBuffer STATUSRESPONSE_NBBYTE) in
    notify (on_verified status type data);;
    ret status.

(* M24srDriver::verify(PasswordType_t password_type, const uint8_t *password) *)
Definition verify (password_type : Z) (password : ptr) : M Z :=
  (* check the parameters *)
  if password_type >? I2C_PASSWORD then
    notify (on_verified M24SR_IO_ERROR_PARAMETER password_type password);;
    ret M24SR_IO_ERROR_PARAMETER
  else
    (* build the command; LE is not set by the source and not selected *)
    let* payload := deref password in
    let command := {| CLA := C_APDU_CLA_DEFAULT; INS := C_APDU_VERIFY;
                      P1 := GETMSB password_type; P2 := GETLSB password_type;
                      LC := match password with
                            | Some _ => 0x10
                            | None => 0x00
                            end;
                      body_data := payload; LE := 0 |} in
    let* length :=
      match password with
      | Some _ => build_in_buffer CMD_MASK_VERIFYBINARYWITHPWD command
      | None => build_in_buffer CMD_MASK_VERIFYBINARYWOPWD command
      end in
    (* send the request *)
    let* buffer := gets _buffer in
    let* status := io_send_i2c_command length buffer in
    if failed status then
      notify (on_verified status password_type password);;
      ret status
    else
      modify (set_last_command VERIFY);;
      modify (fun w =>
                set_last_command_data
                  {| lcd_data := password;
                     lcd_length := lcd_length (_last_command_data w);
                     lcd_offset := password_type |} w);;
      let* ct := gets _communication_type in
      match ct with
      | SYNC =>
          let* status := io_poll_i2c in
          if status =? M24SR_SUCCESS then receive_verify
          else
            modify (set_last_command NONE);;
            notify (on_verified status password_type password);;
            ret status
      | ASYNC => ret M24SR_SUCCESS
      end.

(* M24srDriver::receive_change_reference_data() *)
Definition receive_change_reference_data : M Z :=
  let rensponse := replicate 5 0 in
  let* lcd := gets _last_command_data in
  let type := lcd_offset lcd in
  let data := lcd_data lcd in
  let* (status, rensponse) :=
    io_receive_i2c_response STATUSRESPONSE_NBBYTE rensponse in
  if failed status then
    notify (on_change_reference_data status type data);;
    ret status
  else
    let* status :=
      lift (is_correct_crc_residue rensponse STATUSRESPONSE_NBBYTE) in
    notify (on_change_reference_data status type data);;
    ret status.

(* M24srDriver::change_reference_data(PasswordType_t password_type, const uint8_t *password) *)
Definition change_reference_data (password_type : Z) (password : ptr) : M Z :=
  (* check the parameters *)
  if password_type >? I2C_PASSWORD then
    notify (on_change_reference_data M24SR_IO_ERROR_PARAMETER password_type
                                     password);;
    ret M24SR_IO_ERROR_PARAMETER
  else
    (* build the command; LE is not set by the source and not selected *)
    let* payload := deref password in
    let command := {| CLA := C_APDU_CLA_DEFAULT; INS := C_APDU_CHANGE;
                      P1 := GETMSB password_type; P2 := GETLSB password_type;
                      LC := PASSWORD_NBBYTE; body_data := payload; LE := 0 |} in
    let* length := build_in_buffer CMD_MASK_CHANGEREFDATA command in
    (* send the request *)
    let* buffer := gets _buffer in
    let* status := io_send_i2c_command length buffer in
    if failed status then
      notify (on_change_reference_data status password_type password);;
      ret status
    else
      modify (set_last_command CHANGE_REFERENCE_DATA);;
      (* use the offset field to store the password type *)
      modify (fun w =>
                set_last_command_data
                  {| lcd_data := password;
                     lcd_length := lcd_length (_last_command_data w);
                     lcd_offset := u8 password_type |} w);;
      let* ct := gets _communication_type in
      match ct with
      | SYNC =>
          let* status := io_poll_i2c in
          if status =? M24SR_SUCCESS then receive_change_reference_data
          else
            modify (set_last_command NONE);;
            notify (on_change_reference_data status password_type password);;
            ret status
      | ASYNC => ret M24SR_SUCCESS
      end.

(* M24srDriver::receive_enable_verification_requirement() *)
Definition receive_enable_verification_requirement : M Z :=
  let rensponse := replicate 5 0 in
  let* lcd := gets _last_command_data in
  let type := lcd_offset lcd in
  let* (status, rensponse) :=
    io_receive_i2c_response STATUSRESPONSE_NBBYTE rensponse in
  if failed status then
    notify (on_enable_verification_requirement status type);;
    ret status
  else
    let* status :=
      lift (is_correct_crc_residue rensponse STATUSRESPONSE_NBBYTE) in
    notify (on_enable_verification_requirement status type);;
    ret status.

(* M24srDriver::enable_verification_requirement(PasswordType_t password_type) *)
Definition enable_verification_requirement (password_type : Z) : M Z :=
  (* check the parameters *)
  if negb (password_type =? READ_PASSWORD) &&
     negb (password_type =? WRITE_PASSWORD) then
    notify (on_enable_verification_requirement M24SR_IO_ERROR_PARAMETER password_type);;
    ret M24SR_IO_ERROR_PARAMETER
  else
    (* build the command; LC, the data and LE are not set by the source and
       not selected *)
    let command := {| CLA := C_APDU_CLA_DEFAULT; INS := C_APDU_ENABLE;
                      P1 := GETMSB password_type; P2 := GETLSB password_type;
                      LC := 0; body_data := None; LE := 0 |} in
    let* length := build_in_buffer CMD_MASK_ENABLEVERIFREQ command in
    (* send the request *)
    let* buffer := gets _buffer in
    let* status := io_send_i2c_command length buffer in
    if failed status then
      notify (on_enable_verification_requirement status password_type);;
      ret status
    else
      modify (set_last_command ENABLE_VERIFICATION_REQUIREMENT);;
      (* use the offset field to store the password type *)
      modify (fun w =>
                set_last_command_data
                  {| lcd_data := lcd_data (_last_command_data w);
                     lcd_length := lcd_length (_last_command_data w);
                     lcd_offset := u8 password_type |} w);;
      let* ct := gets _communication_type in
      match ct with
      | SYNC =>
          let* status := io_poll_i2c in
          if status =? M24SR_SUCCESS then receive_enable_verification_requirement
          else
            modify (set_last_command NONE);;
            notify (on_enable_verification_requirement status password_type);;
            ret status
      | ASYNC => ret M24SR_SUCCESS
      end.

(* M24srDriver::receive_disable_verification_requirement() *)
Definition receive_disable_verification_requirement : M Z :=
  let rensponse := replicate 5 0 in
  let* lcd := gets _last_command_data in
  let type := lcd_offset lcd in
  let* (status, rensponse) :=
    io_receive_i2c_response STATUSRESPONSE_NBBYTE rensponse in
  if failed status then
    notify (on_disable_verification_requirement status type);;
    ret status
  else
    let* status :=
      lift (is_correct_crc_residue rensponse STATUSRESPONSE_NBBYTE) in
    notify (on_disable_verification_requirement status type);;
    ret status.

(* M24srDriver::disable_verification_requirement(PasswordType_t password_type) *)
Definition disable_verification_requirement (password_type : Z) : M Z :=
  (* check the parameters *)
  if negb (password_type =? READ_PASSWORD) &&
     negb (password_type =? WRITE_PASSWORD) then
    notify (on_disable_verification_requirement M24SR_IO_ERROR_PARAMETER password_type);;
    ret M24SR_IO_ERROR_PARAMETER
  else
    (* build the command; LC, the data and LE are not set by the source and
       not selected *)
    let command := {| CLA := C_APDU_CLA_DEFAULT; INS := C_APDU_DISABLE;
                      P1 := GETMSB password_type; P2 := GETLSB password_type;
                      LC := 0; body_data := None; LE := 0 |} in
    let* length := build_in_buffer CMD_MASK_DISABLEVERIFREQ command in
    (* send the request *)
    let* buffer := gets _buffer in
    let* status := io_send_i2c_command length buffer in
    if failed status then
      notify (on_disable_verification_requirement status password_type);;
      ret status
    else
      modify (set_last_command DISABLE_VERIFICATION_REQUIREMENT);;
      (* use the offset field to store the password type *)
      modify (fun w =>
                set_last_command_data
                  {| lcd_data := lcd_data (_last_command_data w);
                     lcd_length := lcd_length (_last_command_data w);
                     lcd_offset := u8 password_type |} w);;
      let* ct := gets _communication_type in
      match ct with
      | SYNC =>
          let* status := io_poll_i2c in
          if status =? M24SR_SUCCESS then receive_disable_verification_requirement
          else
            modify (set_last_command NONE);;
            notify (on_disable_verification_requirement status password_type);;
            ret status
      | ASYNC => ret M24SR_SUCCESS
      end.

(* M24srDriver::receive_enable_permanent_state() *)
Definition receive_enable_permanent_state : M Z :=
  let rensponse := replicate 5 0 in
  let* lcd := gets _last_command_data in
  let type := lcd_offset lcd in
  let* (status, rensponse) :=
    io_receive_i2c_response STATUSRESPONSE_NBBYTE rensponse in
  if failed status then
    notify (on_enable_permanent_state status type);;
    ret status
  else
    let* status :=
      lift (is_correct_crc_residue rensponse STATUSRESPONSE_NBBYTE) in
    notify (on_enable_permanent_state status type);;
    ret status.

(* M24srDriver::enable_permanent_state(PasswordType_t password_type) *)
Definition enable_permanent_state (password_type : Z) : M Z :=
  (* check the parameters *)
  if negb (password_type =? READ_PASSWORD) &&
     negb (password_type =? WRITE_PASSWORD) then
    notify (on_enable_permanent_state M24SR_IO_ERROR_PARAMETER password_type);;
    ret M24SR_IO_ERROR_PARAMETER
  else
    (* build the command; LC, the data and LE are not set by the source and
       not selected *)
    let command := {| CLA := C_APDU_CLA_ST; INS := C_APDU_ENABLE;
                      P1 := GETMSB password_type; P2 := GETLSB password_type;
                      LC := 0; body_data := None; LE := 0 |} in
    let* length := build_in_buffer CMD_MASK_ENABLEVERIFREQ command in
    (* send the request *)
    let* buffer := gets _buffer in
    let* status := io_send_i2c_command length buffer in
    if failed status then
      notify (on_enable_permanent_state status password_type);;
      ret status
    else
      modify (set_last_command ENABLE_PERMANET_STATE);;
      (* use the offset field to store the password type *)
      modify (fun w =>
                set_last_command_data
                  {| lcd_data := lcd_data (_last_command_data w);
                     lcd_length := lcd_length (_last_command_data w);
                     lcd_offset := u8 password_type |} w);;
      let* ct := gets _communication_type in
      match ct with
      | SYNC =>
          let* status := io_poll_i2c in
          if status =? M24SR_SUCCESS then receive_enable_permanent_state
          else
            modify (set_last_command NONE);;
            notify (on_enable_permanent_state status password_type);;
            ret status
      | ASYNC => ret M24SR_SUCCESS
      end.

(* M24srDriver::receive_disable_permanent_state() *)
Definition receive_disable_permanent_state : M Z :=
  let rensponse := replicate 5 0 in
  let* lcd := gets _last_command_data in
  let type := lcd_offset lcd in
  let* (status, rensponse) :=
    io_receive_i2c_response STATUSRESPONSE_NBBYTE rensponse in
  if failed status then
    notify (on_disable_permanent_state status type);;
    ret status
  else
    let* status :=
      lift (is_correct_crc_residue rensponse STATUSRESPONSE_NBBYTE) in
    notify (on_disable_permanent_state status type);;
    ret status.

(** [disable_permanent_state] reports a refused request through
    [on_enable_permanent_state], as the source does. *)
(* M24srDriver::disable_permanent_state(PasswordType_t password_type) *)
Definition disable_permanent_state (password_type : Z) : M Z :=
  (* check the parameters *)
  if negb (password_type =? READ_PASSWORD) &&
     negb (password_type =? WRITE_PASSWORD) then
    notify (on_disable_permanent_state M24SR_IO_ERROR_PARAMETER password_type);;
    ret M24SR_IO_ERROR_PARAMETER
  else
    (* build the command; LC, the data and LE are not set by the source and
       not selected *)
    let command := {| CLA := C_APDU_CLA_ST; INS := C_APDU_DISABLE;
                      P1 := GETMSB password_type; P2 := GETLSB password_type;
                      LC := 0; body_data := None; LE := 0 |} in
    let* length := build_in_buffer CMD_MASK_DISABLEVERIFREQ command in
    (* send the request *)
    let* buffer := gets _buffer in
    let* status := io_send_i2c_command length buffer in
    if failed status then
      notify (on_enable_permanent_state status password_type);;
      ret status
    else
      modify (set_last_command DISABLE_PERMANET_STATE);;
      (* use the offset field to store the password type *)
      modify (fun w =>
                set_last_command_data
                  {| lcd_data := lcd_data (_last_command_data w);
                     lcd_length := lcd_length (_last_command_data w);
                     lcd_offset := u8 password_type |} w);;
      let* ct := gets _communication_type in
      match ct with
      | SYNC =>
          let* status := io_poll_i2c in
          if status =? M24SR_SUCCESS then receive_disable_permanent_state
          else
            modify (set_last_command NONE);;
            notify (on_disable_permanent_state status password_type);;
            ret status
      | ASYNC => ret M24SR_SUCCESS
      end.

(** [send_receive_i2c(length, buffer)]: the result is the status and the
    buffer, whose first five bytes the response overwrites. *)
Definition send_receive_i2c (length : Z) (buffer : list Z) : M (Z * list Z) :=
  (* send the request *)
  let* status := io_send_i2c_command length buffer in
  if failed status then ret (status, buffer)
  else
    let* status := io_poll_i2c in
    if failed status then ret (status, buffer)
    else
      (* read the response *)
      let* (status, buffer) :=
        io_receive_i2c_response STATUSRESPONSE_NBBYTE buffer in
      if failed status then ret (status, buffer)
      else
        let* status :=
          lift (is_correct_crc_residue buffer STATUSRESPONSE_NBBYTE) in
        ret (status, buffer).

(** [manage_i2c_gpo] reaches the GPO pin and the component callbacks of the
    header; it is a parameter of the two commands that start with it. *)
Variable manage_i2c_gpo : Z -> M Z.

(* M24srDriver::send_interrupt() *)
Definition send_interrupt : M Z :=
  let* status := manage_i2c_gpo INTERRUPT in
  if failed status then ret status
  else
    (* build the command; the data and LE are not set by the source and not
       selected *)
    let command := {| CLA := C_APDU_CLA_ST; INS := C_APDU_INTERRUPT;
                      P1 := 0x00; P2 := 0x1E;
                      LC := 0x00; body_data := None; LE := 0 |} in
    let* length := build_in_buffer CMD_MASK_SENDINTERRUPT command in
    let* buffer := gets _buffer in
    let* (status, buffer) := send_receive_i2c length buffer in
    modify (set_buffer buffer);;
    ret status.

(* M24srDriver::state_control(bool gpo_reset) *)
Definition state_control (gpo_reset : bool) : M Z :=
  let* status := manage_i2c_gpo STATE_CONTROL in
  if status =? M24SR_SUCCESS then ret status
  else
    let reset := if gpo_reset then 1 else 0 in
    (* build the command; LE is not set by the source and not selected *)
    let command := {| CLA := C_APDU_CLA_ST; INS := C_APDU_INTERRUPT;
                      P1 := 0x00; P2 := 0x1F;
                      LC := 0x01; body_data := Some [reset]; LE := 0 |} in
    let* length := build_in_buffer CMD_MASK_GPOSTATE command in
    let* buffer := gets _buffer in
    let* (status, buffer) := send_receive_i2c length buffer in
    modify (set_buffer buffer);;
    ret status.

(* M24srDriver::manage_event() *)
Definition manage_event : M Z :=
  let* last_command := gets _last_command in
  match last_command with
  | DESELECT => receive_deselect
  | SELECT_APPLICATION => receive_select_application
  | SELECT_CC_FILE => receive_select_cc_file
  | SELECT_NDEF_FILE => receive_select_ndef_file
  | SELECT_SYSTEM_FILE => receive_select_system_file
  | READ => receive_read_binary
  | UPDATE => receive_update_binary
  | VERIFY => receive_verify
  | CHANGE_REFERENCE_DATA => receive_change_reference_data
  | ENABLE_VERIFICATION_REQUIREMENT => receive_enable_verification_requirement
  | DISABLE_VERIFICATION_REQUIREMENT =>
      receive_disable_verification_requirement
  | ENABLE_PERMANET_STATE => receive_enable_permanent_state
  | DISABLE_PERMANET_STATE => receive_disable_permanent_state
  | NONE => ret M24SR_SUCCESS
  end.

(** ** The common shape of the protection commands

    The four commands that switch a protection differ in the class and
    instruction bytes, the mask, the pending command, the receive step and
    the callbacks: [rejected] for a wrong parameter, [refused] for a refused
    request, [unanswered] after the poll. *)

Definition receive_protection (report : Z -> Z -> Completion) : M Z :=
  let rensponse := replicate 5 0 in
  let* lcd := gets _last_command_data in
  let type := lcd_offset lcd in
  let* (status, rensponse) :=
    io_receive_i2c_response STATUSRESPONSE_NBBYTE rensponse in
  if failed status then
    notify (report status type);;
    ret status
  else
    let* status :=
      lift (is_correct_crc_residue rensponse STATUSRESPONSE_NBBYTE) in
    notify (report status type);;
    ret status.

Definition protection_command (cla ins command_mask : Z) (pending : Command)
    (rejected refused unanswered : Z -> Z -> Completion)
    (password_type : Z) : M Z :=
  if negb (password_type =? READ_PASSWORD) &&
     negb (password_type =? WRITE_PASSWORD) then
    notify (rejected M24SR_IO_ERROR_PARAMETER password_type);;
    ret M24SR_IO_ERROR_PARAMETER
  else
    let command := {| CLA := cla; INS := ins;
                      P1 := GETMSB password_type; P2 := GETLSB password_type;
                      LC := 0; body_data := None; LE := 0 |} in
    let* length := build_in_buffer command_mask command in
    let* buffer := gets _buffer in
    let* status := io_send_i2c_command length buffer in
    if failed status then
      notify (refused status password_type);;
      ret status
    else
      modify (set_last_command pending);;
      modify (fun w =>
                set_last_command_data
                  {| lcd_data := lcd_data (_last_command_data w);
                     lcd_length := lcd_length (_last_command_data w);
                     lcd_offset := u8 password_type |} w);;
      let* ct := gets _communication_type in
      match ct with
      | SYNC =>
          let* status := io_poll_i2c in
          if status =? M24SR_SUCCESS then receive_protection unanswered
          else
            modify (set_last_command NONE);;
            notify (unanswered status password_type);;
            ret status
      | ASYNC => ret M24SR_SUCCESS
      end.

(** ** Further auxiliary notions *)

(** The 256 byte values. *)
Definition bytes : list Z := map Z.of_nat (seq 0 256).

(** The contribution of the folded byte to the accumulator:
    [update_crc ch crc] is the high byte of [crc] combined with
    [crc_table] of [ch] combined with the low byte of [crc]. *)
Definition crc_table (y : Z) : Z := update_crc y 0.

(** No two bytes have table entries with the same high byte. *)
Definition crc_table_separates : bool :=
  forallb (fun x =>
    forallb (fun y =>
      implb (crc_table x / 256 =? crc_table y / 256) (x =? y)) bytes) bytes.

(** [frame] fits a buffer of [n] bytes and can be built: the payload, when
    selected, is there, and a selected CRC has a span to cover. *)
Definition encodable (mask : Z) (command : C_APDU) (did bn : Z) (n : nat)
  : Prop :=
  (length (frame_of mask command did bn) <= n)%nat /\
  (needed mask DATA_NEEDED = true ->
   0 <= LC command /\
   match body_data command with
   | Some data => LC command <= Z.of_nat (length data)
   | None => True
   end) /\
  (needed mask CRC_NEEDED = true ->
   frame_fields mask command (field bn DID_NEEDED did) bn <> []).

(** The test of [is_S_block] on every byte, against the range 0xC0..0xFF. *)
Definition sblock_is_range : bool :=
  forallb (fun pcb =>
    Bool.eqb (Z.land pcb MASK_BLOCK =? MASK_SBLOCK) (0xC0 <=? pcb)) bytes.


(** The channel acknowledges every write of its script. *)
Definition acknowledging (w : World) : Prop :=
  Forall (fun r => r = 0) (i2c_acks (_i2c_channel w)).

(** A wait-time-extension request as the receive step of an update takes
    it: five bytes read, the header of an S-block, and a first four bytes
    the validator does not reject. *)
Definition wtx_request (r : list Z) : Prop :=
  length r = 5%nat /\
  Z.land (nth 0 r 0) MASK_BLOCK = MASK_SBLOCK /\
  is_correct_crc_residue r WATINGTIMEEXTRESPONSE_NBBYTE <>
    Some M24SR_IO_ERROR_CRC.

(** What the driver writes for the extensions it grants: for each request
    the acknowledgement and the probe of the poll that follows. *)
Definition extension_traffic (wtxs : list (list Z)) : list (list Z) :=
  flat_map (fun r => [fwt_frame (nth 1 r 0); []]) wtxs.

(** The scratch buffer keeps its size and the block number its value. *)
Definition same_frame (w w' : World) : Prop :=
  length (_buffer w') = length (_buffer w) /\
  block_number w' = block_number w.

(** A command keeps the driver well formed and advances the block number
    by one toggle, whatever it returns. *)
Definition toggles_once (c : M Z) : Prop :=
  forall w status w',
    driver_ok w -> c w = Some (status, w') ->
    driver_ok w' /\ block_number w' = toggle (block_number w).

(** A command leaves the caller's memory alone, whatever it returns. *)
Definition keeps_memory (c : M Z) : Prop :=
  forall w status w', c w = Some (status, w') -> mem w' = mem w.

(** The request frames of the password commands. *)
Definition verify_frame (bn password_type : Z) (password : option (list Z))
  : list Z :=
  crc_framed ([Z.lor 0x02 bn; C_APDU_CLA_DEFAULT; C_APDU_VERIFY;
               GETMSB password_type; GETLSB password_type] ++
              match password with
              | Some bytes => 0x10 :: take 16 bytes
              | None => [0x00]
              end).

Definition change_reference_data_frame (bn password_type : Z)
    (password : option (list Z)) : list Z :=
  crc_framed ([Z.lor 0x02 bn; C_APDU_CLA_DEFAULT; C_APDU_CHANGE;
               GETMSB password_type; GETLSB password_type; 0x10] ++
              match password with
              | Some bytes => take 16 bytes
              | None => replicate 16 0
              end).

Definition protection_frame (bn cla ins password_type : Z) : list Z :=
  crc_framed [Z.lor 0x02 bn; cla; ins;
              GETMSB password_type; GETLSB password_type].

(** The world once the answer to a pending command is read. *)
Definition received (w : World) : World :=
  set_i2c_channel (answered (_i2c_channel w)) w.

(** The pending command and what is recorded for it. *)
Definition pending (command : Command) (data : ptr) (offset : Z) (w : World)
  : World :=
  set_last_command_data
    {| lcd_data := data; lcd_length := lcd_length (_last_command_data w);
       lcd_offset := offset |}
    (set_last_command command w).

(** What a protection command [command] does on a well-formed driver: a
    type that is neither [READ_PASSWORD] nor [WRITE_PASSWORD] is handed to
    [own] with the parameter error and nothing else happens; otherwise the
    request with class [cla] and instruction [ins] is built and written; a
    refused write is handed to [refused], and an acknowledged one leaves, in
    asynchronous mode, [command_id] pending with the type in the offset
    field. *)
Definition protection_behaviour (command : Z -> M Z) (cla ins : Z)
    (command_id : Command) (own refused : Z -> Z -> Completion) : Prop :=
  forall password_type w,
    driver_ok w ->
    let ack := hd 0 (i2c_acks (_i2c_channel w)) in
    let w0 :=
      requested (protection_frame (toggle (block_number w)) cla ins
                                  password_type) w in
    (password_type <> READ_PASSWORD /\ password_type <> WRITE_PASSWORD ->
     command password_type w =
       (notify (own M24SR_IO_ERROR_PARAMETER password_type);;
        ret M24SR_IO_ERROR_PARAMETER) w) /\
    (password_type = READ_PASSWORD \/ password_type = WRITE_PASSWORD ->
     (ack <> 0 ->
      command password_type w =
        (notify (refused M24SR_IO_ERROR_I2CTIMEOUT password_type);;
         ret M24SR_IO_ERROR_I2CTIMEOUT) w0) /\
     (ack = 0 -> _communication_type w = ASYNC ->
      command password_type w =
        Some (M24SR_SUCCESS,
              pending command_id (lcd_data (_last_command_data w))
                      (u8 password_type) w0))).

(** The request frames of the selections and of the GPO commands. *)
Definition select_application_request (bn : Z) : list Z :=
  crc_framed ([Z.lor 0x02 bn; C_APDU_CLA_DEFAULT; C_APDU_SELECT_FILE;
               0x04; 0x00; 7] ++ SELECTAPPLICATION_COMMAND ++ [0x00]).

Definition select_system_file_frame (bn : Z) : list Z :=
  crc_framed [Z.lor 0x02 bn; C_APDU_CLA_DEFAULT; C_APDU_SELECT_FILE;
              0x00; 0x0C; 2; 0xE1; 0x01].

Definition send_interrupt_frame (bn : Z) : list Z :=
  crc_framed [Z.lor 0x02 bn; C_APDU_CLA_ST; C_APDU_INTERRUPT;
              0x00; 0x1E; 0x00].

Definition state_control_frame (bn : Z) (gpo_reset : bool) : list Z :=
  crc_framed [Z.lor 0x02 bn; C_APDU_CLA_ST; C_APDU_INTERRUPT;
              0x00; 0x1F; 0x01; if gpo_reset then 1 else 0].

(** The world once a frame is built in the scratch buffer. *)
Definition built (frame : list Z) (w : World) : World :=
  set_block_number (toggle (block_number w))
    (set_buffer (frame ++ drop (length frame) (_buffer w)) w).

(** Send the frame of [n] bytes in the scratch buffer, read the answer into
    it and return the verdict. *)
Definition exchange (n : Z) : M Z :=
  let* buffer := gets _buffer in
  let* (status, buffer) := send_receive_i2c n buffer in
  modify (set_buffer buffer);;
  ret status.

(** A receive step that always returns, clears the pending command, reads
    one answer of five bytes and reports the status it returns exactly once
    through [report]: the timeout when the read fails, and the validator's
    verdict when it does not. *)
Definition reports_once (receive : M Z) (report : Z -> Callback) : Prop :=
  forall w,
    let reply := hd (1, []) (i2c_replies (_i2c_channel w)) in
    let got := take 5 (snd reply) in
    let answer := got ++ drop (length got) (replicate 5 0) in
    exists status,
      receive w =
        Some (status,
              set_callbacks (callbacks w ++ [report status])
                (received (set_last_command NONE w))) /\
      (fst reply <> 0 -> status = M24SR_IO_ERROR_I2CTIMEOUT) /\
      (fst reply = 0 -> is_correct_crc_residue answer 5 = Some status).

(** ** Sample values and worlds

    Values for the enumerators of [M24srError_t] and concrete worlds, for the
    closed instances at the end. *)

Definition sample_SUCCESS : Z := 0x0000.
Definition sample_ERROR : Z := 0x6F00.
Definition sample_IO_ERROR_I2CTIMEOUT : Z := 0x0011.
Definition sample_IO_ERROR_CRC : Z := 0x0012.

(** The driver after construction: a zeroed 255-byte scratch buffer, no
    pending command, block number 1; the channel script, the communication
    mode and the caller's memory are given. *)
Definition driver (ct : CommunicationType) (acks : list Z)
    (replies : list (Z * list Z)) (m : gmap nat (list Z)) : World :=
  {| _buffer := replicate 255 0; _did_byte := 0;
     _communication_type := ct; _last_command := NONE;
     _last_command_data :=
       {| lcd_data := None; lcd_length := 0; lcd_offset := 0 |};
     block_number := 0x01;
     _i2c_channel :=
       {| i2c_acks := acks; i2c_replies := replies; i2c_sent := [] |};
     mem := m; callbacks := [] |}.

(** The select-application descriptor of the driver. *)
Definition select_application_command : C_APDU :=
  {| CLA := C_APDU_CLA_DEFAULT; INS := C_APDU_SELECT_FILE;
     P1 := 0x04; P2 := 0x00; LC := 7;
     body_data := Some SELECTAPPLICATION_COMMAND; LE := 0 |}.

(** An update descriptor with a payload of 247 bytes. *)
Definition oversized_update_command : C_APDU :=
  {| CLA := C_APDU_CLA_DEFAULT; INS := C_APDU_UPDATE_BINARY;
     P1 := 0x00; P2 := 0x00; LC := 247;
     body_data := Some (replicate 247 0xAB); LE := 0 |}.

(** The chip's answer [02 90 00 F1 09]: success, with its CRC. *)
Definition success_response : list Z := [0x02; 0x90; 0x00; 0xF1; 0x09].

(** A wait-time-extension request [F2 01 91 40], read into five bytes. *)
Definition wtx_response : list Z := [0xF2; 0x01; 0x91; 0x40; 0x00].

(** A driver with a four-byte read from offset 0 pending, into block 0 of
    the caller's memory, and the chip's answer with its last CRC byte
    corrupted. *)
Definition corrupted_read : World :=
  {| _buffer := replicate 255 0; _did_byte := 0;
     _communication_type := SYNC; _last_command := READ;
     _last_command_data :=
       {| lcd_data := Some 0%nat; lcd_length := 4; lcd_offset := 0 |};
     block_number := 0x00;
     _i2c_channel :=
       {| i2c_acks := [];
          i2c_replies :=
            [(0, [0x02; 0x01; 0x02; 0x03; 0x04; 0x90; 0x00; 0xCE; 0x07])];
          i2c_sent := [] |};
     mem := {[ 0%nat := replicate 16 0xEE ]}; callbacks := [] |}.

(** A freshly constructed synchronous driver, a caller block of 255 bytes,
    and a chip that answers the read with a transport error. *)
Definition oversized_call : World :=
  driver SYNC [] [] {[ 0%nat := replicate 255 0xEE ]}.

(** More sample values: the parameter error, the password types as the
    comments of the source give them, a listener that does nothing, and
    the chip's answer to a read of four bytes. *)
Definition sample_IO_ERROR_PARAMETER : Z := 0x0014.
Definition sample_READ_PASSWORD : Z := 0x0001.
Definition sample_WRITE_PASSWORD : Z := 0x0002.
Definition sample_I2C_PASSWORD : Z := 0x0003.

Definition silent : Completion -> M unit := fun _ => ret tt.

Definition read_response : list Z :=
  crc_framed (0x02 :: [0x01; 0x02; 0x03; 0x04] ++ [0x90; 0x00]).

(** A caller with one block of 16 bytes. *)
Definition caller : gmap nat (list Z) := {[ 0%nat := replicate 16 0xEE ]}.

(** * Properties *)

(** ** CRC engine *)

Lemma u8_range x : 0 <= u8 x < 256.
Proof. unfold u8. apply Z.mod_pos_bound. lia. Qed.

Lemma u16_range x : 0 <= u16 x < 65536.
Proof. unfold u16. apply Z.mod_pos_bound. lia. Qed.

Lemma u8_small x : 0 <= x < 256 -> u8 x = x.
Proof. intros. unfold u8. apply Z.mod_small. lia. Qed.

Lemma u16_small x : 0 <= x < 65536 -> u16 x = x.
Proof. intros. unfold u16. apply Z.mod_small. lia. Qed.

Lemma update_crc_range ch crc : 0 <= update_crc ch crc < 65536.
Proof. unfold update_crc. apply u16_range. Qed.

Lemma crc16_fold_range b : 0 <= crc16_fold b < 65536.
Proof.
  unfold crc16_fold.
  assert (H : forall acc, 0 <= acc < 65536 ->
            0 <= fold_left (fun crc ch => update_crc ch crc) b acc < 65536).
  { induction b as [|ch b IH]; intros acc Hacc; simpl; [exact Hacc|].
    apply IH, update_crc_range. }
  apply H. lia.
Qed.

Lemma crc16_fold_snoc b ch :
  crc16_fold (b ++ [ch]) = update_crc ch (crc16_fold b).
Proof. unfold crc16_fold. rewrite fold_left_app. reflexivity. Qed.

(** The loop folds the first [length] bytes of the buffer. *)
Lemma compute_crc_loop_fold fuel : forall (data : list Z) n crc,
  (0 < n)%nat -> (n <= fuel)%nat -> (n <= 255)%nat -> (n <= length data)%nat ->
  compute_crc_loop fuel data (Z.of_nat n) crc =
    Some (fold_left (fun crc ch => update_crc ch crc) (take n data) crc).
Proof.
  induction fuel as [|fuel IH]; intros data n crc Hn Hf H255 Hlen; [lia|].
  destruct data as [|ch data]; [simpl in Hlen; lia|].
  destruct n as [|n]; [lia|].
  cbn [compute_crc_loop take fold_left].
  replace (u8 (Z.of_nat (S n) - 1)) with (Z.of_nat n)
    by (rewrite u8_small; lia).
  destruct n as [|n].
  - reflexivity.
  - replace (Z.of_nat (S n) =? 0) with false by (symmetry; apply Z.eqb_neq; lia).
    apply IH; simpl in Hlen; lia.
Qed.

Lemma compute_crc_fold (data : list Z) (len : Z) :
  0 < len <= 255 -> len <= Z.of_nat (length data) ->
  compute_crc data len = Some (crc16_fold (take (Z.to_nat len) data)).
Proof.
  intros Hlen Hdata. unfold compute_crc, crc16_fold.
  rewrite u8_small by lia.
  rewrite <- (Z2Nat.id len) at 1 by lia.
  apply compute_crc_loop_fold; lia.
Qed.

Lemma land_255_u8 x : 0 <= x -> Z.land x 0x00FF = x mod 256.
Proof. intros. change 0x00FF with (Z.ones 8). rewrite Z.land_ones by lia. reflexivity. Qed.

Lemma GETLSB_eq x : 0 <= x -> GETLSB x = x mod 256.
Proof.
  intros. unfold GETLSB. rewrite land_255_u8 by lia.
  unfold u8. apply Z.mod_mod. lia.
Qed.

Lemma GETMSB_eq x : 0 <= x < 65536 -> GETMSB x = x / 256.
Proof.
  intros. unfold GETMSB.
  assert (Z.land x 0xFF00 = 256 * (x / 256)) as ->.
  { apply Z.bits_inj'. intros n Hn.
    rewrite Z.land_spec.
    change 256 with (2 ^ 8). rewrite <- Z.shiftr_div_pow2 by lia.
    rewrite Z.mul_comm, <- Z.shiftl_mul_pow2 by lia.
    destruct (Z.lt_ge_cases n 8) as [Hlt|Hge].
    - rewrite Z.shiftl_spec_low by lia.
      replace (Z.testbit 0xFF00 n) with false; [apply andb_false_r|].
      assert (n = 0 \/ n = 1 \/ n = 2 \/ n = 3 \/ n = 4 \/ n = 5 \/ n = 6 \/ n = 7)
        as Hc by lia.
      destruct Hc as [->|[->|[->|[->|[->|[->|[->| ->]]]]]]]; reflexivity.
    - rewrite Z.shiftl_spec by lia. rewrite Z.shiftr_spec by lia.
      replace (n - 8 + 8) with n by lia.
      destruct (Z.lt_ge_cases n 16) as [Hlt|Hge'].
      + replace (Z.testbit 0xFF00 n) with true; [apply andb_true_r|].
        assert (n = 8 \/ n = 9 \/ n = 10 \/ n = 11 \/ n = 12 \/ n = 13 \/
                n = 14 \/ n = 15) as Hc by lia.
        destruct Hc as [->|[->|[->|[->|[->|[->|[->| ->]]]]]]]; reflexivity.
      + replace (Z.testbit x n) with false; [reflexivity|].
        symmetry. apply Z.bits_above_log2; [lia|].
        destruct (Z.eq_dec x 0) as [->|Hx]; [simpl; lia|].
        apply Z.log2_lt_pow2; [lia|].
        apply Z.lt_le_trans with (2 ^ 16); [simpl; lia|].
        apply Z.pow_le_mono_r; lia. }
  rewrite Z.shiftr_div_pow2 by lia. change (2 ^ 8) with 256.
  rewrite Z.mul_comm, Z.div_mul by lia.
  apply u8_small. split; [apply Z.div_pos; lia|].
  apply Z.div_lt_upper_bound; lia.
Qed.

(** Folding in the low byte of the accumulator shifts it right by a byte. *)
Lemma update_crc_low_byte crc :
  0 <= crc < 65536 -> update_crc (GETLSB crc) crc = crc / 256.
Proof.
  intros Hc. unfold update_crc.
  rewrite GETLSB_eq by lia. rewrite land_255_u8 by lia.
  fold (u8 crc). rewrite (u8_small (u8 crc)) by apply u8_range.
  rewrite Z.lxor_nilpotent. change (u8 0) with 0.
  change (Z.shiftl 0 4) with 0. change (Z.lxor 0 0) with 0.
  change (u8 0) with 0. change (u16 0) with 0.
  change (Z.shiftl 0 8) with 0. change (Z.shiftl 0 3) with 0.
  change (Z.shiftr 0 4) with 0.
  rewrite !Z.lxor_0_r. rewrite Z.shiftr_div_pow2 by lia.
  change (2 ^ 8) with 256. apply u16_small.
  split; [apply Z.div_pos; lia|]. apply Z.div_lt_upper_bound; lia.
Qed.

(** C3: appending the CRC16 of a non-empty span, low byte first, and
    recomputing over the extended span gives residue zero; the CRC of the
    span is the fold of [update_crc] from 0x6363. The span with its two CRC
    bytes must be addressable by the [uint8_t] length of [compute_crc]. *)
Theorem compute_crc_residue_zero (b : list Z) :
  b <> [] -> Z.of_nat (length b) + 2 <= 255 ->
  compute_crc b (Z.of_nat (length b)) = Some (crc16_fold b) /\
  compute_crc (b ++ [GETLSB (crc16_fold b); GETMSB (crc16_fold b)])
              (Z.of_nat (length b) + 2) = Some 0.
Proof.
  intros Hne Hlen.
  assert (0 < length b)%nat as Hpos by (destruct b; [congruence | simpl; lia]).
  split.
  - rewrite compute_crc_fold by lia.
    rewrite Nat2Z.id, firstn_all. reflexivity.
  - rewrite compute_crc_fold by (rewrite ?length_app; simpl; lia).
    replace (Z.to_nat (Z.of_nat (length b) + 2))
      with (length (b ++ [GETLSB (crc16_fold b); GETMSB (crc16_fold b)]))
      by (rewrite length_app; simpl; lia).
    rewrite firstn_all.
    change (b ++ [GETLSB (crc16_fold b); GETMSB (crc16_fold b)])
      with (b ++ [GETLSB (crc16_fold b)] ++ [GETMSB (crc16_fold b)]).
    rewrite app_assoc, !crc16_fold_snoc.
    pose proof (crc16_fold_range b) as Hr.
    rewrite update_crc_low_byte by lia.
    rewrite GETMSB_eq by lia.
    set (c := crc16_fold b / 256).
    assert (0 <= c < 256) as Hc.
    { subst c. split; [apply Z.div_pos; lia|]. apply Z.div_lt_upper_bound; lia. }
    replace c with (GETLSB c) at 1 by (rewrite GETLSB_eq by lia; apply Z.mod_small; lia).
    rewrite update_crc_low_byte by lia.
    f_equal. apply Z.div_small. lia.
Qed.

(** C3, witness: the span [02 90 00]. *)
Lemma compute_crc_residue_zero_witness :
  compute_crc [0x02; 0x90; 0x00] 3 = Some (crc16_fold [0x02; 0x90; 0x00]) /\
  compute_crc ([0x02; 0x90; 0x00] ++
               [GETLSB (crc16_fold [0x02; 0x90; 0x00]);
                GETMSB (crc16_fold [0x02; 0x90; 0x00])]) (3 + 2) = Some 0.
Proof.
  apply (compute_crc_residue_zero [0x02; 0x90; 0x00]).
  - discriminate.
  - simpl. lia.
Defined.


(** ** Response validator *)

(** The fold over a span followed by its CRC, low byte first, is zero,
    whatever the length of the span. *)
Lemma crc16_fold_crc_framed b : crc16_fold (crc_framed b) = 0.
Proof.
  unfold crc_framed.
  change (b ++ [GETLSB (crc16_fold b); GETMSB (crc16_fold b)])
    with (b ++ [GETLSB (crc16_fold b)] ++ [GETMSB (crc16_fold b)]).
  rewrite app_assoc, !crc16_fold_snoc.
  pose proof (crc16_fold_range b) as Hr.
  rewrite update_crc_low_byte by lia.
  rewrite GETMSB_eq by lia.
  set (c := crc16_fold b / 256).
  assert (0 <= c < 256) as Hc.
  { subst c. split; [apply Z.div_pos; lia|]. apply Z.div_lt_upper_bound; lia. }
  replace c with (GETLSB c) at 1
    by (rewrite GETLSB_eq by lia; apply Z.mod_small; lia).
  rewrite update_crc_low_byte by lia.
  apply Z.div_small. lia.
Qed.

Lemma peek_nth (data : list Z) (i : Z) :
  0 <= i < Z.of_nat (length data) ->
  peek data i = Some (nth (Z.to_nat i) data 0).
Proof.
  intros Hi. unfold peek.
  replace (i <? 0) with false by (symmetry; apply Z.ltb_ge; lia).
  destruct (nth_lookup_or_length data (Z.to_nat i) 0) as [H|H]; [exact H | lia].
Qed.

(** The status word of two bytes is the big-endian number they spell. *)
Lemma status_word_bytes hi lo :
  0 <= hi < 256 -> 0 <= lo < 256 -> status_word hi lo = 256 * hi + lo.
Proof.
  intros Hhi Hlo. unfold status_word.
  rewrite (land_255_u8 lo) by lia. rewrite (Z.mod_small lo) by lia.
  change 0xFF00 with (Z.shiftl 0xFF 8).
  rewrite <- Z.shiftl_land, (land_255_u8 hi) by lia.
  rewrite (Z.mod_small hi) by lia.
  assert (Z.land (Z.shiftl hi 8) lo = 0) as Hdisj.
  { apply Z.bits_inj'. intros n Hn. rewrite Z.land_spec, Z.bits_0.
    destruct (Z.lt_ge_cases n 8) as [Hlt|Hge].
    - rewrite Z.shiftl_spec_low by lia. reflexivity.
    - replace (Z.testbit lo n) with false; [apply andb_false_r|].
      symmetry. destruct (Z.eq_dec lo 0) as [->|Hnz]; [apply Z.bits_0|].
      apply Z.bits_above_log2; [lia|].
      apply Z.lt_le_trans with 8; [|lia].
      apply Z.log2_lt_pow2; [lia|]. change (2 ^ 8) with 256. lia. }
  rewrite <- Z.add_nocarry_lor by exact Hdisj.
  rewrite Z.shiftl_mul_pow2 by lia. change (2 ^ 8) with 256. lia.
Qed.

(** What the validator returns on a frame that carries its two status bytes
    and two CRC bytes, in a buffer of at least five bytes. *)
Lemma is_correct_crc_residue_cases (data : list Z) (len : Z) :
  4 <= len <= 255 -> len <= Z.of_nat (length data) ->
  5 <= Z.of_nat (length data) ->
  is_correct_crc_residue data len =
    Some (if crc16_fold (take (Z.to_nat len) data) =? 0 then
            to_status (status_word (nth (Z.to_nat (len - 4)) data 0)
                                   (nth (Z.to_nat (len - 3)) data 0))
          else if crc16_fold (take 5 data) =? 0 then
            to_status (status_word (nth 1 data 0) (nth 2 data 0))
          else M24SR_IO_ERROR_CRC).
Proof.
  intros Hlen Hdata H5. unfold is_correct_crc_residue.
  rewrite u8_small by lia.
  replace (len =? 0) with false by (symmetry; apply Z.eqb_neq; lia).
  rewrite (compute_crc_fold data len) by lia. simpl.
  destruct (crc16_fold (take (Z.to_nat len) data) =? 0) eqn:Hfull.
  - unfold UB_STATUS_OFFSET, LB_STATUS_OFFSET.
    rewrite !peek_nth by lia. reflexivity.
  - rewrite (compute_crc_fold data 5) by lia. simpl.
    change (Z.to_nat 5) with 5%nat.
    destruct (crc16_fold (take 5 data) =? 0) eqn:Hnarrow; simpl.
    + rewrite !peek_nth by lia. reflexivity.
    + reflexivity.
Qed.

(** C1 (amended): the validator computes the residue over the full span; on
    a zero residue it returns the status at offsets [len-4] and [len-3],
    with 0x9000 mapped to success; otherwise it recomputes the residue over
    the first five bytes and returns the status at offsets 1 and 2 when
    that residue is zero, and the CRC error code when both residues are
    non-zero. The CRC error code is returned exactly when both residues
    are non-zero or the status extracted from a window with zero residue is
    itself that code. *)
Theorem is_correct_crc_residue_two_windows (data : list Z) (len : Z) :
  4 <= len <= 255 -> len <= Z.of_nat (length data) ->
  5 <= Z.of_nat (length data) ->
  let full := crc16_fold (take (Z.to_nat len) data) in
  let narrow := crc16_fold (take 5 data) in
  let status_full :=
    to_status (status_word (nth (Z.to_nat (len - 4)) data 0)
                           (nth (Z.to_nat (len - 3)) data 0)) in
  let status_narrow :=
    to_status (status_word (nth 1 data 0) (nth 2 data 0)) in
  compute_crc data len = Some full /\
  compute_crc data 5 = Some narrow /\
  (full = 0 -> is_correct_crc_residue data len = Some status_full) /\
  (full <> 0 -> narrow = 0 ->
   is_correct_crc_residue data len = Some status_narrow) /\
  (full <> 0 -> narrow <> 0 ->
   is_correct_crc_residue data len = Some M24SR_IO_ERROR_CRC) /\
  (is_correct_crc_residue data len = Some M24SR_IO_ERROR_CRC <->
   (full <> 0 /\ narrow <> 0) \/
   (full = 0 /\ status_full = M24SR_IO_ERROR_CRC) \/
   (full <> 0 /\ narrow = 0 /\ status_narrow = M24SR_IO_ERROR_CRC)).
Proof.
  intros Hlen Hdata H5 full narrow status_full status_narrow.
  pose proof (is_correct_crc_residue_cases data len Hlen Hdata H5) as Hc.
  fold full narrow status_full status_narrow in Hc.
  split; [apply compute_crc_fold; lia|].
  split; [apply (compute_crc_fold data 5); lia|].
  rewrite Hc.
  destruct (Z.eqb_spec full 0) as [Hf|Hf];
    [|destruct (Z.eqb_spec narrow 0) as [Hn|Hn]].
  - repeat split; try congruence.
    + intros [= ->]. right. left. auto.
    + intros [[? _]|[[_ ?]|[? _]]]; congruence.
  - repeat split; try congruence.
    + intros [= ->]. right. right. auto.
    + intros [[_ ?]|[[? _]|[_ [_ ?]]]]; congruence.
  - repeat split; try congruence.
    intros _. left. auto.
Qed.

(** For every 16-bit error code other than 0x9000 there is a frame with a
    correct CRC that makes the validator return that code. *)
Lemma is_correct_crc_residue_status_is_code :
  0 <= M24SR_IO_ERROR_CRC < 65536 ->
  M24SR_IO_ERROR_CRC <> NFC_COMMAND_SUCCESS ->
  let body := [0x02; M24SR_IO_ERROR_CRC / 256; M24SR_IO_ERROR_CRC mod 256] in
  let frame := body ++ [GETLSB (crc16_fold body); GETMSB (crc16_fold body)] in
  compute_crc frame 5 = Some 0 /\
  is_correct_crc_residue frame 5 = Some M24SR_IO_ERROR_CRC.
Proof.
  intros Hr Hne body frame.
  assert (length frame = 5%nat) as Hlen by reflexivity.
  assert (compute_crc frame 5 = Some 0) as Hz.
  { rewrite (compute_crc_fold frame 5) by (rewrite ?Hlen; lia).
    change (take (Z.to_nat 5) frame) with (crc_framed body).
    rewrite crc16_fold_crc_framed. reflexivity. }
  split; [exact Hz|].
  rewrite is_correct_crc_residue_cases by (rewrite ?Hlen; lia).
  assert (crc16_fold (take (Z.to_nat 5) frame) = 0) as ->.
  { rewrite (compute_crc_fold frame 5) in Hz by (rewrite ?Hlen; lia).
    congruence. }
  change (0 =? 0) with true. cbv iota.
  change (nth (Z.to_nat (5 - 4)) frame 0) with (M24SR_IO_ERROR_CRC / 256).
  change (nth (Z.to_nat (5 - 3)) frame 0) with (M24SR_IO_ERROR_CRC mod 256).
  rewrite status_word_bytes.
  - rewrite <- Z.div_mod by lia. unfold to_status.
    destruct (Z.eqb_spec M24SR_IO_ERROR_CRC NFC_COMMAND_SUCCESS); congruence.
  - split; [apply Z.div_pos; lia | apply Z.div_lt_upper_bound; lia].
  - apply Z.mod_pos_bound. lia.
Qed.


(** ** Frame codec *)

(** Reduce the binds of the option monad on a known result. *)
Tactic Notation "obind" := cbn [mbind option_bind].
Tactic Notation "obind" "in" hyp(H) := cbn [mbind option_bind] in H.

Lemma cur_nil buf0 : cur [] buf0 = (0, buf0).
Proof. reflexivity. Qed.

Lemma emit_cur pre buf0 v :
  (length pre < length buf0)%nat -> (length buf0 <= 255)%nat ->
  emit v (cur pre buf0) = Some (cur (pre ++ [v]) buf0).
Proof.
  intros Hlt H255. unfold emit, cur.
  rewrite Nat2Z.id.
  rewrite decide_True by (rewrite length_app, length_drop; lia).
  f_equal. f_equal.
  - rewrite u16_small by lia. rewrite length_app. simpl. lia.
  - rewrite insert_app_r_alt by lia. rewrite Nat.sub_diag.
    destruct (drop (length pre) buf0) as [|x rest] eqn:Hd.
    { apply (f_equal length) in Hd. rewrite length_drop in Hd. simpl in Hd. lia. }
    simpl. rewrite <- app_assoc. simpl. do 2 f_equal.
    rewrite length_app. simpl.
    rewrite <- drop_drop, Hd. reflexivity.
Qed.

Lemma emit_field_cur mask flag v pre buf0 :
  (length (pre ++ field mask flag v) <= length buf0)%nat ->
  (length pre <= length buf0)%nat -> (length buf0 <= 255)%nat ->
  (if needed mask flag then emit v (cur pre buf0) else Some (cur pre buf0)) =
    Some (cur (pre ++ field mask flag v) buf0).
Proof.
  intros Hfit Hpre H255. unfold field in *.
  destruct (needed mask flag).
  - apply emit_cur; [rewrite length_app in Hfit; simpl in Hfit; lia | lia].
  - rewrite app_nil_r. reflexivity.
Qed.

Lemma memcpy_cur pre buf0 src n :
  0 <= n <= Z.of_nat (length src) ->
  (length pre + Z.to_nat n <= length buf0)%nat ->
  memcpy_at (snd (cur pre buf0)) (fst (cur pre buf0)) src n =
    Some (snd (cur (pre ++ take (Z.to_nat n) src) buf0)).
Proof.
  intros Hn Hfit. unfold memcpy_at, cur. cbn [fst snd].
  rewrite decide_True by (rewrite length_app, length_drop; lia).
  f_equal. rewrite Nat2Z.id.
  rewrite take_app_length. rewrite <- app_assoc. do 2 f_equal.
  rewrite length_app, length_take.
  replace (Z.to_nat (Z.of_nat (length pre) + n))
    with (length pre + Z.to_nat n)%nat by lia.
  rewrite drop_app_add, drop_drop. f_equal. lia.
Qed.

Lemma payload_step_cur mask command pre buf0 :
  (needed mask DATA_NEEDED = true ->
   0 <= LC command /\
   match body_data command with
   | Some data => LC command <= Z.of_nat (length data)
   | None => True
   end) ->
  (length (pre ++ payload_field mask command) <= length buf0)%nat ->
  (length buf0 <= 255)%nat ->
  (if needed mask DATA_NEEDED then
     buffer ← match body_data command with
              | Some data =>
                  memcpy_at (snd (cur pre buf0)) (fst (cur pre buf0)) data
                            (LC command)
              | None =>
                  memset_at (snd (cur pre buf0)) (fst (cur pre buf0)) 0
                            (LC command)
              end;
     Some (u16 (fst (cur pre buf0) + LC command), buffer)
   else Some (cur pre buf0)) =
  Some (cur (pre ++ payload_field mask command) buf0).
Proof.
  intros Hdata Hfit H255. unfold payload_field in *.
  destruct (needed mask DATA_NEEDED); [|rewrite app_nil_r; reflexivity].
  destruct (Hdata eq_refl) as [Hlc Hsrc]. clear Hdata.
  rewrite length_app in Hfit.
  assert (forall src, LC command <= Z.of_nat (length src) ->
            (length pre + length (take (Z.to_nat (LC command)) src)
               <= length buf0)%nat ->
            (buffer ← memcpy_at (snd (cur pre buf0)) (fst (cur pre buf0)) src
                                (LC command);
             Some (u16 (fst (cur pre buf0) + LC command), buffer)) =
            Some (cur (pre ++ take (Z.to_nat (LC command)) src) buf0)) as Hcopy.
  { intros src Hs Hf. rewrite length_take in Hf.
    rewrite memcpy_cur by lia. obind. unfold cur. cbn [fst snd].
    f_equal. f_equal.
    rewrite length_app, length_take. rewrite u16_small by lia. lia. }
  destruct (body_data command) as [data|].
  - apply Hcopy; [exact Hsrc | exact Hfit].
  - unfold memset_at.
    rewrite Hcopy.
    + rewrite take_replicate, Nat.min_id. reflexivity.
    + rewrite length_replicate. lia.
    + rewrite take_replicate, Nat.min_id. exact Hfit.
Qed.

Lemma crc_step_cur mask pre buf0 :
  (needed mask CRC_NEEDED = true -> pre <> []) ->
  (length (pre ++ crc_field mask pre) <= length buf0)%nat ->
  (length buf0 <= 255)%nat ->
  (if needed mask CRC_NEEDED then
     crc16 ← compute_crc (snd (cur pre buf0)) (u8 (fst (cur pre buf0)));
     s ← emit (GETLSB crc16) (cur pre buf0);
     emit (GETMSB crc16) s
   else Some (cur pre buf0)) =
  Some (cur (with_crc mask pre) buf0).
Proof.
  intros Hne Hfit H255. unfold with_crc, crc_field in *.
  destruct (needed mask CRC_NEEDED); [|rewrite app_nil_r; reflexivity].
  rewrite length_app in Hfit. simpl in Hfit.
  assert (0 < length pre)%nat as Hpos.
  { destruct pre; [exfalso; apply (Hne eq_refl); reflexivity | simpl; lia]. }
  change (snd (cur pre buf0)) with (pre ++ drop (length pre) buf0).
  change (fst (cur pre buf0)) with (Z.of_nat (length pre)).
  rewrite u8_small by lia.
  rewrite compute_crc_fold by (rewrite ?length_app, ?length_drop; lia).
  rewrite Nat2Z.id, take_app_length. obind.
  rewrite emit_cur by lia. obind.
  rewrite emit_cur by (rewrite ?length_app; simpl; lia).
  rewrite <- app_assoc. reflexivity.
Qed.

(** The codec writes the frame at the start of the buffer whenever the
    frame fits and the payload is there; it has no other failure. *)
Lemma build_I_block_command_ok mask command did bn buf0 :
  let bn' := next_block_number mask bn in
  let frame := frame_of mask command did bn' in
  (length buf0 <= 255)%nat ->
  (length frame <= length buf0)%nat ->
  (needed mask DATA_NEEDED = true ->
   0 <= LC command /\
   match body_data command with
   | Some data => LC command <= Z.of_nat (length data)
   | None => True
   end) ->
  (needed mask CRC_NEEDED = true ->
   frame_fields mask command (field bn' DID_NEEDED did) bn' <> []) ->
  build_I_block_command mask command did bn buf0 =
    Some (Z.of_nat (length frame), frame ++ drop (length frame) buf0, bn').
Proof.
  intros bn' frame H255 Hfit Hdata Hcrc.
  unfold build_I_block_command.
  fold (next_block_number mask bn). fold bn'.
  rewrite <- cur_nil.
  subst frame. unfold frame_of, with_crc, frame_fields in Hfit, Hcrc.
  rewrite !length_app in Hfit.
  rewrite emit_field_cur by (rewrite ?length_app; simpl; lia). obind.
  rewrite emit_field_cur by (rewrite ?length_app; simpl; lia). obind.
  rewrite emit_field_cur by (rewrite ?length_app; simpl; lia). obind.
  rewrite emit_field_cur by (rewrite ?length_app; simpl; lia). obind.
  rewrite emit_field_cur by (rewrite ?length_app; simpl; lia). obind.
  rewrite emit_field_cur by (rewrite ?length_app; simpl; lia). obind.
  rewrite emit_field_cur by (rewrite ?length_app; simpl; lia). obind.
  rewrite payload_step_cur
    by (first [exact Hdata | rewrite ?length_app; simpl; lia]).
  obind.
  rewrite emit_field_cur by (rewrite ?length_app; simpl; lia). obind.
  rewrite <- !app_assoc in *.
  rewrite crc_step_cur;
    [ | exact Hcrc | unfold with_crc; rewrite ?length_app; simpl; lia | lia ].
  obind. unfold frame_of, frame_fields, cur. reflexivity.
Qed.


Lemma no_did_for_block_number bn did :
  0 <= bn <= 1 -> field bn DID_NEEDED did = [].
Proof.
  intros Hbn. assert (bn = 0 \/ bn = 1) as [-> | ->] by lia; reflexivity.
Qed.

Lemma next_block_number_range mask bn :
  0 <= bn <= 1 -> 0 <= next_block_number mask bn <= 1.
Proof.
  intros Hbn. unfold next_block_number, toggle.
  destruct (needed mask PCB_NEEDED); [destruct (bn =? 0)|]; lia.
Qed.

(** With a block number of 0 or 1 the frame has no device-id byte. *)
Lemma build_I_block_command_without_did mask command did bn buf0 :
  let bn' := next_block_number mask bn in
  let frame := frame_without_did mask command bn' in
  0 <= bn <= 1 ->
  (length buf0 <= 255)%nat ->
  (length frame <= length buf0)%nat ->
  (needed mask DATA_NEEDED = true ->
   0 <= LC command /\
   match body_data command with
   | Some data => LC command <= Z.of_nat (length data)
   | None => True
   end) ->
  (needed mask CRC_NEEDED = true -> frame_fields mask command [] bn' <> []) ->
  build_I_block_command mask command did bn buf0 =
    Some (Z.of_nat (length frame), frame ++ drop (length frame) buf0, bn').
Proof.
  intros bn' frame Hbn H255 Hfit Hdata Hcrc.
  pose proof (no_did_for_block_number bn' did
                (next_block_number_range mask bn Hbn)) as Hdid.
  pose proof (build_I_block_command_ok mask command did bn buf0) as Hok.
  cbv zeta in Hok. fold bn' in Hok.
  unfold frame_of in Hok. rewrite Hdid in Hok.
  apply Hok; assumption.
Qed.

(** C2 (amended): the codec emits the fields the mask selects in the order
    header, class, instruction, P1, P2, length, payload, expected-length,
    CRC, the CRC being that of the bytes before it, low byte first. It
    emits no device-id byte, whatever the mask: that byte follows bit
    [DID_NEEDED] of the block number, which is 0 or 1 and stays so. *)
Theorem build_I_block_command_fields mask command did bn buf0 :
  let bn' := next_block_number mask bn in
  let fields :=
    field mask PCB_NEEDED (Z.lor 0x02 bn') ++
    field mask CLA_NEEDED (CLA command) ++
    field mask INS_NEEDED (INS command) ++
    field mask P1_NEEDED (P1 command) ++
    field mask P2_NEEDED (P2 command) ++
    field mask LC_NEEDED (LC command) ++
    payload_field mask command ++
    field mask LE_NEEDED (LE command) in
  let frame := fields ++ crc_field mask fields in
  0 <= bn <= 1 ->
  (length buf0 <= 255)%nat ->
  (length frame <= length buf0)%nat ->
  (needed mask DATA_NEEDED = true ->
   0 <= LC command /\
   match body_data command with
   | Some data => LC command <= Z.of_nat (length data)
   | None => True
   end) ->
  (needed mask CRC_NEEDED = true -> fields <> []) ->
  build_I_block_command mask command did bn buf0 =
    Some (Z.of_nat (length frame), frame ++ drop (length frame) buf0, bn') /\
  0 <= bn' <= 1.
Proof.
  intros bn' fields frame Hbn H255 Hfit Hdata Hcrc. split.
  - apply (build_I_block_command_without_did mask command did bn buf0);
      assumption.
  - apply next_block_number_range. exact Hbn.
Qed.

(** ** Sequence bit *)

Lemma emit_past_header h n v s s' :
  (n <= 255)%nat -> emit v s = Some s' ->
  past_header h n s -> past_header h n s'.
Proof.
  intros Hn He (Hpos & Hh & Hlen). destruct s as [len buf].
  unfold emit in He. cbn [fst snd] in *.
  destruct (decide (Z.to_nat len < length buf)%nat) as [Hlt|]; [|discriminate].
  injection He as <-. repeat split; cbn [fst snd].
  - rewrite u16_small; lia.
  - rewrite list_lookup_insert_ne by lia. exact Hh.
  - rewrite length_insert. exact Hlen.
Qed.

Lemma field_past_header h n (b : bool) v s s' :
  (n <= 255)%nat -> (if b then emit v s else Some s) = Some s' ->
  past_header h n s -> past_header h n s'.
Proof.
  intros Hn He Hs. destruct b.
  - eapply emit_past_header; eassumption.
  - injection He as <-. exact Hs.
Qed.

Lemma memcpy_past_header h n src k s buffer :
  (n <= 255)%nat -> memcpy_at (snd s) (fst s) src k = Some buffer ->
  past_header h n s -> past_header h n (u16 (fst s + k), buffer).
Proof.
  intros Hn He (Hpos & Hh & Hlen). unfold memcpy_at in He.
  destruct (decide _) as [(Hoff & Hk & Hsrc & Hdst)|]; [|discriminate].
  injection He as <-. repeat split; cbn [fst snd].
  - rewrite u16_small; lia.
  - rewrite lookup_app_l by (rewrite length_take; lia).
    rewrite lookup_take_lt by lia. exact Hh.
  - rewrite !length_app, !length_take, length_drop. lia.
Qed.

(** After an encode with the header selected, the first byte of the buffer
    is [0x02 | block_number] for the toggled block number. *)
Lemma build_I_block_command_header mask command did bn buf0 len buf bn' :
  (length buf0 <= 255)%nat ->
  needed mask PCB_NEEDED = true ->
  build_I_block_command mask command did bn buf0 = Some (len, buf, bn') ->
  bn' = toggle bn /\ buf !! 0%nat = Some (Z.lor 0x02 (toggle bn)) /\
  length buf = length buf0.
Proof.
  intros H255 Hpcb Hb. unfold build_I_block_command in Hb.
  rewrite Hpcb in Hb.
  set (h := Z.lor 0x02 (toggle bn)) in *.
  set (n := length buf0) in *.
  destruct (emit h (0, buf0)) as [s1|] eqn:E1; [obind in Hb | discriminate].
  assert (past_header h n s1) as I1.
  { unfold emit in E1. fold n in E1.
    destruct (decide _) as [Hlt|]; [|discriminate]. injection E1 as <-.
    repeat split; cbn [fst snd].
    - rewrite u16_small; lia.
    - apply list_lookup_insert_eq. exact Hlt.
    - rewrite length_insert. reflexivity. }
  clear E1.
  repeat match type of Hb with
  | mbind _ (if _ then emit _ _ else Some _) = Some _ =>
      let s := fresh "s" in let E := fresh "E" in
      match type of Hb with
      | mbind _ ?X = _ =>
          destruct X as [s|] eqn:E; [obind in Hb | discriminate];
          match goal with
          | I : past_header h n _ |- _ =>
              apply (field_past_header h n _ _ _ _ H255 E) in I; clear E
          end
      end
  end.
  (* the payload *)
  match type of Hb with
  | mbind _ ?X = _ => destruct X as [s8|] eqn:E8; [obind in Hb | discriminate]
  end.
  assert (past_header h n s8) as I8.
  { destruct (needed mask DATA_NEEDED).
    - match type of E8 with
      | mbind _ ?X = _ => destruct X as [b8|] eqn:Eb; [obind in E8 | discriminate]
      end.
      injection E8 as <-.
      destruct (body_data command);
        eapply memcpy_past_header; eauto.
    - injection E8 as <-. assumption. }
  clear E8.
  match type of Hb with
  | mbind _ ?X = _ => destruct X as [s9|] eqn:E9; [obind in Hb | discriminate]
  end.
  apply (field_past_header h n _ _ _ _ H255 E9) in I8. clear E9.
  (* the CRC *)
  match type of Hb with
  | mbind _ ?X = _ => destruct X as [s10|] eqn:E10; [obind in Hb | discriminate]
  end.
  assert (past_header h n s10) as I10.
  { destruct (needed mask CRC_NEEDED).
    - match type of E10 with
      | mbind _ ?X = _ => destruct X as [c|] eqn:Ec; [obind in E10 | discriminate]
      end.
      match type of E10 with
      | mbind _ ?X = _ => destruct X as [sa|] eqn:Ea; [obind in E10 | discriminate]
      end.
      eapply emit_past_header; [exact H255 | exact E10 |].
      eapply emit_past_header; [exact H255 | exact Ea | assumption].
    - injection E10 as <-. assumption. }
  injection Hb as <- <- <-.
  destruct I10 as (_ & Hh & Hlen). auto.
Qed.

Lemma lor_2_bit0 b : 0 <= b <= 1 -> Z.testbit (Z.lor 0x02 b) 0 = (b =? 1).
Proof.
  intros Hb. assert (b = 0 \/ b = 1) as [-> | ->] by lia; reflexivity.
Qed.

(** C7: two consecutive encodes with the header selected produce header
    bytes whose sequence bits (bit 0) differ, whatever the two commands. *)
Theorem sequence_bit_alternates
    mask1 command1 did1 mask2 command2 did2 bn buf0 len1 buf1 bn1 len2 buf2 bn2 :
  (length buf0 <= 255)%nat ->
  needed mask1 PCB_NEEDED = true -> needed mask2 PCB_NEEDED = true ->
  build_I_block_command mask1 command1 did1 bn buf0 = Some (len1, buf1, bn1) ->
  build_I_block_command mask2 command2 did2 bn1 buf1 = Some (len2, buf2, bn2) ->
  exists h1 h2,
    buf1 !! 0%nat = Some h1 /\ buf2 !! 0%nat = Some h2 /\
    Z.testbit h1 0 <> Z.testbit h2 0.
Proof.
  intros H255 Hp1 Hp2 Hb1 Hb2.
  destruct (build_I_block_command_header _ _ _ _ _ _ _ _ H255 Hp1 Hb1)
    as (-> & Hh1 & Hl1).
  rewrite <- Hl1 in H255.
  destruct (build_I_block_command_header _ _ _ _ _ _ _ _ H255 Hp2 Hb2)
    as (-> & Hh2 & _).
  exists (Z.lor 0x02 (toggle bn)), (Z.lor 0x02 (toggle (toggle bn))).
  split; [exact Hh1|]. split; [exact Hh2|].
  unfold toggle. destruct (bn =? 0); discriminate.
Qed.

(** ** Payload length *)

(** C8 (amended): the codec has no length error. A descriptor whose payload
    exceeds 246 bytes is encoded like any other whenever its frame fits the
    scratch buffer, with all [LC] payload bytes in the frame. *)
Theorem build_I_block_command_encodes_oversized mask command did bn buf0 :
  let bn' := next_block_number mask bn in
  let frame := frame_of mask command did bn' in
  MAX_OPERATION_SIZE < LC command ->
  needed mask DATA_NEEDED = true ->
  match body_data command with
  | Some data => LC command <= Z.of_nat (length data)
  | None => True
  end ->
  (length buf0 <= 255)%nat ->
  (length frame <= length buf0)%nat ->
  build_I_block_command mask command did bn buf0 =
    Some (Z.of_nat (length frame), frame ++ drop (length frame) buf0, bn') /\
  length (payload_field mask command) = Z.to_nat (LC command).
Proof.
  intros bn' frame Hlc Hsel Hsrc H255 Hfit.
  assert (length (payload_field mask command) = Z.to_nat (LC command)) as Hp.
  { unfold payload_field. rewrite Hsel.
    destruct (body_data command).
    - rewrite length_take. lia.
    - apply length_replicate. }
  split; [|exact Hp].
  apply build_I_block_command_ok; try assumption.
  - intros _. split; [unfold MAX_OPERATION_SIZE in Hlc; lia | exact Hsrc].
  - intros _ Hnil. apply (f_equal length) in Hnil.
    unfold frame_fields in Hnil. rewrite !length_app, Hp in Hnil.
    unfold MAX_OPERATION_SIZE in Hlc. simpl in Hnil. lia.
Qed.


(** ** Transport *)

Lemma failed_success : failed M24SR_SUCCESS = false.
Proof. unfold failed. rewrite Z.eqb_refl. reflexivity. Qed.

Lemma failed_timeout : failed M24SR_IO_ERROR_I2CTIMEOUT = true.
Proof.
  unfold failed. destruct (Z.eqb_spec M24SR_IO_ERROR_I2CTIMEOUT M24SR_SUCCESS);
    [contradiction | reflexivity].
Qed.

Lemma failed_true status : failed status = true <-> status <> M24SR_SUCCESS.
Proof.
  unfold failed. destruct (Z.eqb_spec status M24SR_SUCCESS); simpl; split;
    congruence.
Qed.

Lemma io_send_i2c_command_eq len buffer w :
  0 <= len <= 255 -> len <= Z.of_nat (length buffer) ->
  io_send_i2c_command len buffer w =
    Some (io_status (hd 0 (i2c_acks (_i2c_channel w))),
          set_i2c_channel (written (take (Z.to_nat len) buffer)
                                   (_i2c_channel w)) w).
Proof.
  intros Hlen Hbuf. unfold io_send_i2c_command.
  rewrite u8_small by lia. rewrite decide_True by lia. reflexivity.
Qed.

Lemma io_receive_i2c_response_eq len buffer w :
  0 <= len <= 255 -> len <= Z.of_nat (length buffer) ->
  io_receive_i2c_response len buffer w =
    let reply := hd (1, []) (i2c_replies (_i2c_channel w)) in
    let got := take (Z.to_nat len) (snd reply) in
    Some ((io_status (fst reply), got ++ drop (length got) buffer),
          set_i2c_channel (answered (_i2c_channel w)) w).
Proof.
  intros Hlen Hbuf. unfold io_receive_i2c_response.
  rewrite u8_small by lia. rewrite decide_True by lia.
  unfold bind, i2c_read.
  destruct (hd (1, []) (i2c_replies (_i2c_channel w))) as [r bytes].
  reflexivity.
Qed.

Lemma io_poll_i2c_loop_eq fuel : forall w,
  (length (i2c_acks (_i2c_channel w)) < fuel)%nat ->
  io_poll_i2c_loop fuel w =
    Some (M24SR_SUCCESS, set_i2c_channel (polled (_i2c_channel w)) w).
Proof.
  induction fuel as [|fuel IH]; intros w Hfuel; [lia|].
  destruct w as [buf did ct lc lcd bn [acks replies sent] m cbs].
  cbn [io_poll_i2c_loop]. unfold bind, i2c_write. cbn in *.
  destruct acks as [|r acks]; cbn.
  - unfold ret, polled. cbn. reflexivity.
  - unfold polled, set_i2c_channel. cbn.
    destruct (r =? 0); cbn.
    + reflexivity.
    + simpl in Hfuel.
      rewrite IH by (cbn; lia). unfold polled, set_i2c_channel. cbn.
      rewrite <- app_assoc. reflexivity.
Qed.

(** Polling always returns, with success. *)
Lemma io_poll_i2c_eq w :
  io_poll_i2c w =
    Some (M24SR_SUCCESS, set_i2c_channel (polled (_i2c_channel w)) w).
Proof. unfold io_poll_i2c. apply io_poll_i2c_loop_eq. lia. Qed.


(** ** Transmit failure *)

Lemma bind_eq {A B} (c : M A) (k : A -> M B) w a w' :
  c w = Some (a, w') -> bind c k w = k a w'.
Proof. intros H. unfold bind. rewrite H. reflexivity. Qed.

Lemma io_status_nak r : r <> 0 -> io_status r = M24SR_IO_ERROR_I2CTIMEOUT.
Proof. intros H. unfold io_status. destruct (Z.eqb_spec r 0); congruence. Qed.

Lemma io_status_ack : io_status 0 = M24SR_SUCCESS.
Proof. reflexivity. Qed.

(** C5 (the code at the failing input): when the write of the deselect
    request is refused, [deselect] reports the error through [on_deselect]
    and goes on: in asynchronous mode it returns success and leaves
    [DESELECT] pending. *)
Theorem deselect_transmit_failure_not_aborted w r acks :
  r <> 0 -> i2c_acks (_i2c_channel w) = r :: acks ->
  _communication_type w = ASYNC ->
  exists w',
    deselect w = Some (M24SR_SUCCESS, w') /\
    _last_command w' = DESELECT /\
    callbacks w' = callbacks w ++ [on_deselect M24SR_IO_ERROR_I2CTIMEOUT].
Proof.
  intros Hr Hacks Hct. eexists.
  unfold deselect.
  erewrite bind_eq
    by (apply io_send_i2c_command_eq; unfold DESELECTREQUEST_COMMAND; simpl; lia).
  rewrite Hacks. cbn [hd]. rewrite io_status_nak by exact Hr.
  rewrite failed_timeout.
  unfold bind, callback, modify, gets, ret. cbn.
  rewrite Hct. split; [reflexivity|]. cbn. auto.
Qed.


(** ** What the operations leave alone *)

Lemma read_binary_eq offset len buffer w :
  read_binary offset len buffer w =
  read_binary_with C_APDU_CLA_DEFAULT true offset len buffer w.
Proof. reflexivity. Qed.

Lemma st_read_binary_eq offset len buffer w :
  st_read_binary offset len buffer w =
  read_binary_with C_APDU_CLA_ST false offset len buffer w.
Proof. reflexivity. Qed.

Lemma bind_inv {A B} (c : M A) (k : A -> M B) w r w'' :
  bind c k w = Some (r, w'') ->
  exists a w', c w = Some (a, w') /\ k a w' = Some (r, w'').
Proof.
  unfold bind. intros H. destruct (c w) as [[a w']|]; [|discriminate].
  exists a, w'. auto.
Qed.

Section Stable.

(** A relation between the world before and after, kept by every state
    change other than a write to the caller's memory. *)
Variable R : World -> World -> Prop.
Hypothesis R_refl : forall w, R w w.
Hypothesis R_trans : forall w1 w2 w3, R w1 w2 -> R w2 w3 -> R w1 w3.
Hypothesis R_buffer : forall v w, R w (set_buffer v w).
Hypothesis R_last_command : forall v w, R w (set_last_command v w).
Hypothesis R_last_command_data : forall v w, R w (set_last_command_data v w).
Hypothesis R_block_number : forall v w, R w (set_block_number v w).
Hypothesis R_callbacks : forall v w, R w (set_callbacks v w).
Hypothesis R_written :
  forall bytes w, R w (set_i2c_channel (written bytes (_i2c_channel w)) w).
Hypothesis R_answered :
  forall w, R w (set_i2c_channel (answered (_i2c_channel w)) w).

Local Abbreviation stable := (stable_under R).
Local Abbreviation stable_if := (stable_under_if R).

Lemma stable_ret {A} (a : A) : stable (ret a).
Proof. intros w r w' [= _ <-]. apply R_refl. Qed.

Lemma stable_gets {A} (f : World -> A) : stable (gets f).
Proof. intros w r w' [= _ <-]. apply R_refl. Qed.

Lemma stable_lift {A} (o : option A) : stable (lift o).
Proof. intros w r w' H. unfold lift in H. destruct o; [|discriminate].
  injection H as _ <-. apply R_refl. Qed.

Lemma stable_modify f : (forall w, R w (f w)) -> stable (modify f).
Proof. intros Hf w r w' [= _ <-]. apply Hf. Qed.

Lemma stable_bind {A B} (c : M A) (k : A -> M B) :
  stable c -> (forall a, stable (k a)) -> stable (bind c k).
Proof.
  intros Hc Hk w r w'' H. apply bind_inv in H as (a & w' & H1 & H2).
  eapply R_trans; [eapply Hc | eapply Hk]; eassumption.
Qed.

Lemma stable_if_bind {A B} (P : B -> Prop) (c : M A) (k : A -> M B) :
  stable c -> (forall a, stable_if P (k a)) -> stable_if P (bind c k).
Proof.
  intros Hc Hk w r w'' H HP. apply bind_inv in H as (a & w' & H1 & H2).
  eapply R_trans; [eapply Hc | eapply Hk]; eassumption.
Qed.

Lemma stable_stable_if {A} (P : A -> Prop) (c : M A) :
  stable c -> stable_if P c.
Proof. intros Hc w r w' H _. eapply Hc; eassumption. Qed.

Lemma stable_callback c : stable (callback c).
Proof. apply stable_modify. intros w. apply R_callbacks. Qed.

Lemma stable_i2c_write bytes : stable (i2c_write bytes).
Proof. intros w r w' [= _ <-]. apply R_written. Qed.

Lemma stable_i2c_read : stable i2c_read.
Proof. intros w r w' [= _ <-]. apply R_answered. Qed.

Lemma stable_io_send_i2c_command len buffer :
  stable (io_send_i2c_command len buffer).
Proof.
  unfold io_send_i2c_command. destruct (decide _).
  - apply stable_bind; [apply stable_i2c_write | intros; apply stable_ret].
  - apply stable_lift.
Qed.

Lemma stable_io_receive_i2c_response len buffer :
  stable (io_receive_i2c_response len buffer).
Proof.
  unfold io_receive_i2c_response. destruct (decide _).
  - apply stable_bind; [apply stable_i2c_read | intros [r bytes]; apply stable_ret].
  - apply stable_lift.
Qed.

Lemma stable_io_poll_i2c : stable io_poll_i2c.
Proof.
  assert (forall fuel, stable (io_poll_i2c_loop fuel)) as Hloop.
  { induction fuel as [|fuel IH]; cbn [io_poll_i2c_loop].
    - apply stable_lift.
    - apply stable_bind; [apply stable_i2c_write|].
      intros status. destruct (negb (status =? 0)); [exact IH | apply stable_ret]. }
  intros w r w' H. unfold io_poll_i2c in H. eapply Hloop. exact H.
Qed.

Lemma stable_build_in_buffer mask command :
  stable (build_in_buffer mask command).
Proof.
  intros w r w' H. unfold build_in_buffer in H.
  destruct (build_I_block_command _ _ _ _ _) as [[[len buf] bn]|]; [|discriminate].
  injection H as _ <-.
  eapply R_trans; [apply R_buffer | apply R_block_number].
Qed.

Lemma stable_deref p : stable (deref p).
Proof.
  intros w r w' H. unfold deref in H. destruct p as [a|].
  - destruct (mem w !! a); [|discriminate]. injection H as _ <-. apply R_refl.
  - injection H as _ <-. apply R_refl.
Qed.

(** Decompose a goal [stable c] along the structure of [c]. *)
Ltac stable_step :=
  first
    [ apply stable_ret | apply stable_gets | apply stable_lift
    | apply stable_callback | apply stable_io_send_i2c_command
    | apply stable_io_receive_i2c_response | apply stable_io_poll_i2c
    | apply stable_build_in_buffer | apply stable_deref
    | apply stable_modify; intros ?;
      first [apply R_last_command | apply R_last_command_data
            | apply R_buffer | apply R_block_number | apply R_callbacks]
    | apply stable_bind; [|intros ?]
    | match goal with
      | |- stable (match ?x with _ => _ end) => destruct x
      end ].

Ltac stable_auto := repeat stable_step.

Lemma stable_receive_deselect : stable receive_deselect.
Proof. unfold receive_deselect. stable_auto. Qed.

Lemma stable_deselect : stable deselect.
Proof. unfold deselect. stable_auto. Qed.

Lemma stable_receive_select_ndef_file : stable receive_select_ndef_file.
Proof. unfold receive_select_ndef_file. stable_auto. Qed.

Lemma stable_select_ndef_file id : stable (select_ndef_file id).
Proof.
  unfold select_ndef_file. stable_auto.
Qed.

Lemma stable_send_fwt_extension_with recv fwt_byte :
  stable recv -> stable (send_fwt_extension_with recv fwt_byte).
Proof. intros Hrecv. unfold send_fwt_extension_with. stable_auto. exact Hrecv. Qed.

Lemma stable_receive_update_binary_rounds fuel :
  stable (receive_update_binary_rounds fuel).
Proof.
  induction fuel as [|fuel IH]; cbn [receive_update_binary_rounds].
  - apply stable_lift.
  - stable_auto. exact IH.
Qed.

Lemma stable_receive_update_binary : stable receive_update_binary.
Proof.
  intros w r w' H. unfold receive_update_binary in H.
  eapply stable_receive_update_binary_rounds. exact H.
Qed.

Lemma stable_update_binary offset len data :
  stable (update_binary offset len data).
Proof.
  unfold update_binary. stable_auto. apply stable_receive_update_binary.
Qed.

(** [receive_read_binary] writes to the caller's memory only on the path
    that returns success. *)
Lemma stable_if_receive_read_binary :
  stable_if (fun status => status <> M24SR_SUCCESS) receive_read_binary.
Proof.
  unfold receive_read_binary.
  apply stable_if_bind; [stable_auto | intros lcd].
  apply stable_if_bind; [stable_auto | intros _].
  apply stable_if_bind; [stable_auto | intros buffer].
  apply stable_if_bind; [stable_auto | intros [status buffer']].
  apply stable_if_bind; [stable_auto | intros _].
  destruct (failed status) eqn:Hst; [apply stable_stable_if; stable_auto|].
  apply stable_if_bind; [stable_auto | intros status'].
  destruct (failed status') eqn:Hst'; [apply stable_stable_if; stable_auto|].
  intros w r w' H Hr. exfalso. apply Hr.
  apply bind_inv in H as (? & ? & _ & H).
  apply bind_inv in H as (? & ? & _ & H).
  injection H as <- _.
  unfold failed in Hst'.
  destruct (Z.eqb_spec status' M24SR_SUCCESS); [assumption | discriminate].
Qed.

Lemma stable_if_read_binary_with cla record_offset offset len buffer :
  stable_if (fun status => status <> M24SR_SUCCESS)
            (read_binary_with cla record_offset offset len buffer).
Proof.
  unfold read_binary_with.
  apply stable_if_bind; [stable_auto | intros command_length].
  apply stable_if_bind; [stable_auto | intros frame].
  apply stable_if_bind; [stable_auto | intros status].
  destruct (failed status); [apply stable_stable_if; stable_auto|].
  apply stable_if_bind; [stable_auto | intros _].
  apply stable_if_bind; [stable_auto | intros lcd].
  apply stable_if_bind; [stable_auto | intros _].
  apply stable_if_bind; [stable_auto | intros ct].
  destruct ct; [|apply stable_stable_if; stable_auto].
  apply stable_if_bind; [stable_auto | intros status'].
  destruct (status' =? M24SR_SUCCESS); [|apply stable_stable_if; stable_auto].
  apply stable_if_receive_read_binary.
Qed.

(** With writes to the caller's memory allowed as well, reads are stable. *)
Hypothesis R_mem : forall v w, R w (set_mem v w).

Lemma stable_copy_to_caller dst len : stable (copy_to_caller dst len).
Proof.
  intros w r w' H. unfold copy_to_caller in H.
  destruct dst as [a|]; [|discriminate].
  destruct (mem w !! a) as [block|]; [obind in H | discriminate].
  destruct (memcpy_at _ _ _ _) as [block'|]; [obind in H | discriminate].
  injection H as _ <-. apply R_mem.
Qed.

Lemma stable_receive_read_binary : stable receive_read_binary.
Proof.
  unfold receive_read_binary.
  repeat first [apply stable_copy_to_caller | stable_step].
Qed.

Lemma stable_read_binary_with cla record_offset offset len buffer :
  stable (read_binary_with cla record_offset offset len buffer).
Proof.
  unfold read_binary_with.
  repeat first [apply stable_receive_read_binary | stable_step].
Qed.

(** What follows the request of a read or an update is stable. *)
Lemma read_binary_with_after_request cla record_offset offset len buffer
    w status w' :
  read_binary_with cla record_offset offset len buffer w = Some (status, w') ->
  let len' := if len >? MAX_OPERATION_SIZE then MAX_OPERATION_SIZE else len in
  exists s0 w0,
    request CMD_MASK_READBINARY
      {| CLA := cla; INS := C_APDU_READ_BINARY;
         P1 := GETMSB offset; P2 := GETLSB offset;
         LC := 0; body_data := None; LE := len' |} w = Some (s0, w0) /\
    R w0 w'.
Proof.
  intros H len'. unfold read_binary_with in H. fold len' in H.
  apply bind_inv in H as (cl & wa & Ha & H).
  apply bind_inv in H as (frame & wb & Hb & H).
  apply bind_inv in H as (s0 & w0 & Hc & H).
  exists s0, w0. split.
  - unfold request. unfold bind at 1. rewrite Ha.
    unfold bind at 1. rewrite Hb. exact Hc.
  - revert H. generalize w0 status w'.
    change (stable
      (if failed s0
       then callback (on_read_byte s0 offset buffer len');; ret s0
       else
         modify (set_last_command READ);;
         (let* lcd := gets _last_command_data in
          modify (set_last_command_data
                    {| lcd_data := buffer; lcd_length := len';
                       lcd_offset := if record_offset then offset
                                     else lcd_offset lcd |});;
          (let* ct := gets _communication_type in
           match ct with
           | SYNC =>
               let* status := io_poll_i2c in
               if status =? M24SR_SUCCESS then receive_read_binary
               else
                 modify (set_last_command NONE);;
                 callback (on_read_byte status offset buffer len');;
                 ret status
           | ASYNC => ret M24SR_SUCCESS
           end)))).
    repeat first [apply stable_receive_read_binary | stable_step].
Qed.

Lemma update_binary_after_request offset len data w status w' :
  update_binary offset len data w = Some (status, w') ->
  let len' := if len >? MAX_OPERATION_SIZE then MAX_OPERATION_SIZE else len in
  exists payload s0 w0,
    deref data w = Some (payload, w) /\
    request CMD_MASK_UPDATEBINARY
      {| CLA := C_APDU_CLA_DEFAULT; INS := C_APDU_UPDATE_BINARY;
         P1 := GETMSB offset; P2 := GETLSB offset;
         LC := len'; body_data := payload; LE := 0 |} w = Some (s0, w0) /\
    R w0 w'.
Proof.
  intros H len'. unfold update_binary in H. fold len' in H.
  apply bind_inv in H as (payload & w_ & Hd & H).
  assert (w_ = w) as ->.
  { unfold deref in Hd. destruct data as [a|].
    - destruct (mem w !! a); [|discriminate]. obind in Hd. congruence.
    - congruence. }
  apply bind_inv in H as (cl & wa & Ha & H).
  apply bind_inv in H as (frame & wb & Hb & H).
  apply bind_inv in H as (s0 & w0 & Hc & H).
  exists payload, s0, w0. split; [exact Hd|]. split.
  - unfold request. unfold bind at 1. rewrite Ha.
    unfold bind at 1. rewrite Hb. exact Hc.
  - revert H. generalize w0 status w'.
    change (stable
      (if failed s0
       then callback (on_updated_binary s0 offset data len');; ret s0
       else
         modify (set_last_command UPDATE);;
         modify (set_last_command_data
                   {| lcd_data := data; lcd_length := len';
                      lcd_offset := offset |});;
         (let* ct := gets _communication_type in
          match ct with
          | SYNC =>
              let* status := io_poll_i2c in
              if status =? M24SR_SUCCESS then receive_update_binary
              else
                modify (set_last_command NONE);;
                callback (on_updated_binary status offset data len');;
                ret status
          | ASYNC => ret M24SR_SUCCESS
          end))).
    repeat first [apply stable_receive_update_binary | stable_step].
Qed.

End Stable.


Ltac same_mem_side :=
  solve [ intros; reflexivity
        | unfold same_mem; intros; congruence ].

Ltac sent_grows_side :=
  solve [ intros; exists []; cbn; symmetry; apply app_nil_r
        | intros; eexists; cbn; reflexivity
        | unfold sent_grows; intros ? ? ? [l1 H1] [l2 H2];
          exists (l1 ++ l2); rewrite H2, H1, app_assoc; reflexivity ].

(** ** Read binary *)

(** C9: when the response to a read fails CRC validation, the read ends
    with the CRC error and the caller's memory as it was; whatever the
    outcome of [receive_read_binary], [read_binary] or [st_read_binary],
    the caller's memory is written only when the result is success. *)
Theorem read_binary_crc_error_keeps_caller_buffer :
  (forall w,
     let len := lcd_length (_last_command_data w) in
     let reply := hd (1, []) (i2c_replies (_i2c_channel w)) in
     let got := take (Z.to_nat (len + 5)) (snd reply) in
     let received := got ++ drop (length got) (_buffer w) in
     length (_buffer w) = 255%nat -> 0 <= len <= MAX_OPERATION_SIZE ->
     fst reply = 0 ->
     is_correct_crc_residue received (len + 5) = Some M24SR_IO_ERROR_CRC ->
     exists w',
       receive_read_binary w = Some (M24SR_IO_ERROR_CRC, w') /\
       mem w' = mem w /\
       callbacks w' =
         callbacks w ++
           [on_read_byte M24SR_IO_ERROR_CRC
                         (lcd_offset (_last_command_data w))
                         (lcd_data (_last_command_data w)) len]) /\
  (forall w status w',
     receive_read_binary w = Some (status, w') ->
     status <> M24SR_SUCCESS -> mem w' = mem w) /\
  (forall offset len buffer w status w',
     read_binary offset len buffer w = Some (status, w') ->
     status <> M24SR_SUCCESS -> mem w' = mem w) /\
  (forall offset len buffer w status w',
     st_read_binary offset len buffer w = Some (status, w') ->
     status <> M24SR_SUCCESS -> mem w' = mem w).
Proof.
  split; [|split; [|split]].
  - intros w len reply got received Hbuf Hlen Hok Hcrc.
    unfold MAX_OPERATION_SIZE in Hlen. eexists.
    unfold receive_read_binary.
    unfold bind at 1, gets at 1. fold len.
    unfold bind at 1, modify at 1.
    unfold bind at 1, gets at 1. cbn [_buffer set_last_command].
    erewrite bind_eq
      by (apply io_receive_i2c_response_eq;
          unfold STATUSRESPONSE_NBBYTE; cbn [_buffer set_last_command]; lia).
    cbv zeta. cbn [_i2c_channel set_last_command]. fold reply.
    unfold STATUSRESPONSE_NBBYTE. fold got. fold received.
    rewrite Hok, io_status_ack, failed_success.
    unfold bind at 1, modify at 1.
    rewrite Hcrc. unfold bind at 1, lift at 1.
    replace (failed M24SR_IO_ERROR_CRC) with true
      by (symmetry; apply failed_true; exact crc_error_is_failure).
    unfold bind, callback, modify, ret. cbn.
    split; [reflexivity|]. split; reflexivity.
  - intros w status w' H Hst.
    eapply (stable_if_receive_read_binary same_mem); try same_mem_side;
      eassumption.
  - intros offset len buffer w status w' H Hst. rewrite read_binary_eq in H.
    eapply (stable_if_read_binary_with same_mem); try same_mem_side;
      eassumption.
  - intros offset len buffer w status w' H Hst. rewrite st_read_binary_eq in H.
    eapply (stable_if_read_binary_with same_mem); try same_mem_side;
      eassumption.
Qed.


(** ** Request frames *)

Lemma build_in_buffer_eq mask command w :
  let bn' := next_block_number mask (block_number w) in
  let frame := frame_without_did mask command bn' in
  driver_ok w ->
  (length frame <= 255)%nat ->
  (needed mask DATA_NEEDED = true ->
   0 <= LC command /\
   match body_data command with
   | Some data => LC command <= Z.of_nat (length data)
   | None => True
   end) ->
  (needed mask CRC_NEEDED = true -> frame_fields mask command [] bn' <> []) ->
  build_in_buffer mask command w =
    Some (Z.of_nat (length frame),
          set_block_number bn'
            (set_buffer (frame ++ drop (length frame) (_buffer w)) w)).
Proof.
  intros bn' frame [Hbuf Hbn] Hfit Hdata Hcrc. unfold build_in_buffer.
  subst frame bn'.
  rewrite (build_I_block_command_without_did mask command (_did_byte w)
             (block_number w) (_buffer w));
    [reflexivity | assumption | lia | lia | assumption | assumption].
Qed.

(** The request of a command with the header selected. *)
Lemma request_run mask command frame w :
  needed mask PCB_NEEDED = true ->
  frame = frame_without_did mask command (toggle (block_number w)) ->
  driver_ok w ->
  (0 < length frame <= 255)%nat ->
  (needed mask DATA_NEEDED = true ->
   0 <= LC command /\
   match body_data command with
   | Some data => LC command <= Z.of_nat (length data)
   | None => True
   end) ->
  request mask command w =
    Some (io_status (hd 0 (i2c_acks (_i2c_channel w))), requested frame w).
Proof.
  intros Hpcb Hframe Hok Hlen Hdata. unfold request.
  pose proof (build_in_buffer_eq mask command w) as Hb. cbv zeta in Hb.
  unfold next_block_number in Hb. rewrite Hpcb in Hb. rewrite <- Hframe in Hb.
  erewrite bind_eq; cycle 1.
  { apply Hb; try assumption; try lia.
    intros _ Hnil. apply (f_equal length) in Hnil.
    unfold frame_fields, field in Hnil. rewrite Hpcb in Hnil.
    simpl in Hnil. lia. }
  unfold bind at 1, gets at 1. cbn [_buffer set_block_number set_buffer].
  rewrite io_send_i2c_command_eq
    by (rewrite ?length_app, ?length_drop; destruct Hok; lia).
  rewrite Nat2Z.id, take_app_length. reflexivity.
Qed.

(** Build a request with the header selected and send it. *)
Lemma request_eq {B} mask command frame (K : Z -> M B) w :
  needed mask PCB_NEEDED = true ->
  frame = frame_without_did mask command (toggle (block_number w)) ->
  driver_ok w ->
  (0 < length frame <= 255)%nat ->
  (needed mask DATA_NEEDED = true ->
   0 <= LC command /\
   match body_data command with
   | Some data => LC command <= Z.of_nat (length data)
   | None => True
   end) ->
  (let* len := build_in_buffer mask command in
   let* buffer := gets _buffer in
   let* status := io_send_i2c_command len buffer in
   K status) w =
  K (io_status (hd 0 (i2c_acks (_i2c_channel w)))) (requested frame w).
Proof.
  intros Hpcb Hframe Hok Hlen Hdata.
  pose proof (build_in_buffer_eq mask command w) as Hb. cbv zeta in Hb.
  unfold next_block_number in Hb. rewrite Hpcb in Hb. rewrite <- Hframe in Hb.
  erewrite bind_eq; cycle 1.
  { apply Hb; try assumption; try lia.
    intros _ Hnil. apply (f_equal length) in Hnil.
    unfold frame_fields, field in Hnil. rewrite Hpcb in Hnil.
    simpl in Hnil. lia. }
  unfold bind at 1, gets at 1. cbn [_buffer set_block_number set_buffer].
  erewrite bind_eq; cycle 1.
  { apply io_send_i2c_command_eq;
      rewrite ?length_app, ?length_drop; destruct Hok; lia. }
  rewrite Nat2Z.id, take_app_length. reflexivity.
Qed.

Lemma select_ndef_file_frame_eq ndef_file_id bn :
  frame_without_did CMD_MASK_SELECTNDEFFILE
    {| CLA := C_APDU_CLA_DEFAULT; INS := C_APDU_SELECT_FILE;
       P1 := GETMSB 0x000C; P2 := GETLSB 0x000C; LC := 2;
       body_data := Some [GETMSB ndef_file_id; GETLSB ndef_file_id];
       LE := 0 |} bn =
  select_ndef_file_frame bn ndef_file_id.
Proof. reflexivity. Qed.

Lemma read_binary_frame_eq cla offset len bn :
  frame_without_did CMD_MASK_READBINARY
    {| CLA := cla; INS := C_APDU_READ_BINARY;
       P1 := GETMSB offset; P2 := GETLSB offset; LC := 0;
       body_data := None; LE := len |} bn =
  read_binary_frame cla bn offset len.
Proof. reflexivity. Qed.

Lemma update_binary_frame_eq offset len payload bn :
  frame_without_did CMD_MASK_UPDATEBINARY
    {| CLA := C_APDU_CLA_DEFAULT; INS := C_APDU_UPDATE_BINARY;
       P1 := GETMSB offset; P2 := GETLSB offset; LC := len;
       body_data := Some payload; LE := 0 |} bn =
  update_binary_frame bn offset len payload.
Proof.
  unfold frame_without_did, with_crc, frame_fields, crc_field, payload_field,
    field, update_binary_frame, crc_framed.
  change (needed CMD_MASK_UPDATEBINARY PCB_NEEDED) with true.
  change (needed CMD_MASK_UPDATEBINARY CLA_NEEDED) with true.
  change (needed CMD_MASK_UPDATEBINARY INS_NEEDED) with true.
  change (needed CMD_MASK_UPDATEBINARY P1_NEEDED) with true.
  change (needed CMD_MASK_UPDATEBINARY P2_NEEDED) with true.
  change (needed CMD_MASK_UPDATEBINARY LC_NEEDED) with true.
  change (needed CMD_MASK_UPDATEBINARY DATA_NEEDED) with true.
  change (needed CMD_MASK_UPDATEBINARY LE_NEEDED) with false.
  change (needed CMD_MASK_UPDATEBINARY CRC_NEEDED) with true.
  cbn [CLA INS P1 P2 LC LE body_data app].
  rewrite app_nil_r. reflexivity.
Qed.

(** ** Commands that abort on a refused request *)

(** [select_cc_file] reports a refused request once and returns, leaving
    the pending command as it was. *)
Lemma select_cc_file_transmit_failure w r acks :
  driver_ok w -> r <> 0 -> i2c_acks (_i2c_channel w) = r :: acks ->
  exists w',
    select_cc_file w = Some (M24SR_IO_ERROR_I2CTIMEOUT, w') /\
    _last_command w' = _last_command w /\
    callbacks w' =
      callbacks w ++ [on_selected_cc_file M24SR_IO_ERROR_I2CTIMEOUT].
Proof.
  intros Hok Hr Hacks. eexists.
  unfold select_cc_file.
  rewrite (request_eq CMD_MASK_SELECTCCFILE _
             (select_cc_file_frame (toggle (block_number w))));
    [ | reflexivity | reflexivity | exact Hok | cbn; lia | intros _; cbn; lia ].
  rewrite Hacks. cbn [hd]. rewrite io_status_nak by exact Hr.
  rewrite failed_timeout. unfold bind, callback, modify, ret.
  split; [reflexivity|]. split; reflexivity.
Qed.

(** So does [read_binary], with the clamped length in the callback. *)
Lemma read_binary_transmit_failure offset len buffer w r acks :
  0 <= len <= MAX_OPERATION_SIZE ->
  driver_ok w -> r <> 0 -> i2c_acks (_i2c_channel w) = r :: acks ->
  exists w',
    read_binary offset len buffer w = Some (M24SR_IO_ERROR_I2CTIMEOUT, w') /\
    _last_command w' = _last_command w /\
    callbacks w' =
      callbacks w ++
        [on_read_byte M24SR_IO_ERROR_I2CTIMEOUT offset buffer len].
Proof.
  intros Hlen Hok Hr Hacks. eexists.
  unfold read_binary.
  replace (len >? MAX_OPERATION_SIZE) with false
    by (symmetry; rewrite Z.gtb_ltb; apply Z.ltb_ge; lia).
  rewrite (request_eq CMD_MASK_READBINARY _
             (read_binary_frame C_APDU_CLA_DEFAULT (toggle (block_number w))
                                offset len));
    [ | reflexivity | reflexivity | exact Hok | cbn; lia | intros [=] ].
  rewrite Hacks. cbn [hd]. rewrite io_status_nak by exact Hr.
  rewrite failed_timeout. unfold bind, callback, modify, ret.
  split; [reflexivity|]. split; reflexivity.
Qed.

(** ** Completion callbacks *)

(** C6 (the code at the failing inputs): when the write of the request is
    refused, [select_ndef_file] returns the error without any callback, and
    a synchronous [deselect] delivers [on_deselect] twice: once for the
    refused write and once more after the receive it still performs. *)
Theorem transmit_failure_callback_count :
  (forall ndef_file_id w r acks,
     driver_ok w -> r <> 0 -> i2c_acks (_i2c_channel w) = r :: acks ->
     exists w',
       select_ndef_file ndef_file_id w =
         Some (M24SR_IO_ERROR_I2CTIMEOUT, w') /\
       callbacks w' = callbacks w) /\
  (forall w r acks,
     r <> 0 -> i2c_acks (_i2c_channel w) = r :: acks ->
     _communication_type w = SYNC ->
     exists status w',
       deselect w = Some (status, w') /\
       callbacks w' =
         callbacks w ++
           [on_deselect M24SR_IO_ERROR_I2CTIMEOUT; on_deselect status]).
Proof.
  split.
  - intros ndef_file_id w r acks Hok Hr Hacks. eexists.
    unfold select_ndef_file.
    rewrite (request_eq CMD_MASK_SELECTNDEFFILE _
               (select_ndef_file_frame (toggle (block_number w)) ndef_file_id));
      [ | reflexivity | reflexivity | exact Hok | cbn; lia | intros _; cbn; lia ].
    rewrite Hacks. cbn [hd]. rewrite io_status_nak by exact Hr.
    rewrite failed_timeout. unfold ret. split; reflexivity.
  - intros w r acks Hr Hacks Hct. eexists. eexists.
    unfold deselect.
    erewrite bind_eq
      by (apply io_send_i2c_command_eq; unfold DESELECTREQUEST_COMMAND;
          simpl; lia).
    rewrite Hacks. cbn [hd]. rewrite io_status_nak by exact Hr.
    rewrite failed_timeout.
    unfold bind at 1, callback at 1, modify at 1.
    unfold bind at 1, modify at 1.
    unfold bind at 1, gets at 1.
    cbn [_communication_type set_last_command set_callbacks set_i2c_channel].
    rewrite Hct.
    erewrite bind_eq by apply io_poll_i2c_eq.
    rewrite Z.eqb_refl.
    unfold receive_deselect.
    erewrite bind_eq by (apply io_receive_i2c_response_eq; simpl; lia).
    cbv zeta. unfold bind, callback, modify, ret. cbn.
    split; [reflexivity|]. rewrite <- app_assoc. reflexivity.
Qed.


(** ** Wait-time extension *)

(** What [send_fwt_extension] does, for any receive step [recv]. *)
Lemma send_fwt_extension_with_eq recv fwt_byte w :
  send_fwt_extension_with recv fwt_byte w =
    let w1 := set_i2c_channel (written (fwt_frame fwt_byte) (_i2c_channel w)) w in
    let status := io_status (hd 0 (i2c_acks (_i2c_channel w))) in
    if failed status then Some (status, w1)
    else
      let w2 := set_last_command UPDATE w1 in
      match _communication_type w with
      | SYNC => recv (set_i2c_channel (polled (_i2c_channel w2)) w2)
      | ASYNC => Some (M24SR_SUCCESS, w2)
      end.
Proof.
  unfold send_fwt_extension_with.
  change (0, replicate (Z.to_nat STATUSRESPONSE_NBBYTE) 0)
    with (cur [] (replicate 5 0)).
  rewrite emit_cur by (simpl; lia). unfold bind at 1, lift at 1.
  rewrite emit_cur by (simpl; lia). unfold bind at 1, lift at 1.
  change (snd (cur (([] ++ [0xF2]) ++ [fwt_byte]) (replicate 5 0)))
    with ([0xF2; fwt_byte] ++ [0; 0; 0]).
  rewrite (compute_crc_fold ([0xF2; fwt_byte] ++ [0; 0; 0]) 2)
    by (simpl; lia).
  change (take (Z.to_nat 2) ([0xF2; fwt_byte] ++ [0; 0; 0]))
    with [0xF2; fwt_byte].
  unfold bind at 1, lift at 1.
  rewrite emit_cur by (simpl; lia). unfold bind at 1, lift at 1.
  rewrite emit_cur by (simpl; lia). unfold bind at 1, lift at 1.
  erewrite bind_eq by (apply io_send_i2c_command_eq; simpl; lia).
  change (take _ _) with (fwt_frame fwt_byte).
  cbv zeta.
  destruct (failed (io_status (hd 0 (i2c_acks (_i2c_channel w))))).
  - reflexivity.
  - unfold bind at 1, modify at 1. unfold bind at 1, gets at 1.
    cbn [_communication_type set_last_command set_i2c_channel].
    destruct (_communication_type w).
    + erewrite bind_eq by apply io_poll_i2c_eq.
      rewrite Z.eqb_refl. reflexivity.
    + reflexivity.
Qed.


(** C4 (amended): when [receive_update_binary] reads, without transport
    error, a five-byte response that is an S-block and that the validator
    does not reject over its four-byte window, it builds the four-byte
    acknowledgement [0xF2, fwt_byte, crcLow, crcHigh] and transmits it. If
    that write is refused the update ends with the transport error; if not,
    the driver records [UPDATE] as pending again and, in synchronous mode,
    polls and runs the receive step once more, and in asynchronous mode
    returns success, leaving the receive to the next resume. *)
Theorem receive_update_binary_wait_time_extension w reply replies :
  let lcd := _last_command_data w in
  let response := take 5 (snd reply) in
  let fwt_byte := nth 1 response 0 in
  let sent_status := io_status (hd 0 (i2c_acks (_i2c_channel w))) in
  let w1 :=
    set_i2c_channel (written (fwt_frame fwt_byte) (answered (_i2c_channel w)))
                    (set_last_command NONE w) in
  let w2 := set_last_command UPDATE w1 in
  let report status :=
    callback (on_updated_binary status (lcd_offset lcd) (lcd_data lcd)
                                (lcd_length lcd)) in
  i2c_replies (_i2c_channel w) = reply :: replies ->
  fst reply = 0 -> (5 <= length (snd reply))%nat ->
  Z.land (nth 0 response 0) MASK_BLOCK = MASK_SBLOCK ->
  is_correct_crc_residue response WATINGTIMEEXTRESPONSE_NBBYTE <>
    Some M24SR_IO_ERROR_CRC ->
  fwt_frame fwt_byte =
    [0xF2; fwt_byte; GETLSB (crc16_fold [0xF2; fwt_byte]);
     GETMSB (crc16_fold [0xF2; fwt_byte])] /\
  receive_update_binary w =
    if failed sent_status then (report sent_status;; ret sent_status) w1
    else
      match _communication_type w with
      | SYNC =>
          (let* status := receive_update_binary in
           (if failed status then report status else ret tt);;
           ret status)
            (set_i2c_channel (polled (_i2c_channel w2)) w2)
      | ASYNC => Some (M24SR_SUCCESS, w2)
      end.
Proof.
  intros lcd response fwt_byte sent_status w1 w2 report
         Hreplies Hok Hlen Hsblock Hcrc.
  split; [reflexivity|].
  assert (length response = 5%nat) as Hresp
    by (subst response; rewrite length_take; lia).
  unfold receive_update_binary at 1. rewrite Hreplies.
  change (S (length (reply :: replies))) with (S (S (length replies))).
  set (fuel := S (length replies)).
  cbn [receive_update_binary_rounds].
  unfold bind at 1, gets at 1. fold lcd.
  unfold bind at 1, modify at 1.
  erewrite bind_eq
    by (apply io_receive_i2c_response_eq; unfold STATUSRESPONSE_NBBYTE;
        simpl; lia).
  cbv zeta. cbn [_i2c_channel set_last_command]. rewrite Hreplies.
  cbn [hd]. rewrite Hok, io_status_ack, failed_success.
  change (Z.to_nat STATUSRESPONSE_NBBYTE) with 5%nat. fold response.
  rewrite Hresp. change (drop 5 (replicate 5 0)) with (@nil Z).
  rewrite app_nil_r.
  unfold is_S_block, OFFSET_PCB.
  rewrite peek_nth by (rewrite Hresp; lia). obind.
  change (Z.to_nat 0) with 0%nat. rewrite Hsblock, Z.eqb_refl.
  unfold bind at 1, lift at 1. rewrite Z.eqb_refl.
  destruct (is_correct_crc_residue response WATINGTIMEEXTRESPONSE_NBBYTE)
    as [status|] eqn:Hres.
  2:{ unfold WATINGTIMEEXTRESPONSE_NBBYTE in Hres.
      rewrite is_correct_crc_residue_cases in Hres by (rewrite ?Hresp; lia).
      discriminate. }
  unfold bind at 1, lift at 1.
  replace (negb (status =? M24SR_IO_ERROR_CRC)) with true
    by (symmetry; apply negb_true_iff, Z.eqb_neq; congruence).
  rewrite peek_nth by (rewrite Hresp; lia).
  change (Z.to_nat (0 + 1)) with 1%nat. fold fwt_byte.
  unfold bind at 1, lift at 1.
  unfold bind at 1. rewrite send_fwt_extension_with_eq. cbv zeta.
  cbn [_i2c_channel set_i2c_channel set_last_command _communication_type
       answered i2c_acks].
  fold sent_status. fold w1.
  destruct (failed sent_status) eqn:Hsent.
  - rewrite Hsent. reflexivity.
  - fold w2. destruct (_communication_type w).
    + unfold bind at 2. unfold receive_update_binary.
      subst fuel w2 w1.
      cbn [_i2c_channel set_i2c_channel polled i2c_replies answered written
           set_last_command].
      rewrite Hreplies. cbn [tl]. reflexivity.
    + rewrite failed_success. reflexivity.
Qed.


(** ** The operations return *)

Lemma finish_is_Some {A} (u : M unit) (a : A) w :
  is_Some (u w) -> is_Some ((u;; ret a) w).
Proof.
  intros [[[] w'] Hu]. unfold bind. rewrite Hu. unfold ret. eauto.
Qed.

Lemma callback_is_Some c w : is_Some (callback c w).
Proof. unfold callback, modify. eauto. Qed.

(** The receive step of an update returns whenever its fuel exceeds the
    number of scripted replies: every further round consumes one. *)
Lemma receive_update_binary_rounds_total fuel : forall w,
  (length (i2c_replies (_i2c_channel w)) < fuel)%nat ->
  is_Some (receive_update_binary_rounds fuel w).
Proof.
  induction fuel as [|fuel IH]; intros w Hfuel; [lia|].
  cbn [receive_update_binary_rounds].
  unfold bind at 1, gets at 1. unfold bind at 1, modify at 1.
  erewrite bind_eq
    by (apply io_receive_i2c_response_eq; unfold STATUSRESPONSE_NBBYTE;
        simpl; lia).
  cbv zeta. cbn [_i2c_channel set_last_command].
  set (reply := hd (1, []) (i2c_replies (_i2c_channel w))).
  set (got := take (Z.to_nat STATUSRESPONSE_NBBYTE) (snd reply)).
  set (response := got ++ drop (length got) (replicate _ 0)).
  assert (length response = 5%nat) as Hresp.
  { subst response got. rewrite length_app, length_drop, length_take.
    rewrite length_replicate. unfold STATUSRESPONSE_NBBYTE. lia. }
  destruct (failed (io_status (fst reply))) eqn:Hst.
  { apply finish_is_Some, callback_is_Some. }
  assert (i2c_replies (_i2c_channel w) = reply :: tl (i2c_replies (_i2c_channel w)))
    as Hreplies.
  { subst reply. destruct (i2c_replies (_i2c_channel w)) as [|x rest];
      [|reflexivity].
    cbn [hd fst] in Hst. rewrite io_status_nak, failed_timeout in Hst by lia.
    discriminate. }
  unfold is_S_block, OFFSET_PCB.
  rewrite peek_nth by (rewrite Hresp; lia). obind.
  unfold bind at 1, lift at 1.
  destruct (_ =? M24SR_SUCCESS).
  - unfold WATINGTIMEEXTRESPONSE_NBBYTE.
    rewrite is_correct_crc_residue_cases by (rewrite ?Hresp; lia).
    unfold bind at 1, lift at 1.
    destruct (negb (_ =? M24SR_IO_ERROR_CRC)); [|unfold ret; eauto].
    rewrite peek_nth by (rewrite Hresp; lia).
    unfold bind at 1, lift at 1.
    unfold bind at 1. rewrite send_fwt_extension_with_eq. cbv zeta.
    match goal with
    | |- context [if failed ?s then _ else _] => destruct (failed s) eqn:Hsent
    end.
    + rewrite Hsent. apply finish_is_Some, callback_is_Some.
    + cbn [_communication_type set_i2c_channel set_last_command].
      destruct (_communication_type w).
      * match goal with
        | |- context [receive_update_binary_rounds fuel ?w0] =>
            destruct (IH w0) as [[status w'] Hrec]
        end.
        { cbn. rewrite Hreplies in Hfuel. simpl in Hfuel. lia. }
        rewrite Hrec.
        destruct (failed status);
          [apply finish_is_Some, callback_is_Some | unfold bind, ret; eauto].
      * rewrite failed_success. unfold bind, ret. eauto.
  - unfold STATUSRESPONSE_NBBYTE.
    rewrite is_correct_crc_residue_cases by (rewrite ?Hresp; lia).
    unfold bind at 1, lift at 1.
    apply finish_is_Some, callback_is_Some.
Qed.

Lemma receive_update_binary_total w : is_Some (receive_update_binary w).
Proof.
  unfold receive_update_binary. apply receive_update_binary_rounds_total. lia.
Qed.

Lemma receive_read_binary_total w :
  let lcd := _last_command_data w in
  length (_buffer w) = 255%nat ->
  0 <= lcd_length lcd <= MAX_OPERATION_SIZE ->
  addresses (lcd_data lcd) (lcd_length lcd) w ->
  is_Some (receive_read_binary w).
Proof.
  intros lcd Hbuf Hlen (a & block & Hp & Hblock & Hsize).
  unfold MAX_OPERATION_SIZE in Hlen.
  unfold receive_read_binary.
  unfold bind at 1, gets at 1. fold lcd.
  unfold bind at 1, modify at 1.
  unfold bind at 1, gets at 1. cbn [_buffer set_last_command].
  erewrite bind_eq
    by (apply io_receive_i2c_response_eq;
        unfold STATUSRESPONSE_NBBYTE; cbn [_buffer set_last_command]; lia).
  cbv zeta. cbn [_i2c_channel set_last_command].
  set (reply := hd (1, []) (i2c_replies (_i2c_channel w))).
  unfold STATUSRESPONSE_NBBYTE.
  set (got := take (Z.to_nat (lcd_length lcd + 5)) (snd reply)).
  set (received := got ++ drop (length got) (_buffer w)).
  assert (length received = 255%nat) as Hrec.
  { subst received got. rewrite length_app, length_drop, length_take. lia. }
  unfold bind at 1, modify at 1.
  destruct (failed (io_status (fst reply))).
  { apply finish_is_Some, callback_is_Some. }
  rewrite is_correct_crc_residue_cases by (rewrite ?Hrec; lia).
  unfold bind at 1, lift at 1.
  destruct (failed _).
  { apply finish_is_Some, callback_is_Some. }
  unfold bind at 1, copy_to_caller at 1.
  rewrite Hp. cbn [mem set_buffer set_i2c_channel set_last_command].
  rewrite Hblock. obind.
  unfold memcpy_at. cbn [_buffer set_buffer].
  rewrite decide_True by (rewrite length_drop, Hrec; lia). obind.
  apply finish_is_Some, callback_is_Some.
Qed.


(** ** Length clamp *)

Lemma sent_after_request frame w w' :
  sent_grows (requested frame w) w' ->
  i2c_sent (_i2c_channel w') !! length (i2c_sent (_i2c_channel w)) =
    Some frame.
Proof.
  intros [l Hl]. rewrite Hl. unfold requested. cbn.
  rewrite <- app_assoc. apply list_lookup_middle. reflexivity.
Qed.

(** A read of at most 246 bytes into memory the caller owns returns, and
    the frame it hands to the channel is the read request for that length. *)
Lemma read_binary_with_transmits cla record_offset offset len p w :
  0 <= len <= MAX_OPERATION_SIZE ->
  driver_ok w -> addresses p len w ->
  exists status w',
    read_binary_with cla record_offset offset len p w = Some (status, w') /\
    i2c_sent (_i2c_channel w') !! length (i2c_sent (_i2c_channel w)) =
      Some (read_binary_frame cla (toggle (block_number w)) offset len).
Proof.
  intros Hlen Hok Hp.
  set (frame := read_binary_frame cla (toggle (block_number w)) offset len).
  assert (is_Some (read_binary_with cla record_offset offset len p w))
    as [[status w'] Hrun].
  { unfold read_binary_with.
    replace (len >? MAX_OPERATION_SIZE) with false
      by (symmetry; rewrite Z.gtb_ltb; apply Z.ltb_ge; lia).
    rewrite (request_eq CMD_MASK_READBINARY _ frame);
      [ | reflexivity | reflexivity | exact Hok | cbn; lia
        | intros [=] ].
    destruct (failed (io_status _)).
    { apply finish_is_Some, callback_is_Some. }
    unfold bind at 1, modify at 1. unfold bind at 1, gets at 1.
    unfold bind at 1, modify at 1. unfold bind at 1, gets at 1.
    cbn [_communication_type set_last_command_data set_last_command requested
         set_i2c_channel set_block_number set_buffer].
    destruct (_communication_type w); [|unfold ret; eauto].
    erewrite bind_eq by apply io_poll_i2c_eq. rewrite Z.eqb_refl.
    apply receive_read_binary_total.
    - cbn. rewrite length_drop. destruct Hok as [Hbuf _]. lia.
    - cbn. exact Hlen.
    - cbn. exact Hp. }
  exists status, w'. split; [exact Hrun|].
  apply (read_binary_with_after_request sent_grows) in Hrun;
    try sent_grows_side.
  cbv zeta in Hrun. destruct Hrun as (s0 & w0 & Hreq & Hgrow).
  replace (len >? MAX_OPERATION_SIZE) with false in Hreq
    by (symmetry; rewrite Z.gtb_ltb; apply Z.ltb_ge; lia).
  rewrite (request_run CMD_MASK_READBINARY _ frame) in Hreq;
    [ | reflexivity | reflexivity | exact Hok | cbn; lia | intros [=] ].
  injection Hreq as _ <-. apply sent_after_request. exact Hgrow.
Qed.

(** An update of at most 246 bytes the caller owns returns, and the frame
    it hands to the channel is the update request for that length. *)
Lemma update_binary_transmits offset len a payload w :
  0 <= len <= MAX_OPERATION_SIZE ->
  driver_ok w -> mem w !! a = Some payload ->
  len <= Z.of_nat (length payload) ->
  exists status w',
    update_binary offset len (Some a) w = Some (status, w') /\
    i2c_sent (_i2c_channel w') !! length (i2c_sent (_i2c_channel w)) =
      Some (update_binary_frame (toggle (block_number w)) offset len payload).
Proof.
  intros Hlen Hok Hmem Hsize.
  set (frame := update_binary_frame (toggle (block_number w)) offset len payload).
  assert (length frame = (8 + Z.to_nat len)%nat) as Hframe.
  { subst frame. unfold update_binary_frame, crc_framed.
    rewrite !length_app, length_take. simpl. lia. }
  unfold MAX_OPERATION_SIZE in Hlen.
  assert (is_Some (update_binary offset len (Some a) w))
    as [[status w'] Hrun].
  { unfold update_binary.
    replace (len >? MAX_OPERATION_SIZE) with false
      by (symmetry; rewrite Z.gtb_ltb; apply Z.ltb_ge;
        unfold MAX_OPERATION_SIZE; lia).
    unfold bind at 1, deref at 1. rewrite Hmem. obind.
    rewrite (request_eq CMD_MASK_UPDATEBINARY _ frame);
      [ | reflexivity | symmetry; apply update_binary_frame_eq | exact Hok
        | lia | intros _; cbn; lia ].
    destruct (failed (io_status _)).
    { apply finish_is_Some, callback_is_Some. }
    unfold bind at 1, modify at 1. unfold bind at 1, modify at 1.
    unfold bind at 1, gets at 1.
    cbn [_communication_type set_last_command_data set_last_command requested
         set_i2c_channel set_block_number set_buffer].
    destruct (_communication_type w); [|unfold ret; eauto].
    erewrite bind_eq by apply io_poll_i2c_eq. rewrite Z.eqb_refl.
    apply receive_update_binary_total. }
  exists status, w'. split; [exact Hrun|].
  apply (update_binary_after_request sent_grows) in Hrun;
    try sent_grows_side.
  cbv zeta in Hrun. destruct Hrun as (payload' & s0 & w0 & Hd & Hreq & Hgrow).
  unfold deref in Hd. rewrite Hmem in Hd. obind in Hd.
  injection Hd as <-.
  replace (len >? MAX_OPERATION_SIZE) with false in Hreq
    by (symmetry; rewrite Z.gtb_ltb; apply Z.ltb_ge;
        unfold MAX_OPERATION_SIZE; lia).
  rewrite (request_run CMD_MASK_UPDATEBINARY _ frame) in Hreq;
    [ | reflexivity | symmetry; apply update_binary_frame_eq | exact Hok
      | lia | intros _; cbn; lia ].
  injection Hreq as _ <-. apply sent_after_request. exact Hgrow.
Qed.

(** C10: a read or an update called with a length above 246 behaves in every
    respect as the same call with length 246: no error is reported for the
    length. On a driver with its 255-byte scratch buffer and memory of the
    caller behind the pointer, the call returns and the frame it hands to
    the channel is the request for 246 bytes. *)
Theorem oversized_length_is_clamped offset len a block w :
  MAX_OPERATION_SIZE < len <= 255 ->
  driver_ok w -> mem w !! a = Some block ->
  MAX_OPERATION_SIZE <= Z.of_nat (length block) ->
  let bn := toggle (block_number w) in
  let log := i2c_sent (_i2c_channel w) in
  (read_binary offset len (Some a) w =
     read_binary offset MAX_OPERATION_SIZE (Some a) w /\
   exists status w',
     read_binary offset len (Some a) w = Some (status, w') /\
     i2c_sent (_i2c_channel w') !! length log =
       Some (read_binary_frame C_APDU_CLA_DEFAULT bn offset
                               MAX_OPERATION_SIZE)) /\
  (st_read_binary offset len (Some a) w =
     st_read_binary offset MAX_OPERATION_SIZE (Some a) w /\
   exists status w',
     st_read_binary offset len (Some a) w = Some (status, w') /\
     i2c_sent (_i2c_channel w') !! length log =
       Some (read_binary_frame C_APDU_CLA_ST bn offset MAX_OPERATION_SIZE)) /\
  (update_binary offset len (Some a) w =
     update_binary offset MAX_OPERATION_SIZE (Some a) w /\
   exists status w',
     update_binary offset len (Some a) w = Some (status, w') /\
     i2c_sent (_i2c_channel w') !! length log =
       Some (update_binary_frame bn offset MAX_OPERATION_SIZE block)).
Proof.
  intros Hlen Hok Hmem Hsize bn log.
  assert ((len >? MAX_OPERATION_SIZE) = true) as Hgt
    by (rewrite Z.gtb_ltb; apply Z.ltb_lt; lia).
  assert (forall cla ro,
            read_binary_with cla ro offset len (Some a) w =
            read_binary_with cla ro offset MAX_OPERATION_SIZE (Some a) w)
    as Hread.
  { intros cla ro. unfold read_binary_with. rewrite Hgt. reflexivity. }
  assert (update_binary offset len (Some a) w =
          update_binary offset MAX_OPERATION_SIZE (Some a) w) as Hupd.
  { unfold update_binary. rewrite Hgt. reflexivity. }
  assert (addresses (Some a) MAX_OPERATION_SIZE w) as Haddr
    by (exists a, block; auto).
  split; [|split].
  - rewrite !read_binary_eq. split; [apply Hread|]. rewrite Hread.
    apply read_binary_with_transmits;
      [unfold MAX_OPERATION_SIZE; lia | exact Hok | exact Haddr].
  - rewrite !st_read_binary_eq. split; [apply Hread|]. rewrite Hread.
    apply read_binary_with_transmits;
      [unfold MAX_OPERATION_SIZE; lia | exact Hok | exact Haddr].
  - split; [exact Hupd|]. rewrite Hupd.
    apply update_binary_transmits;
      [unfold MAX_OPERATION_SIZE; lia | exact Hok | exact Hmem | exact Hsize].
Qed.


(** * Further properties *)

(** ** The CRC engine on a zero length and on corrupted bytes *)

(** A span longer than the buffer runs the loop off its end. *)
Lemma compute_crc_loop_short fuel : forall (data : list Z) n crc,
  (length data < n)%nat -> (n <= 255)%nat ->
  compute_crc_loop fuel data (Z.of_nat n) crc = None.
Proof.
  induction fuel as [|fuel IH]; intros data n crc Hlen H255; [reflexivity|].
  destruct data as [|ch data]; [reflexivity|].
  cbn [compute_crc_loop]. simpl in Hlen.
  destruct n as [|n]; [lia|].
  replace (u8 (Z.of_nat (S n) - 1)) with (Z.of_nat n)
    by (rewrite u8_small; lia).
  replace (Z.of_nat n =? 0) with false by (symmetry; apply Z.eqb_neq; lia).
  apply IH; lia.
Qed.

Lemma compute_crc_loop_step fuel ch (data : list Z) len crc :
  compute_crc_loop (S fuel) (ch :: data) len crc =
    if u8 (len - 1) =? 0 then Some (update_crc ch crc)
    else compute_crc_loop fuel data (u8 (len - 1)) (update_crc ch crc).
Proof. reflexivity. Qed.

(** X1: the length of [compute_crc] is a [uint8_t] counted down by a
    do-while loop, so a call with length 0 folds 256 bytes: on a buffer that
    has them the result is the fold over its first 256 bytes, and on a
    shorter buffer the loop leaves the buffer. *)
Theorem compute_crc_zero_length_wraps (data : list Z) :
  compute_crc data 0 =
    if decide (256 <= length data)%nat
    then Some (crc16_fold (take 256 data)) else None.
Proof.
  unfold compute_crc. change (u8 0) with 0.
  destruct data as [|ch data].
  { rewrite decide_False by (simpl; lia). reflexivity. }
  rewrite (compute_crc_loop_step 255 ch data 0).
  change (u8 (0 - 1)) with (Z.of_nat 255).
  change (Z.of_nat 255 =? 0) with false. cbv iota.
  destruct (decide (256 <= length (ch :: data))%nat) as [Hlen|Hlen];
    simpl in Hlen.
  - rewrite compute_crc_loop_fold by lia. reflexivity.
  - apply compute_crc_loop_short; lia.
Qed.

Lemma bytes_spec x : 0 <= x < 256 -> In x bytes.
Proof.
  intros Hx. unfold bytes. apply in_map_iff. exists (Z.to_nat x).
  split; [lia|]. apply in_seq. lia.
Qed.

Lemma land_lxor a b m :
  Z.land (Z.lxor a b) m = Z.lxor (Z.land a m) (Z.land b m).
Proof.
  apply Z.bits_inj'. intros n Hn.
  rewrite !Z.lxor_spec, !Z.land_spec, Z.lxor_spec.
  destruct (Z.testbit a n), (Z.testbit b n), (Z.testbit m n); reflexivity.
Qed.

Lemma u8_lxor a b : u8 (Z.lxor a b) = Z.lxor (u8 a) (u8 b).
Proof.
  unfold u8. change 256 with (2 ^ 8). rewrite <- !Z.land_ones by lia.
  apply land_lxor.
Qed.

Lemma u16_lxor a b : u16 (Z.lxor a b) = Z.lxor (u16 a) (u16 b).
Proof.
  unfold u16. change 65536 with (2 ^ 16). rewrite <- !Z.land_ones by lia.
  apply land_lxor.
Qed.

Lemma lxor_cancel_r a b c : Z.lxor a c = Z.lxor b c -> a = b.
Proof.
  intros H. apply (f_equal (fun z => Z.lxor z c)) in H.
  rewrite !Z.lxor_assoc, !Z.lxor_nilpotent, !Z.lxor_0_r in H. exact H.
Qed.

Lemma lxor_cancel_l a b c : Z.lxor c a = Z.lxor c b -> a = b.
Proof. rewrite !(Z.lxor_comm c). apply lxor_cancel_r. Qed.

(** [update_crc] splits into the high byte of the accumulator and the
    table entry of the byte folded in. *)
Lemma update_crc_table ch crc :
  0 <= crc < 65536 ->
  update_crc ch crc =
    Z.lxor (crc / 256) (crc_table (u8 (Z.lxor ch (crc mod 256)))).
Proof.
  intros Hc. unfold crc_table, update_crc.
  rewrite land_255_u8 by lia. fold (u8 crc).
  rewrite (u8_small (u8 crc)) by apply u8_range.
  change (Z.land 0 0x00FF) with 0. change (u8 0) with 0.
  rewrite Z.lxor_0_r.
  set (y := u8 (Z.lxor ch (u8 crc))).
  rewrite (u8_small y) by apply u8_range.
  set (c := u8 (Z.lxor y (Z.shiftl y 4))).
  change (Z.shiftr 0 8) with 0. rewrite Z.lxor_0_l.
  rewrite !u16_lxor.
  rewrite (u16_small (Z.shiftr crc 8)).
  - rewrite Z.shiftr_div_pow2 by lia. change (2 ^ 8) with 256.
    rewrite !Z.lxor_assoc. reflexivity.
  - rewrite Z.shiftr_div_pow2 by lia. change (2 ^ 8) with 256.
    split; [apply Z.div_pos; lia|]. apply Z.div_lt_upper_bound; lia.
Qed.

Lemma crc_table_separates_true : crc_table_separates = true.
Proof. vm_compute. reflexivity. Qed.

Lemma crc_table_high_byte x y :
  0 <= x < 256 -> 0 <= y < 256 ->
  crc_table x / 256 = crc_table y / 256 -> x = y.
Proof.
  intros Hx Hy H.
  pose proof crc_table_separates_true as Hall. unfold crc_table_separates in Hall.
  rewrite forallb_forall in Hall.
  specialize (Hall x (bytes_spec x Hx)). rewrite forallb_forall in Hall.
  specialize (Hall y (bytes_spec y Hy)).
  rewrite H, Z.eqb_refl in Hall. simpl in Hall. apply Z.eqb_eq. exact Hall.
Qed.

Lemma lxor_high_byte h t :
  0 <= h < 256 -> Z.lxor h t / 256 = t / 256.
Proof.
  intros Hh. change 256 with (2 ^ 8). rewrite <- !Z.shiftr_div_pow2 by lia.
  rewrite Z.shiftr_lxor. rewrite (Z.shiftr_div_pow2 h) by lia.
  rewrite Z.div_small by (change (2 ^ 8) with 256; lia).
  apply Z.lxor_0_l.
Qed.

(** For a given byte, [update_crc] is one-to-one in the accumulator. *)
Lemma update_crc_injective_state ch c1 c2 :
  0 <= c1 < 65536 -> 0 <= c2 < 65536 ->
  update_crc ch c1 = update_crc ch c2 -> c1 = c2.
Proof.
  intros H1 H2 H.
  rewrite (update_crc_table ch c1), (update_crc_table ch c2) in H by lia.
  assert (0 <= c1 / 256 < 256) as Hh1
    by (split; [apply Z.div_pos; lia | apply Z.div_lt_upper_bound; lia]).
  assert (0 <= c2 / 256 < 256) as Hh2
    by (split; [apply Z.div_pos; lia | apply Z.div_lt_upper_bound; lia]).
  pose proof (f_equal (fun z => z / 256) H) as Hhi. cbv beta in Hhi.
  rewrite !lxor_high_byte in Hhi by lia.
  apply crc_table_high_byte in Hhi; try apply u8_range.
  rewrite Hhi in H. apply lxor_cancel_r in H.
  rewrite !u8_lxor in Hhi. apply lxor_cancel_l in Hhi.
  unfold u8 in Hhi. rewrite !Z.mod_mod in Hhi by lia.
  rewrite (Z.div_mod c1 256), (Z.div_mod c2 256) by lia. congruence.
Qed.

(** For a given accumulator, [update_crc] is one-to-one in the byte. *)
Lemma update_crc_injective_byte crc x y :
  0 <= crc < 65536 -> 0 <= x < 256 -> 0 <= y < 256 ->
  update_crc x crc = update_crc y crc -> x = y.
Proof.
  intros Hc Hx Hy H.
  rewrite (update_crc_table x crc), (update_crc_table y crc) in H by lia.
  apply lxor_cancel_l in H.
  apply (f_equal (fun z => z / 256)) in H.
  apply crc_table_high_byte in H; try apply u8_range.
  rewrite !u8_lxor in H. apply lxor_cancel_r in H.
  rewrite !u8_small in H by lia. exact H.
Qed.

Lemma fold_update_crc_range (s : list Z) : forall c,
  0 <= c < 65536 ->
  0 <= fold_left (fun crc ch => update_crc ch crc) s c < 65536.
Proof.
  induction s as [|ch s IH]; intros c Hc; simpl; [exact Hc|].
  apply IH, update_crc_range.
Qed.

Lemma fold_update_crc_injective (s : list Z) : forall c1 c2,
  0 <= c1 < 65536 -> 0 <= c2 < 65536 ->
  fold_left (fun crc ch => update_crc ch crc) s c1 =
  fold_left (fun crc ch => update_crc ch crc) s c2 -> c1 = c2.
Proof.
  induction s as [|ch s IH]; intros c1 c2 H1 H2 H; simpl in H; [exact H|].
  apply IH in H; try apply update_crc_range.
  eapply update_crc_injective_state; eassumption.
Qed.

(** Two spans that differ in one byte have different CRCs. *)
Lemma crc16_fold_one_byte p x y s :
  0 <= x < 256 -> 0 <= y < 256 -> x <> y ->
  crc16_fold (p ++ x :: s) <> crc16_fold (p ++ y :: s).
Proof.
  intros Hx Hy Hne H. unfold crc16_fold in H.
  rewrite !fold_left_app in H. simpl in H.
  apply fold_update_crc_injective in H; try apply update_crc_range.
  apply update_crc_injective_byte in H; try assumption.
  - contradiction.
  - apply fold_update_crc_range. lia.
Qed.

Lemma take_insert_split (data : list Z) (n i : nat) (old v : Z) :
  (i < n)%nat -> data !! i = Some old ->
  exists s,
    take n data = take i data ++ old :: s /\
    take n (<[i := v]> data) = take i data ++ v :: s.
Proof.
  intros Hi Hold. exists (drop (S i) (take n data)).
  assert (take n data !! i = Some old) as Ht
    by (rewrite lookup_take_lt by lia; exact Hold).
  pose proof (take_drop_middle (take n data) i old Ht) as Hmid.
  rewrite take_take in Hmid. replace (i `min` n)%nat with i in Hmid by lia.
  split; [symmetry; exact Hmid|].
  rewrite take_insert_lt by lia.
  rewrite insert_take_drop by (apply lookup_lt_Some in Ht; exact Ht).
  rewrite take_take. replace (i `min` n)%nat with i by lia. reflexivity.
Qed.

(** X2: the CRC detects every corruption of a single byte: replacing one
    byte of the span by a different byte changes the result of
    [compute_crc], so a span with residue zero no longer has it. *)
Theorem compute_crc_detects_corrupted_byte
    (data : list Z) (len : Z) (i : nat) (old v : Z) :
  0 < len <= 255 -> len <= Z.of_nat (length data) ->
  (i < Z.to_nat len)%nat -> data !! i = Some old ->
  0 <= old < 256 -> 0 <= v < 256 -> v <> old ->
  exists r r',
    compute_crc data len = Some r /\
    compute_crc (<[i := v]> data) len = Some r' /\ r' <> r.
Proof.
  intros Hlen Hdata Hi Hold Hob Hvb Hne.
  rewrite (compute_crc_fold data len) by lia.
  rewrite (compute_crc_fold (<[i := v]> data) len)
    by (rewrite ?length_insert; lia).
  destruct (take_insert_split data (Z.to_nat len) i old v Hi Hold)
    as (s & -> & ->).
  eexists. eexists. split; [reflexivity|]. split; [reflexivity|].
  apply crc16_fold_one_byte; assumption.
Qed.


(** ** The validator on framed responses *)

Lemma length_crc_framed body : length (crc_framed body) = (length body + 2)%nat.
Proof. unfold crc_framed. rewrite length_app. reflexivity. Qed.

Lemma nth_after_middle (l r : list Z) x y :
  nth (S (length l)) (l ++ x :: y :: r) 0 = y.
Proof.
  replace (l ++ x :: y :: r) with ((l ++ [x]) ++ y :: r)
    by (rewrite <- app_assoc; reflexivity).
  replace (S (length l)) with (length (l ++ [x]))
    by (rewrite length_app; simpl; lia).
  apply nth_middle.
Qed.

(** The validator on a frame that ends in two status bytes and the CRC of
    what precedes them. *)
Lemma is_correct_crc_residue_framed (body rest : list Z) (sw1 sw2 : Z) :
  let frame := crc_framed (body ++ [sw1; sw2]) in
  0 <= sw1 < 256 -> 0 <= sw2 < 256 -> (length frame <= 255)%nat ->
  is_correct_crc_residue (frame ++ rest) (Z.of_nat (length frame)) =
    Some (to_status (256 * sw1 + sw2)).
Proof.
  intros frame H1 H2 Hlen.
  assert (length frame = (length body + 4)%nat) as Hframe.
  { subst frame. rewrite length_crc_framed, length_app. simpl. lia. }
  unfold is_correct_crc_residue.
  rewrite u8_small by lia.
  replace (Z.of_nat (length frame) =? 0) with false
    by (symmetry; apply Z.eqb_neq; lia).
  rewrite (compute_crc_fold (frame ++ rest) (Z.of_nat (length frame)))
    by (rewrite ?length_app; lia).
  rewrite Nat2Z.id, take_app_length.
  subst frame. rewrite crc16_fold_crc_framed. obind.
  change (0 =? 0) with true. cbv iota.
  unfold UB_STATUS_OFFSET, LB_STATUS_OFFSET.
  rewrite !peek_nth by (rewrite length_app; lia).
  obind. rewrite Hframe.
  replace (Z.to_nat (Z.of_nat (length body + 4) - 4)) with (length body) by lia.
  replace (Z.to_nat (Z.of_nat (length body + 4) - 3))
    with (S (length body)) by lia.
  unfold crc_framed. rewrite <- !app_assoc. cbn [app].
  rewrite nth_middle, nth_after_middle.
  rewrite status_word_bytes by lia. reflexivity.
Qed.

(** X3: a response that ends in two status bytes and the CRC of what
    precedes them passes the validator, which returns the status the two
    bytes spell, high byte first, with 0x9000 mapped to success and every
    other status handed on as it is; the bytes that follow the frame in the
    buffer play no part. *)
Theorem is_correct_crc_residue_accepts_framed_status
    (body rest : list Z) (sw1 sw2 : Z) :
  let frame := crc_framed (body ++ [sw1; sw2]) in
  let verdict :=
    is_correct_crc_residue (frame ++ rest) (Z.of_nat (length frame)) in
  0 <= sw1 < 256 -> 0 <= sw2 < 256 -> (length frame <= 255)%nat ->
  (sw1 = 0x90 /\ sw2 = 0x00 -> verdict = Some M24SR_SUCCESS) /\
  (~ (sw1 = 0x90 /\ sw2 = 0x00) -> verdict = Some (256 * sw1 + sw2)).
Proof.
  intros frame verdict H1 H2 Hlen. subst verdict frame.
  rewrite is_correct_crc_residue_framed by assumption.
  unfold to_status, NFC_COMMAND_SUCCESS. split.
  - intros [-> ->]. reflexivity.
  - intros Hne.
    replace (256 * sw1 + sw2 =? 0x9000) with false; [reflexivity|].
    symmetry. apply Z.eqb_neq. intros Heq. apply Hne. lia.
Qed.

(** X4: a five-byte status response with a correct CRC in which one byte is
    replaced by a different byte is rejected with the CRC error. *)
Theorem is_correct_crc_residue_rejects_corrupted_byte
    (data : list Z) (i : nat) (old v : Z) :
  (5 <= length data)%nat -> compute_crc data 5 = Some 0 ->
  (i < 5)%nat -> data !! i = Some old ->
  0 <= old < 256 -> 0 <= v < 256 -> v <> old ->
  is_correct_crc_residue (<[i := v]> data) 5 = Some M24SR_IO_ERROR_CRC.
Proof.
  intros Hlen Hzero Hi Hold Hob Hvb Hne.
  rewrite is_correct_crc_residue_cases by (rewrite ?length_insert; lia).
  change (Z.to_nat 5) with 5%nat.
  rewrite (compute_crc_fold data 5) in Hzero by lia.
  change (Z.to_nat 5) with 5%nat in Hzero.
  destruct (take_insert_split data 5 i old v Hi Hold) as (s & Ht & Ht').
  rewrite Ht in Hzero. rewrite Ht'.
  assert (crc16_fold (take i data ++ v :: s) <> 0) as Hnz.
  { intros Hz. apply (crc16_fold_one_byte (take i data) v old s); try assumption.
    congruence. }
  apply Z.eqb_neq in Hnz. rewrite Hnz. reflexivity.
Qed.


(** ** The codec, whenever it returns *)

Lemma length_cur pre buf0 :
  (length pre <= length buf0)%nat -> length (snd (cur pre buf0)) = length buf0.
Proof. intros H. unfold cur. cbn [snd]. rewrite length_app, length_drop. lia. Qed.

Lemma emit_cur_inv pre buf0 v s' :
  (length pre <= length buf0)%nat -> (length buf0 <= 255)%nat ->
  emit v (cur pre buf0) = Some s' ->
  (length pre < length buf0)%nat /\ s' = cur (pre ++ [v]) buf0.
Proof.
  intros Hpre H255 He.
  destruct (decide (length pre < length buf0)%nat) as [Hlt|Hge].
  - rewrite emit_cur in He by assumption. split; congruence.
  - exfalso. unfold emit, cur in He. rewrite Nat2Z.id in He.
    rewrite decide_False in He by (rewrite length_app, length_drop; lia).
    discriminate.
Qed.

Lemma field_step_inv mask flag v pre buf0 s' :
  (length pre <= length buf0)%nat -> (length buf0 <= 255)%nat ->
  (if needed mask flag then emit v (cur pre buf0) else Some (cur pre buf0)) =
    Some s' ->
  (length (pre ++ field mask flag v) <= length buf0)%nat /\
  s' = cur (pre ++ field mask flag v) buf0.
Proof.
  intros Hpre H255 He. unfold field. destruct (needed mask flag).
  - apply emit_cur_inv in He as [Hlt ->]; try assumption.
    split; [rewrite length_app; simpl; lia | reflexivity].
  - rewrite app_nil_r. split; [assumption | congruence].
Qed.

Lemma memcpy_cur_inv pre buf0 src n buffer :
  (length pre <= length buf0)%nat ->
  memcpy_at (snd (cur pre buf0)) (fst (cur pre buf0)) src n = Some buffer ->
  0 <= n <= Z.of_nat (length src) /\
  (length pre + Z.to_nat n <= length buf0)%nat.
Proof.
  intros Hpre He. unfold memcpy_at in He.
  destruct (decide _) as [(Hoff & Hn & Hsrc & Hdst)|]; [|discriminate].
  rewrite length_cur in Hdst by assumption.
  unfold cur in Hdst. cbn [fst] in Hdst. lia.
Qed.

Lemma payload_step_inv mask command pre buf0 s' :
  (length pre <= length buf0)%nat -> (length buf0 <= 255)%nat ->
  (if needed mask DATA_NEEDED then
     buffer ← match body_data command with
              | Some data =>
                  memcpy_at (snd (cur pre buf0)) (fst (cur pre buf0)) data
                            (LC command)
              | None =>
                  memset_at (snd (cur pre buf0)) (fst (cur pre buf0)) 0
                            (LC command)
              end;
     Some (u16 (fst (cur pre buf0) + LC command), buffer)
   else Some (cur pre buf0)) = Some s' ->
  (length (pre ++ payload_field mask command) <= length buf0)%nat /\
  s' = cur (pre ++ payload_field mask command) buf0 /\
  (needed mask DATA_NEEDED = true ->
   0 <= LC command /\
   match body_data command with
   | Some data => LC command <= Z.of_nat (length data)
   | None => True
   end).
Proof.
  intros Hpre H255 He.
  assert ((needed mask DATA_NEEDED = true ->
           0 <= LC command /\
           match body_data command with
           | Some data => LC command <= Z.of_nat (length data)
           | None => True
           end) /\
          (length (pre ++ payload_field mask command) <= length buf0)%nat)
    as [Hdata Hfit].
  { unfold payload_field. destruct (needed mask DATA_NEEDED).
    - match type of He with
      | mbind _ ?X = _ => destruct X as [b|] eqn:Eb; [|discriminate]
      end.
      destruct (body_data command) as [data|].
      + apply memcpy_cur_inv in Eb as [Hn Hf]; [|assumption].
        split; [intros _; lia|]. rewrite length_app, length_take. lia.
      + unfold memset_at in Eb.
        apply memcpy_cur_inv in Eb as [Hn Hf]; [|assumption].
        split; [intros _; split; [lia | exact I]|].
        rewrite length_app, length_replicate. lia.
    - split; [intros [=]|]. rewrite app_nil_r. assumption. }
  rewrite payload_step_cur in He by assumption.
  split; [assumption|]. split; [congruence | assumption].
Qed.

Lemma compute_crc_zero_length_short (data : list Z) :
  (length data <= 255)%nat -> compute_crc data 0 = None.
Proof.
  intros Hlen. unfold compute_crc. change (u8 0) with 0.
  destruct data as [|ch data]; [reflexivity|].
  rewrite (compute_crc_loop_step 255 ch data 0).
  change (u8 (0 - 1)) with (Z.of_nat 255).
  change (Z.of_nat 255 =? 0) with false. cbv iota.
  apply compute_crc_loop_short; simpl in Hlen; lia.
Qed.

Lemma crc_step_inv mask pre buf0 s' :
  (length pre <= length buf0)%nat -> (length buf0 <= 255)%nat ->
  (if needed mask CRC_NEEDED then
     crc16 ← compute_crc (snd (cur pre buf0)) (u8 (fst (cur pre buf0)));
     s ← emit (GETLSB crc16) (cur pre buf0);
     emit (GETMSB crc16) s
   else Some (cur pre buf0)) = Some s' ->
  (length (with_crc mask pre) <= length buf0)%nat /\
  s' = cur (with_crc mask pre) buf0 /\
  (needed mask CRC_NEEDED = true -> pre <> []).
Proof.
  intros Hpre H255 He.
  assert ((needed mask CRC_NEEDED = true -> pre <> []) /\
          (length (with_crc mask pre) <= length buf0)%nat) as [Hne Hfit].
  { unfold with_crc, crc_field. destruct (needed mask CRC_NEEDED).
    - assert (pre <> []) as Hne.
      { intros ->. rewrite cur_nil in He. cbn [fst snd] in He.
        change (u8 0) with 0 in He.
        rewrite compute_crc_zero_length_short in He by assumption.
        discriminate. }
      assert (0 < length pre)%nat as Hpos
        by (destruct pre; [congruence | simpl; lia]).
      change (snd (cur pre buf0)) with (pre ++ drop (length pre) buf0) in He.
      change (fst (cur pre buf0)) with (Z.of_nat (length pre)) in He.
      rewrite u8_small in He by lia.
      rewrite compute_crc_fold in He
        by (rewrite ?length_app, ?length_drop; lia).
      obind in He.
      match type of He with
      | mbind _ ?X = _ => destruct X as [s1|] eqn:E1; [obind in He | discriminate]
      end.
      apply emit_cur_inv in E1 as [Hlt1 ->]; try assumption.
      apply emit_cur_inv in He as [Hlt2 _];
        [ | rewrite length_app; simpl; lia | assumption ].
      rewrite length_app in Hlt2. simpl in Hlt2.
      split; [intros _; exact Hne|]. rewrite length_app. simpl. lia.
    - split; [intros [=]|]. rewrite app_nil_r. assumption. }
  rewrite crc_step_cur in He by assumption.
  split; [assumption|]. split; [congruence | assumption].
Qed.

(** Whenever the codec returns, it has written the frame at the start of
    the buffer, the frame fitted, and the payload was there. *)
Lemma build_I_block_command_some mask command did bn buf0 len buf bn' :
  (length buf0 <= 255)%nat ->
  build_I_block_command mask command did bn buf0 = Some (len, buf, bn') ->
  let frame := frame_of mask command did bn' in
  bn' = next_block_number mask bn /\
  len = Z.of_nat (length frame) /\
  (length frame <= length buf0)%nat /\
  buf = frame ++ drop (length frame) buf0 /\
  (needed mask DATA_NEEDED = true ->
   0 <= LC command /\
   match body_data command with
   | Some data => LC command <= Z.of_nat (length data)
   | None => True
   end) /\
  (needed mask CRC_NEEDED = true ->
   frame_fields mask command (field bn' DID_NEEDED did) bn' <> []).
Proof.
  intros H255 Hb. unfold build_I_block_command in Hb.
  fold (next_block_number mask bn) in Hb.
  set (b := next_block_number mask bn) in *.
  rewrite <- cur_nil in Hb.
  do 7 (match type of Hb with
        | mbind _ ?X = _ =>
            let s := fresh "s" in let E := fresh "E" in
            destruct X as [s|] eqn:E; [obind in Hb | discriminate];
            apply field_step_inv in E as [? ->];
            [ | first [assumption | simpl; lia] .. ]
        end).
  match type of Hb with
  | mbind _ ?X = _ => destruct X as [s8|] eqn:E8; [obind in Hb | discriminate]
  end.
  apply payload_step_inv in E8 as (? & -> & Hdata); try assumption.
  match type of Hb with
  | mbind _ ?X = _ => destruct X as [s9|] eqn:E9; [obind in Hb | discriminate]
  end.
  apply field_step_inv in E9 as [? ->]; try assumption.
  match type of Hb with
  | mbind _ ?X = _ => destruct X as [s10|] eqn:E10; [obind in Hb | discriminate]
  end.
  apply crc_step_inv in E10 as (Hfit & -> & Hcrc); try assumption.
  injection Hb as <- <- <-. cbv zeta.
  rewrite <- !app_assoc in *. cbn [app] in *.
  unfold frame_of, frame_fields. cbn [app].
  split; [reflexivity|]. split; [reflexivity|]. split; [exact Hfit|].
  split; [reflexivity|]. split; assumption.
Qed.


(** X5: the codec has one way to go wrong, writing past the buffer. On a
    buffer of at most 255 bytes it returns exactly when the frame fits, the
    selected payload is there and a selected CRC has bytes to cover; when
    it returns, the frame is at the start of the buffer, the length is that
    of the frame, the bytes after the frame are untouched and the buffer
    keeps its size. *)
Theorem build_I_block_command_frame_effect mask command did bn buf0 :
  (length buf0 <= 255)%nat ->
  let bn' := next_block_number mask bn in
  let frame := frame_of mask command did bn' in
  (encodable mask command did bn' (length buf0) <->
   is_Some (build_I_block_command mask command did bn buf0)) /\
  (forall len buf b,
     build_I_block_command mask command did bn buf0 = Some (len, buf, b) ->
     len = Z.of_nat (length frame) /\ b = bn' /\
     take (length frame) buf = frame /\
     drop (length frame) buf = drop (length frame) buf0 /\
     length buf = length buf0).
Proof.
  intros H255 bn' frame. split; [split|].
  - intros (Hfit & Hdata & Hcrc).
    rewrite build_I_block_command_ok by assumption. eauto.
  - intros [[[len buf] b] Hb].
    destruct (build_I_block_command_some _ _ _ _ _ _ _ _ H255 Hb)
      as (-> & _ & Hfit & _ & Hdata & Hcrc).
    split; [exact Hfit|]. split; assumption.
  - intros len buf b Hb.
    destruct (build_I_block_command_some _ _ _ _ _ _ _ _ H255 Hb)
      as (-> & -> & Hfit & -> & _).
    subst frame bn'.
    split; [reflexivity|]. split; [reflexivity|].
    rewrite take_app_length, drop_app_length, length_app, length_drop.
    split; [reflexivity|]. split; [reflexivity|]. lia.
Qed.

Lemma with_crc_crc_framed mask fields :
  needed mask CRC_NEEDED = true -> with_crc mask fields = crc_framed fields.
Proof. intros H. unfold with_crc, crc_field, crc_framed. rewrite H. reflexivity. Qed.

(** X6: the codec and the CRC engine agree: every frame built with the CRC
    selected has residue zero over its whole length, which is what the chip
    checks on reception. *)
Theorem build_I_block_command_crc_residue mask command did bn buf0 len buf bn' :
  (length buf0 <= 255)%nat ->
  needed mask CRC_NEEDED = true ->
  build_I_block_command mask command did bn buf0 = Some (len, buf, bn') ->
  3 <= len <= 255 /\ compute_crc buf len = Some 0.
Proof.
  intros H255 Hsel Hb.
  destruct (build_I_block_command_some _ _ _ _ _ _ _ _ H255 Hb)
    as (_ & -> & Hfit & -> & _ & Hcrc).
  specialize (Hcrc Hsel).
  unfold frame_of in *. rewrite with_crc_crc_framed in * by exact Hsel.
  set (fields := frame_fields mask command (field bn' DID_NEEDED did) bn') in *.
  rewrite length_crc_framed in *.
  assert (0 < length fields)%nat
    by (destruct fields; [congruence | simpl; lia]).
  split; [lia|].
  rewrite compute_crc_fold
    by (rewrite ?length_app, ?length_crc_framed, ?length_drop; lia).
  rewrite Nat2Z.id.
  rewrite <- (length_crc_framed fields), take_app_length.
  rewrite crc16_fold_crc_framed. reflexivity.
Qed.

(** ** The block classifier *)

Lemma sblock_is_range_true : sblock_is_range = true.
Proof. vm_compute. reflexivity. Qed.

Lemma sblock_range pcb :
  0 <= pcb < 256 -> (Z.land pcb MASK_BLOCK =? MASK_SBLOCK) = (0xC0 <=? pcb).
Proof.
  intros Hb. pose proof sblock_is_range_true as Hall.
  unfold sblock_is_range in Hall. rewrite forallb_forall in Hall.
  specialize (Hall pcb (bytes_spec pcb Hb)).
  apply Bool.eqb_prop in Hall. exact Hall.
Qed.

(** X7: the classifier looks at the first byte only and reports an S-block
    exactly for the header bytes 0xC0 to 0xFF. So the acknowledgement of a
    wait-time extension is itself classified as an S-block, and its CRC
    residue is zero, while no frame the codec builds with a header is: its
    header is 0x02 or 0x03. *)
Theorem is_S_block_classifies (pcb : Z) (rest : list Z) :
  0 <= pcb < 256 ->
  is_S_block (pcb :: rest) =
    Some (if 0xC0 <=? pcb then M24SR_SUCCESS else M24SR_ERROR) /\
  (forall fwt_byte,
     is_S_block (fwt_frame fwt_byte) = Some M24SR_SUCCESS /\
     compute_crc (fwt_frame fwt_byte) 4 = Some 0) /\
  (forall mask command did bn buf0 len buf bn',
     (length buf0 <= 255)%nat -> needed mask PCB_NEEDED = true ->
     build_I_block_command mask command did bn buf0 = Some (len, buf, bn') ->
     is_S_block buf = Some M24SR_ERROR).
Proof.
  intros Hb. split; [|split].
  - unfold is_S_block. change (peek (pcb :: rest) OFFSET_PCB) with (Some pcb).
    obind. rewrite sblock_range by exact Hb. reflexivity.
  - intros fwt_byte. split; [reflexivity|].
    rewrite (compute_crc_fold (fwt_frame fwt_byte) 4)
      by (unfold fwt_frame; rewrite ?length_crc_framed; simpl; lia).
    change (take (Z.to_nat 4) (fwt_frame fwt_byte))
      with (crc_framed [0xF2; fwt_byte]).
    rewrite crc16_fold_crc_framed. reflexivity.
  - intros mask command did bn buf0 len buf bn' H255 Hpcb Hbuild.
    destruct (build_I_block_command_header _ _ _ _ _ _ _ _ H255 Hpcb Hbuild)
      as (_ & Hh & _).
    unfold is_S_block. change (peek buf OFFSET_PCB) with (buf !! 0%nat).
    rewrite Hh. obind.
    unfold toggle. destruct (bn =? 0); reflexivity.
Qed.


(** ** Polling *)

Lemma polled_refusals refusals rest :
  Forall (fun r => r <> 0) refusals ->
  polled_acks (refusals ++ 0 :: rest) = rest /\
  probes (refusals ++ 0 :: rest) = S (length refusals) /\
  polled_acks refusals = [] /\
  probes refusals = S (length refusals).
Proof.
  induction 1 as [|r refusals Hr _ IH]; [repeat split|].
  destruct IH as (IH1 & IH2 & IH3 & IH4). cbn.
  replace (r =? 0) with false by (symmetry; apply Z.eqb_neq; exact Hr).
  cbn. rewrite IH1, IH2, IH3, IH4. repeat split.
Qed.

(** X8: polling has no error of its own. It writes the bare address again
    and again until the write is acknowledged, one write more than the chip
    refuses, and returns success; nothing else of the driver changes. *)
Theorem io_poll_i2c_until_acknowledged w refusals :
  Forall (fun r => r <> 0) refusals ->
  let ch := _i2c_channel w in
  let probed rest :=
    set_i2c_channel
      {| i2c_acks := rest; i2c_replies := i2c_replies ch;
         i2c_sent := i2c_sent ch ++ replicate (S (length refusals)) [] |} w in
  (forall rest, i2c_acks ch = refusals ++ 0 :: rest ->
     io_poll_i2c w = Some (M24SR_SUCCESS, probed rest)) /\
  (i2c_acks ch = refusals ->
     io_poll_i2c w = Some (M24SR_SUCCESS, probed [])).
Proof.
  intros Hr ch probed. split.
  - intros rest Hacks. rewrite io_poll_i2c_eq.
    unfold polled, probed. fold ch. rewrite Hacks.
    destruct (polled_refusals refusals rest Hr) as (-> & -> & _).
    reflexivity.
  - intros Hacks. rewrite io_poll_i2c_eq.
    unfold polled, probed. fold ch. rewrite Hacks.
    destruct (polled_refusals refusals [] Hr) as (_ & _ & -> & ->).
    reflexivity.
Qed.


(** ** Deselect *)



(** ** Wait-time extensions in a row *)

Lemma acknowledging_hd (acks : list Z) :
  Forall (fun r => r = 0) acks -> hd 0 acks = 0.
Proof. intros H. destruct H; [reflexivity | assumption]. Qed.

Lemma acknowledging_tl (acks : list Z) :
  Forall (fun r => r = 0) acks -> Forall (fun r => r = 0) (tl acks).
Proof. intros H. destruct H; [constructor | assumption]. Qed.

Lemma acknowledging_polled (acks : list Z) :
  Forall (fun r => r = 0) acks -> polled_acks acks = tl acks /\ probes acks = 1%nat.
Proof. intros H. destruct H as [|r acks -> _]; split; reflexivity. Qed.

(** One round of the receive step on a wait-time-extension request, for any
    number of rounds left. *)
Lemma receive_update_binary_rounds_extension fuel w reply replies :
  let lcd := _last_command_data w in
  let response := take 5 (snd reply) in
  let fwt_byte := nth 1 response 0 in
  let sent_status := io_status (hd 0 (i2c_acks (_i2c_channel w))) in
  let w1 :=
    set_i2c_channel (written (fwt_frame fwt_byte) (answered (_i2c_channel w)))
                    (set_last_command NONE w) in
  let w2 := set_last_command UPDATE w1 in
  let report status :=
    callback (on_updated_binary status (lcd_offset lcd) (lcd_data lcd)
                                (lcd_length lcd)) in
  i2c_replies (_i2c_channel w) = reply :: replies ->
  fst reply = 0 -> (5 <= length (snd reply))%nat ->
  Z.land (nth 0 response 0) MASK_BLOCK = MASK_SBLOCK ->
  is_correct_crc_residue response WATINGTIMEEXTRESPONSE_NBBYTE <>
    Some M24SR_IO_ERROR_CRC ->
  receive_update_binary_rounds (S fuel) w =
    if failed sent_status then (report sent_status;; ret sent_status) w1
    else
      match _communication_type w with
      | SYNC =>
          (let* status := receive_update_binary_rounds fuel in
           (if failed status then report status else ret tt);;
           ret status)
            (set_i2c_channel (polled (_i2c_channel w2)) w2)
      | ASYNC => Some (M24SR_SUCCESS, w2)
      end.
Proof.
  intros lcd response fwt_byte sent_status w1 w2 report
         Hreplies Hok Hlen Hsblock Hcrc.
  assert (length response = 5%nat) as Hresp
    by (subst response; rewrite length_take; lia).
  cbn [receive_update_binary_rounds].
  unfold bind at 1, gets at 1. fold lcd.
  unfold bind at 1, modify at 1.
  erewrite bind_eq
    by (apply io_receive_i2c_response_eq; unfold STATUSRESPONSE_NBBYTE;
        simpl; lia).
  cbv zeta. cbn [_i2c_channel set_last_command]. rewrite Hreplies.
  cbn [hd]. rewrite Hok, io_status_ack, failed_success.
  change (Z.to_nat STATUSRESPONSE_NBBYTE) with 5%nat. fold response.
  rewrite Hresp. change (drop 5 (replicate 5 0)) with (@nil Z).
  rewrite app_nil_r.
  unfold is_S_block, OFFSET_PCB.
  rewrite peek_nth by (rewrite Hresp; lia). obind.
  change (Z.to_nat 0) with 0%nat. rewrite Hsblock, Z.eqb_refl.
  unfold bind at 1, lift at 1. rewrite Z.eqb_refl.
  destruct (is_correct_crc_residue response WATINGTIMEEXTRESPONSE_NBBYTE)
    as [status|] eqn:Hres.
  2:{ unfold WATINGTIMEEXTRESPONSE_NBBYTE in Hres.
      rewrite is_correct_crc_residue_cases in Hres by (rewrite ?Hresp; lia).
      discriminate. }
  unfold bind at 1, lift at 1.
  replace (negb (status =? M24SR_IO_ERROR_CRC)) with true
    by (symmetry; apply negb_true_iff, Z.eqb_neq; congruence).
  rewrite peek_nth by (rewrite Hresp; lia).
  change (Z.to_nat (0 + 1)) with 1%nat. fold fwt_byte.
  unfold bind at 1, lift at 1.
  unfold bind at 1. rewrite send_fwt_extension_with_eq. cbv zeta.
  cbn [_i2c_channel set_i2c_channel set_last_command _communication_type
       answered i2c_acks].
  fold sent_status. fold w1.
  destruct (failed sent_status) eqn:Hsent.
  - rewrite Hsent. reflexivity.
  - fold w2. destruct (_communication_type w).
    + reflexivity.
    + rewrite failed_success. reflexivity.
Qed.

(** The round that reads the answer to the update itself. *)
Lemma receive_update_binary_rounds_answer fuel w reply replies status :
  let lcd := _last_command_data w in
  M24SR_ERROR <> M24SR_SUCCESS ->
  i2c_replies (_i2c_channel w) = reply :: replies ->
  fst reply = 0 -> length (snd reply) = 5%nat ->
  Z.land (nth 0 (snd reply) 0) MASK_BLOCK <> MASK_SBLOCK ->
  is_correct_crc_residue (snd reply) STATUSRESPONSE_NBBYTE = Some status ->
  receive_update_binary_rounds (S fuel) w =
    Some (status,
          set_callbacks
            (callbacks w ++
             [on_updated_binary status (lcd_offset lcd) (lcd_data lcd)
                                (lcd_length lcd)])
            (set_i2c_channel (answered (_i2c_channel w))
                             (set_last_command NONE w))).
Proof.
  intros lcd Herr Hreplies Hok Hlen Hiblock Hres.
  cbn [receive_update_binary_rounds].
  unfold bind at 1, gets at 1. fold lcd.
  unfold bind at 1, modify at 1.
  erewrite bind_eq
    by (apply io_receive_i2c_response_eq; unfold STATUSRESPONSE_NBBYTE;
        simpl; lia).
  cbv zeta. cbn [_i2c_channel set_last_command]. rewrite Hreplies.
  cbn [hd]. rewrite Hok, io_status_ack, failed_success.
  change (Z.to_nat STATUSRESPONSE_NBBYTE) with 5%nat.
  rewrite take_ge by lia. rewrite Hlen.
  change (drop 5 (replicate 5 0)) with (@nil Z). rewrite app_nil_r.
  unfold is_S_block, OFFSET_PCB.
  rewrite peek_nth by (rewrite Hlen; lia). obind.
  change (Z.to_nat 0) with 0%nat.
  apply Z.eqb_neq in Hiblock. rewrite Hiblock.
  unfold bind at 1, lift at 1.
  apply Z.eqb_neq in Herr. rewrite Herr.
  rewrite Hres. unfold bind at 1, lift at 1.
  reflexivity.
Qed.

Lemma replicate_snoc {A} (n : nat) (x : A) :
  replicate n x ++ [x] = replicate (S n) x.
Proof. induction n as [|n IH]; [reflexivity|]. simpl. rewrite IH. reflexivity. Qed.

(** The receive step over a row of extension requests and the answer. *)
Lemma receive_update_binary_rounds_extensions (wtxs : list (list Z)) :
  forall fuel w (final : list Z) rest status,
  M24SR_ERROR <> M24SR_SUCCESS ->
  (length wtxs < fuel)%nat ->
  _communication_type w = SYNC -> acknowledging w ->
  i2c_replies (_i2c_channel w) =
    map (fun r => (0, r)) wtxs ++ (0, final) :: rest ->
  Forall wtx_request wtxs ->
  length final = 5%nat ->
  Z.land (nth 0 final 0) MASK_BLOCK <> MASK_SBLOCK ->
  is_correct_crc_residue final STATUSRESPONSE_NBBYTE = Some status ->
  let lcd := _last_command_data w in
  let report :=
    on_updated_binary status (lcd_offset lcd) (lcd_data lcd) (lcd_length lcd) in
  exists w',
    receive_update_binary_rounds fuel w = Some (status, w') /\
    i2c_sent (_i2c_channel w') =
      i2c_sent (_i2c_channel w) ++ extension_traffic wtxs /\
    i2c_replies (_i2c_channel w') = rest /\
    callbacks w' =
      callbacks w ++
      replicate (if failed status then S (length wtxs) else 1) report /\
    _last_command w' = NONE /\ mem w' = mem w /\
    _buffer w' = _buffer w /\ block_number w' = block_number w.
Proof.
  induction wtxs as [|wtx wtxs IH];
    intros fuel w final rest status Herr Hfuel Hct Hack Hreplies Hwtxs
           Hlen Hiblock Hres lcd report.
  - destruct fuel as [|fuel]; [simpl in Hfuel; lia|].
    cbn [map app] in Hreplies.
    rewrite (receive_update_binary_rounds_answer fuel w (0, final) rest status
               Herr Hreplies eq_refl Hlen Hiblock Hres).
    eexists. split; [reflexivity|]. cbn.
    rewrite Hreplies. cbn [tl].
    rewrite app_nil_r. fold lcd. fold report.
    destruct (failed status); repeat split; reflexivity.
  - destruct fuel as [|fuel]; [simpl in Hfuel; lia|].
    cbn [map app] in Hreplies.
    apply Forall_cons in Hwtxs as [(Hwlen & Hwblock & Hwcrc) Hwtxs].
    assert (take 5 wtx = wtx) as Htake by (apply take_ge; lia).
    rewrite (receive_update_binary_rounds_extension fuel w (0, wtx) _ Hreplies);
      cbn [fst snd]; rewrite ?Htake;
      [ | reflexivity | lia | assumption | assumption ].
    unfold acknowledging in Hack.
    rewrite (acknowledging_hd _ Hack), io_status_ack, failed_success, Hct.
    match goal with
    | |- context [bind (receive_update_binary_rounds fuel) _ ?w0] =>
        set (w3 := w0)
    end.
    assert (length wtxs < fuel)%nat as Hf by (simpl in Hfuel; lia).
    assert (_communication_type w3 = SYNC) as Hct3 by exact Hct.
    assert (acknowledging w3) as Hack3.
    { subst w3. unfold acknowledging. cbn.
      destruct (acknowledging_polled _ (acknowledging_tl _ Hack)) as [-> _].
      apply acknowledging_tl, acknowledging_tl, Hack. }
    assert (i2c_replies (_i2c_channel w3) =
            map (fun r => (0, r)) wtxs ++ (0, final) :: rest) as Hrep3.
    { subst w3. cbn. rewrite Hreplies. reflexivity. }
    pose proof (IH fuel w3 final rest status Herr Hf Hct3 Hack3 Hrep3 Hwtxs
                   Hlen Hiblock Hres) as IH3.
    cbv zeta in IH3.
    destruct IH3 as (w4 & Hrun & Hsent & Hrep & Hcb & Hlc & Hmem & Hbuf & Hbn).
    clear Hct3 Hack3 Hrep3.
    { unfold bind at 1. rewrite Hrun.
      assert (_last_command_data w3 = lcd) as Hlcd by reflexivity.
      rewrite Hlcd in Hcb. fold report in Hcb.
      assert (i2c_sent (_i2c_channel w3) =
              i2c_sent (_i2c_channel w) ++ [fwt_frame (nth 1 wtx 0); []])
        as Hsent3.
      { subst w3. cbn.
        destruct (acknowledging_polled _ (acknowledging_tl _ Hack)) as [_ ->].
        rewrite <- app_assoc. reflexivity. }
      assert (callbacks w3 = callbacks w) as Hcb3 by reflexivity.
      assert (mem w3 = mem w) as Hmem3 by reflexivity.
      assert (_buffer w3 = _buffer w) as Hbuf3 by reflexivity.
      assert (block_number w3 = block_number w) as Hbn3 by reflexivity.
      rewrite Hsent3 in Hsent. rewrite Hcb3 in Hcb.
      rewrite Hmem3 in Hmem. rewrite Hbuf3 in Hbuf. rewrite Hbn3 in Hbn.
      clearbody w3.
      unfold extension_traffic. cbn [flat_map]. fold (extension_traffic wtxs).
      fold lcd. fold report.
      destruct (failed status) eqn:Hst.
      * unfold bind, callback, modify, ret. eexists. split; [reflexivity|].
        cbn. rewrite Hsent, Hrep, Hcb, Hlc, Hmem, Hbuf, Hbn.
        rewrite <- !app_assoc. cbn [length].
        rewrite replicate_snoc.
        repeat split; reflexivity.
      * unfold bind, ret. eexists. split; [reflexivity|].
        rewrite Hsent, Hrep, Hcb, Hlc, Hmem, Hbuf, Hbn.
        rewrite <- !app_assoc.
        repeat split; reflexivity. }
Qed.


Lemma receive_update_binary_run (wtxs : list (list Z)) w final rest status :
  M24SR_ERROR <> M24SR_SUCCESS ->
  _communication_type w = SYNC -> acknowledging w ->
  i2c_replies (_i2c_channel w) =
    map (fun r => (0, r)) wtxs ++ (0, final) :: rest ->
  Forall wtx_request wtxs ->
  length final = 5%nat ->
  Z.land (nth 0 final 0) MASK_BLOCK <> MASK_SBLOCK ->
  is_correct_crc_residue final STATUSRESPONSE_NBBYTE = Some status ->
  exists w',
    receive_update_binary w = Some (status, w') /\
    i2c_sent (_i2c_channel w') =
      i2c_sent (_i2c_channel w) ++ extension_traffic wtxs /\
    i2c_replies (_i2c_channel w') = rest /\
    callbacks w' =
      callbacks w ++
      replicate (if failed status then S (length wtxs) else 1)
        (on_updated_binary status (lcd_offset (_last_command_data w))
           (lcd_data (_last_command_data w))
           (lcd_length (_last_command_data w))) /\
    _last_command w' = NONE /\ mem w' = mem w /\
    _buffer w' = _buffer w /\ block_number w' = block_number w.
Proof.
  intros Herr Hct Hack Hreplies Hwtxs Hlen Hiblock Hres.
  unfold receive_update_binary.
  apply (receive_update_binary_rounds_extensions wtxs _ w final rest status);
    try assumption.
  rewrite Hreplies, length_app, length_map. simpl. lia.
Qed.

(** X10: an update whose answer is preceded by any number of
    wait-time-extension requests, in synchronous mode on a channel that
    acknowledges every write: the driver sends the request, then for each
    extension request one acknowledgement carrying the byte the chip sent,
    each followed by a poll, and returns the status of the final answer.
    That status is reported once through [on_updated_binary] when it is
    success, and once more for every extension granted when it is not. No
    command stays pending, the caller's memory is unchanged and the block
    number has toggled once. *)
Theorem update_binary_with_extensions
    offset len a payload (wtxs : list (list Z)) final rest status w :
  M24SR_ERROR <> M24SR_SUCCESS ->
  driver_ok w -> _communication_type w = SYNC -> acknowledging w ->
  0 <= len <= MAX_OPERATION_SIZE ->
  mem w !! a = Some payload -> len <= Z.of_nat (length payload) ->
  i2c_replies (_i2c_channel w) =
    map (fun r => (0, r)) wtxs ++ (0, final) :: rest ->
  Forall wtx_request wtxs ->
  length final = 5%nat ->
  Z.land (nth 0 final 0) MASK_BLOCK <> MASK_SBLOCK ->
  is_correct_crc_residue final STATUSRESPONSE_NBBYTE = Some status ->
  exists w',
    update_binary offset len (Some a) w = Some (status, w') /\
    i2c_sent (_i2c_channel w') =
      i2c_sent (_i2c_channel w) ++
      [update_binary_frame (toggle (block_number w)) offset len payload; []] ++
      extension_traffic wtxs /\
    i2c_replies (_i2c_channel w') = rest /\
    callbacks w' =
      callbacks w ++
      replicate (if failed status then S (length wtxs) else 1)
        (on_updated_binary status offset (Some a) len) /\
    _last_command w' = NONE /\ mem w' = mem w /\
    block_number w' = toggle (block_number w).
Proof.
  intros Herr Hok Hct Hack Hlen Hmem Hsize Hreplies Hwtxs Hflen Hiblock Hres.
  set (frame := update_binary_frame (toggle (block_number w)) offset len payload).
  assert (length frame = (8 + Z.to_nat len)%nat) as Hframe.
  { subst frame. unfold update_binary_frame, crc_framed.
    rewrite !length_app, length_take. simpl. lia. }
  unfold MAX_OPERATION_SIZE in Hlen.
  unfold update_binary.
  replace (len >? MAX_OPERATION_SIZE) with false
    by (symmetry; rewrite Z.gtb_ltb; apply Z.ltb_ge;
        unfold MAX_OPERATION_SIZE; lia).
  unfold bind at 1, deref at 1. rewrite Hmem. obind.
  rewrite (request_eq CMD_MASK_UPDATEBINARY _ frame);
    [ | reflexivity | symmetry; apply update_binary_frame_eq | exact Hok
      | lia | intros _; cbn; lia ].
  unfold acknowledging in Hack.
  rewrite (acknowledging_hd _ Hack), io_status_ack, failed_success.
  unfold bind at 1, modify at 1. unfold bind at 1, modify at 1.
  unfold bind at 1, gets at 1.
  cbn [_communication_type set_last_command_data set_last_command requested
       set_i2c_channel set_block_number set_buffer].
  rewrite Hct.
  erewrite bind_eq by apply io_poll_i2c_eq. rewrite Z.eqb_refl.
  match goal with
  | |- context [receive_update_binary ?w0] => set (w5 := w0)
  end.
  destruct (receive_update_binary_run wtxs w5 final rest status)
    as (w' & Hrun & Hsent & Hrep & Hcb & Hlc & Hmem' & _ & Hbn);
    try assumption.
  - unfold acknowledging. subst w5. cbn.
    destruct (acknowledging_polled _ (acknowledging_tl _ Hack)) as [-> _].
    apply acknowledging_tl, acknowledging_tl, Hack.
  - exists w'. split; [exact Hrun|].
    rewrite Hsent, Hrep, Hcb, Hlc, Hmem', Hbn. subst w5. cbn.
    destruct (acknowledging_polled _ (acknowledging_tl _ Hack)) as [_ ->].
    rewrite <- !app_assoc.
    repeat split; reflexivity.
Qed.


(** ** A read that succeeds *)

(** The receive step of a read on the answer the chip gives to a read of
    [payload]: header, payload, status 90 00 and CRC. *)
Lemma receive_read_binary_success w a block pcb payload rest :
  let lcd := _last_command_data w in
  let reply := crc_framed (pcb :: payload ++ [0x90; 0x00]) in
  length (_buffer w) = 255%nat ->
  0 <= lcd_length lcd <= MAX_OPERATION_SIZE ->
  lcd_data lcd = Some a -> mem w !! a = Some block ->
  lcd_length lcd <= Z.of_nat (length block) ->
  Z.of_nat (length payload) = lcd_length lcd ->
  i2c_replies (_i2c_channel w) = (0, reply) :: rest ->
  receive_read_binary w =
    Some (M24SR_SUCCESS,
          set_callbacks
            (callbacks w ++
             [on_read_byte M24SR_SUCCESS (lcd_offset lcd) (Some a)
                           (lcd_length lcd)])
            (set_mem (<[a := payload ++ drop (length payload) block]> (mem w))
               (set_buffer (reply ++ drop (length reply) (_buffer w))
                  (set_i2c_channel (answered (_i2c_channel w))
                     (set_last_command NONE w))))).
Proof.
  intros lcd reply Hbuf Hlen Hdata Hblock Hsize Hpay Hreplies.
  unfold MAX_OPERATION_SIZE in Hlen.
  assert (length reply = (length payload + 5)%nat) as Hreply.
  { subst reply. rewrite length_crc_framed. cbn [length].
    rewrite length_app. simpl. lia. }
  unfold receive_read_binary.
  unfold bind at 1, gets at 1. fold lcd.
  unfold bind at 1, modify at 1.
  unfold bind at 1, gets at 1. cbn [_buffer set_last_command].
  erewrite bind_eq
    by (apply io_receive_i2c_response_eq;
        unfold STATUSRESPONSE_NBBYTE; cbn [_buffer set_last_command]; lia).
  cbv zeta. cbn [_i2c_channel set_last_command]. rewrite Hreplies.
  cbn [hd fst snd]. rewrite io_status_ack, failed_success.
  unfold STATUSRESPONSE_NBBYTE.
  rewrite (take_ge reply) by lia.
  unfold bind at 1, modify at 1.
  replace (lcd_length lcd + 5) with (Z.of_nat (length reply)) by lia.
  pose proof (is_correct_crc_residue_framed (pcb :: payload)
                (drop (length reply) (_buffer w)) 0x90 0x00) as Hvalid.
  cbv zeta in Hvalid. change ((pcb :: payload) ++ [0x90; 0x00])
    with (pcb :: payload ++ [0x90; 0x00]) in Hvalid.
  fold reply in Hvalid.
  rewrite Hvalid by lia. clear Hvalid.
  change (to_status (256 * 0x90 + 0x00)) with M24SR_SUCCESS.
  unfold bind at 1, lift at 1. rewrite failed_success.
  unfold bind at 1, copy_to_caller at 1. rewrite Hdata.
  cbn [mem set_buffer set_i2c_channel set_last_command].
  rewrite Hblock. obind. cbn [_buffer set_buffer].
  assert (memcpy_at block 0 (drop 1 (reply ++ drop (length reply) (_buffer w)))
                    (lcd_length lcd) =
          Some (payload ++ drop (length payload) block)) as ->.
  { unfold memcpy_at.
    rewrite decide_True
      by (rewrite length_drop, length_app, length_drop; lia).
    subst reply. unfold crc_framed. cbn [app drop].
    rewrite drop_0. rewrite <- Hpay, Nat2Z.id.
    rewrite <- !app_assoc, take_app_length.
    change (Z.to_nat 0) with 0%nat. rewrite take_0.
    replace (Z.to_nat (0 + Z.of_nat (length payload))) with (length payload)
      by lia.
    reflexivity. }
  obind. unfold bind, callback, modify, ret. reflexivity.
Qed.

Lemma read_binary_with_success cla record_offset offset len a block pcb payload
    rest w :
  driver_ok w -> _communication_type w = SYNC -> acknowledging w ->
  0 <= len <= MAX_OPERATION_SIZE ->
  mem w !! a = Some block -> len <= Z.of_nat (length block) ->
  Z.of_nat (length payload) = len ->
  i2c_replies (_i2c_channel w) =
    (0, crc_framed (pcb :: payload ++ [0x90; 0x00])) :: rest ->
  exists w',
    read_binary_with cla record_offset offset len (Some a) w =
      Some (M24SR_SUCCESS, w') /\
    i2c_sent (_i2c_channel w') =
      i2c_sent (_i2c_channel w) ++
      [read_binary_frame cla (toggle (block_number w)) offset len; []] /\
    mem w' = <[a := payload ++ drop (length payload) block]> (mem w) /\
    callbacks w' =
      callbacks w ++
      [on_read_byte M24SR_SUCCESS
         (if record_offset then offset
          else lcd_offset (_last_command_data w)) (Some a) len] /\
    _last_command w' = NONE.
Proof.
  intros Hok Hct Hack Hlen Hblock Hsize Hpay Hreplies.
  unfold read_binary_with.
  replace (len >? MAX_OPERATION_SIZE) with false
    by (symmetry; rewrite Z.gtb_ltb; apply Z.ltb_ge; lia).
  rewrite (request_eq CMD_MASK_READBINARY _
             (read_binary_frame cla (toggle (block_number w)) offset len));
    [ | reflexivity | reflexivity | exact Hok | cbn; lia | intros [=] ].
  unfold acknowledging in Hack.
  rewrite (acknowledging_hd _ Hack), io_status_ack, failed_success.
  unfold bind at 1, modify at 1. unfold bind at 1, gets at 1.
  unfold bind at 1, modify at 1. unfold bind at 1, gets at 1.
  cbn [_communication_type set_last_command_data set_last_command requested
       set_i2c_channel set_block_number set_buffer _last_command_data].
  rewrite Hct.
  erewrite bind_eq by apply io_poll_i2c_eq. rewrite Z.eqb_refl.
  match goal with
  | |- context [receive_read_binary ?w0] => set (w5 := w0)
  end.
  assert (length (_buffer w5) = 255%nat) as Hbuf5.
  { subst w5. cbn [_buffer set_i2c_channel set_last_command_data
                   set_last_command requested set_block_number set_buffer].
    rewrite length_app, length_drop. destruct Hok as [Hb _]. rewrite Hb.
    unfold read_binary_frame. rewrite length_crc_framed. simpl. lia. }
  rewrite (receive_read_binary_success w5 a block pcb payload rest Hbuf5 Hlen
             eq_refl Hblock Hsize Hpay Hreplies).
  eexists. split; [reflexivity|]. subst w5. cbn.
  destruct (acknowledging_polled _ (acknowledging_tl _ Hack)) as [_ ->].
  rewrite <- !app_assoc.
  repeat split; reflexivity.
Qed.

(** X11: a synchronous read that the chip answers with header, payload,
    status 90 00 and CRC, on a channel that acknowledges every write: the
    driver sends the read request and polls once, returns success, copies
    the payload to the start of the caller's block and leaves the rest of
    the block as it was, reports once through [on_read_byte] and leaves no
    command pending. [read_binary] reports the offset of the call;
    [st_read_binary], which does not record it, reports the offset a
    previous command left. *)
Theorem read_binary_delivers_payload offset len a block pcb payload rest w :
  driver_ok w -> _communication_type w = SYNC -> acknowledging w ->
  0 <= len <= MAX_OPERATION_SIZE ->
  mem w !! a = Some block -> len <= Z.of_nat (length block) ->
  Z.of_nat (length payload) = len ->
  i2c_replies (_i2c_channel w) =
    (0, crc_framed (pcb :: payload ++ [0x90; 0x00])) :: rest ->
  let delivered cla reported w' :=
    i2c_sent (_i2c_channel w') =
      i2c_sent (_i2c_channel w) ++
      [read_binary_frame cla (toggle (block_number w)) offset len; []] /\
    mem w' = <[a := payload ++ drop (length payload) block]> (mem w) /\
    callbacks w' =
      callbacks w ++ [on_read_byte M24SR_SUCCESS reported (Some a) len] /\
    _last_command w' = NONE in
  (exists w',
     read_binary offset len (Some a) w = Some (M24SR_SUCCESS, w') /\
     delivered C_APDU_CLA_DEFAULT offset w') /\
  (exists w',
     st_read_binary offset len (Some a) w = Some (M24SR_SUCCESS, w') /\
     delivered C_APDU_CLA_ST (lcd_offset (_last_command_data w)) w').
Proof.
  intros Hok Hct Hack Hlen Hblock Hsize Hpay Hreplies delivered.
  split.
  - rewrite read_binary_eq.
    exact (read_binary_with_success C_APDU_CLA_DEFAULT true offset len a block
             pcb payload rest w Hok Hct Hack Hlen Hblock Hsize Hpay Hreplies).
  - rewrite st_read_binary_eq.
    exact (read_binary_with_success C_APDU_CLA_ST false offset len a block
             pcb payload rest w Hok Hct Hack Hlen Hblock Hsize Hpay Hreplies).
Qed.


(** ** What the commands keep *)

Section Frame.

(** A relation between the world before and after, as in the section on
    stability; each lemma uses the hypotheses it needs. *)
Variable R : World -> World -> Prop.
Hypothesis R_refl : forall w, R w w.
Hypothesis R_trans : forall w1 w2 w3, R w1 w2 -> R w2 w3 -> R w1 w3.
Hypothesis R_last_command : forall v w, R w (set_last_command v w).
Hypothesis R_last_command_data : forall v w, R w (set_last_command_data v w).
Hypothesis R_callbacks : forall v w, R w (set_callbacks v w).
Hypothesis R_written :
  forall bytes w, R w (set_i2c_channel (written bytes (_i2c_channel w)) w).
Hypothesis R_answered :
  forall w, R w (set_i2c_channel (answered (_i2c_channel w)) w).
Hypothesis R_mem : forall v w, R w (set_mem v w).

(** The receive step of a read, where the relation is known to hold. *)
Hypothesis R_receive_read_binary : stable_under R receive_read_binary.

Ltac by_R :=
  first [ exact R_refl | exact R_trans | exact R_last_command
        | exact R_last_command_data | exact R_callbacks | exact R_written
        | exact R_answered | exact R_mem ].

Ltac frame_step :=
  first
    [ apply stable_ret; by_R | apply stable_gets; by_R
    | apply stable_lift; by_R | apply stable_callback; by_R
    | apply stable_io_send_i2c_command; by_R
    | apply stable_io_receive_i2c_response; by_R
    | apply stable_io_poll_i2c; by_R
    | apply stable_copy_to_caller; by_R
    | apply stable_receive_update_binary; by_R
    | apply stable_receive_select_ndef_file; by_R
    | exact R_receive_read_binary
    | apply stable_modify; intros ?;
      first [apply R_last_command | apply R_last_command_data
            | apply R_callbacks]
    | apply stable_bind; [by_R | | intros ?]
    | match goal with
      | |- stable_under R (match ?x with _ => _ end) => destruct x
      end ].

Lemma frame_receive_select_cc_file : stable_under R receive_select_cc_file.
Proof. unfold receive_select_cc_file. repeat frame_step. Qed.

Lemma frame_receive_select_application :
  stable_under R receive_select_application.
Proof. unfold receive_select_application. repeat frame_step. Qed.

(** A command that opens with a request and goes on with steps that keep
    the relation. *)
Lemma after_request {B} (K : Z -> M B) mask command w r w' :
  (forall status, stable_under R (K status)) ->
  (let* length := build_in_buffer mask command in
   let* buffer := gets _buffer in
   let* status := io_send_i2c_command length buffer in
   K status) w = Some (r, w') ->
  exists s0 w0, request mask command w = Some (s0, w0) /\ R w0 w'.
Proof.
  intros HK H.
  apply bind_inv in H as (cl & wa & Ha & H).
  apply bind_inv in H as (frame & wb & Hb & H).
  apply bind_inv in H as (s0 & w0 & Hc & H).
  exists s0, w0. split.
  - unfold request. unfold bind at 1. rewrite Ha.
    unfold bind at 1. rewrite Hb. exact Hc.
  - eapply HK. exact H.
Qed.

Lemma select_cc_file_after_request w r w' :
  select_cc_file w = Some (r, w') ->
  exists s0 w0,
    request CMD_MASK_SELECTCCFILE
      {| CLA := C_APDU_CLA_DEFAULT; INS := C_APDU_SELECT_FILE;
         P1 := GETMSB 0x000C; P2 := GETLSB 0x000C;
         LC := 2; body_data := Some CC_FILE_ID_BYTES; LE := 0 |} w =
      Some (s0, w0) /\ R w0 w'.
Proof.
  intros H. unfold select_cc_file in H.
  eapply after_request; [|exact H].
  intros status. cbv beta.
  repeat first [apply frame_receive_select_cc_file | frame_step].
Qed.

Lemma select_ndef_file_after_request ndef_file_id w r w' :
  select_ndef_file ndef_file_id w = Some (r, w') ->
  exists s0 w0,
    request CMD_MASK_SELECTNDEFFILE
      {| CLA := C_APDU_CLA_DEFAULT; INS := C_APDU_SELECT_FILE;
         P1 := GETMSB 0x000C; P2 := GETLSB 0x000C; LC := 2;
         body_data := Some [GETMSB ndef_file_id; GETLSB ndef_file_id];
         LE := 0 |} w = Some (s0, w0) /\ R w0 w'.
Proof.
  intros H. unfold select_ndef_file in H.
  eapply after_request; [|exact H].
  intros status. cbv beta. repeat frame_step.
Qed.

Lemma select_application_after_request w r w' :
  select_application w = Some (r, w') ->
  exists s0 w0,
    request CMD_MASK_SELECTAPPLICATION
      {| CLA := C_APDU_CLA_DEFAULT; INS := C_APDU_SELECT_FILE;
         P1 := GETMSB 0x0400; P2 := GETLSB 0x0400; LC := 7;
         body_data := Some SELECTAPPLICATION_COMMAND; LE := 0 |} w =
      Some (s0, w0) /\ R w0 w'.
Proof.
  intros H. unfold select_application in H.
  eapply after_request; [|exact H].
  intros status. cbv beta.
  repeat first [apply frame_receive_select_application | frame_step].
Qed.

Lemma read_binary_with_after_request_frame cla record_offset offset len buffer
    w r w' :
  read_binary_with cla record_offset offset len buffer w = Some (r, w') ->
  let len' := if len >? MAX_OPERATION_SIZE then MAX_OPERATION_SIZE else len in
  exists s0 w0,
    request CMD_MASK_READBINARY
      {| CLA := cla; INS := C_APDU_READ_BINARY;
         P1 := GETMSB offset; P2 := GETLSB offset;
         LC := 0; body_data := None; LE := len' |} w = Some (s0, w0) /\
    R w0 w'.
Proof.
  intros H len'. unfold read_binary_with in H. fold len' in H.
  eapply after_request; [|exact H].
  intros status. cbv beta. repeat frame_step.
Qed.

(** The receive step of a read replaces the scratch buffer by one of the
    same size, and keeps the relation from there on. *)
Lemma receive_read_binary_split w r w' :
  receive_read_binary w = Some (r, w') ->
  exists buffer,
    length buffer = length (_buffer w) /\
    R (set_buffer buffer
         (set_i2c_channel (answered (_i2c_channel w))
            (set_last_command NONE w))) w'.
Proof.
  intros H. unfold receive_read_binary in H.
  unfold bind at 1, gets at 1 in H.
  unfold bind at 1, modify at 1 in H.
  unfold bind at 1, gets at 1 in H. cbn [_buffer set_last_command] in H.
  apply bind_inv in H as ([status buffer] & w3 & Hrecv & H).
  unfold io_receive_i2c_response in Hrecv.
  destruct (decide _) as [Hfit|]; [|discriminate].
  unfold bind, i2c_read, ret in Hrecv.
  destruct (hd (1, []) _) as [r0 bytes] eqn:Hreply.
  injection Hrecv as _ <- <-.
  unfold bind at 1, modify at 1 in H.
  eexists. split; cycle 1.
  - refine ((_ : stable_under R _) _ _ _ H).
    repeat frame_step.
  - rewrite length_app, length_drop, length_take.
    pose proof (u8_range (lcd_length (_last_command_data w) +
                          STATUSRESPONSE_NBBYTE)).
    lia.
Qed.

End Frame.


Ltac same_frame_side :=
  solve [ intros; split; reflexivity
        | unfold same_frame; intros ? ? ? [? ?] [? ?]; split; congruence ].

Lemma stable_request_same_frame_send len buffer :
  stable_under same_frame (io_send_i2c_command len buffer).
Proof. apply stable_io_send_i2c_command; same_frame_side. Qed.

(** A request that returns leaves a well-formed driver, with the block
    number toggled. *)
Lemma request_some mask command w s0 w0 :
  driver_ok w -> needed mask PCB_NEEDED = true ->
  request mask command w = Some (s0, w0) ->
  driver_ok w0 /\ block_number w0 = toggle (block_number w).
Proof.
  intros [Hbuf Hbn] Hpcb H. unfold request in H.
  apply bind_inv in H as (len & wa & Ha & H).
  unfold bind at 1, gets at 1 in H.
  apply stable_request_same_frame_send in H as [Hlen Hsame].
  unfold build_in_buffer in Ha.
  destruct (build_I_block_command _ _ _ _ _) as [[[len' buf] bn]|] eqn:Hb;
    [|discriminate].
  injection Ha as _ <-.
  apply build_I_block_command_some in Hb as (-> & _ & Hfit & -> & _);
    [|lia].
  cbn [_buffer block_number set_block_number set_buffer] in Hlen, Hsame.
  rewrite length_app, length_drop in Hlen.
  unfold next_block_number in *. rewrite Hpcb in *.
  unfold driver_ok. rewrite Hlen, Hsame.
  split; [split; [lia|] | reflexivity].
  unfold toggle. destruct (block_number w =? 0); lia.
Qed.

Lemma same_frame_driver_ok w0 w' bn :
  driver_ok w0 /\ block_number w0 = bn -> same_frame w0 w' ->
  driver_ok w' /\ block_number w' = bn.
Proof.
  intros [[Hbuf Hbn] Heq] [Hlen Hsame]. unfold driver_ok.
  rewrite Hlen, Hsame. auto.
Qed.

Lemma stable_receive_read_binary_same_frame :
  stable_under same_frame receive_read_binary.
Proof.
  intros w r w' H.
  apply (receive_read_binary_split same_frame) in H as (buffer & Hlen & Hs);
    try same_frame_side.
  destruct Hs as [Hl Hb]. cbn in Hl, Hb. split; congruence.
Qed.

(** X12: each command that builds a request keeps the scratch buffer at its
    255 bytes and toggles the block number exactly once, whatever the
    outcome: a refused request and a rejected answer consume the toggle as
    well, and the acknowledgements of wait-time extensions consume none.
    [deselect], which builds no I-block, leaves buffer size and block number
    as they were. So a driver that is well formed stays so. *)
Theorem commands_toggle_block_number_once :
  toggles_once select_application /\
  toggles_once select_cc_file /\
  (forall ndef_file_id, toggles_once (select_ndef_file ndef_file_id)) /\
  (forall offset len buffer, toggles_once (read_binary offset len buffer)) /\
  (forall offset len buffer, toggles_once (st_read_binary offset len buffer)) /\
  (forall offset len data, toggles_once (update_binary offset len data)) /\
  (forall w status w',
     driver_ok w -> deselect w = Some (status, w') ->
     driver_ok w' /\ block_number w' = block_number w).
Proof.
  assert (forall cla ro offset len buffer,
            toggles_once (read_binary_with cla ro offset len buffer)) as Hread.
  { intros cla ro offset len buffer w status w' Hok H.
    apply (read_binary_with_after_request_frame same_frame) in H;
      try same_frame_side; [|exact stable_receive_read_binary_same_frame].
    cbv zeta in H. destruct H as (s0 & w0 & Hreq & Hs).
    apply request_some in Hreq; [|exact Hok|reflexivity].
    eapply same_frame_driver_ok; eassumption. }
  refine (conj _ (conj _ (conj _ (conj _ (conj _ (conj _ _)))))).
  - intros w status w' Hok H.
    apply (select_application_after_request same_frame) in H;
      try same_frame_side.
    destruct H as (s0 & w0 & Hreq & Hs).
    apply request_some in Hreq; [|exact Hok|reflexivity].
    eapply same_frame_driver_ok; eassumption.
  - intros w status w' Hok H.
    apply (select_cc_file_after_request same_frame) in H;
      try same_frame_side.
    destruct H as (s0 & w0 & Hreq & Hs).
    apply request_some in Hreq; [|exact Hok|reflexivity].
    eapply same_frame_driver_ok; eassumption.
  - intros ndef_file_id w status w' Hok H.
    apply (select_ndef_file_after_request same_frame) in H;
      try same_frame_side.
    destruct H as (s0 & w0 & Hreq & Hs).
    apply request_some in Hreq; [|exact Hok|reflexivity].
    eapply same_frame_driver_ok; eassumption.
  - intros offset len buffer w status w'. rewrite read_binary_eq. apply Hread.
  - intros offset len buffer w status w'. rewrite st_read_binary_eq.
    apply Hread.
  - intros offset len data w status w' Hok H.
    apply (update_binary_after_request same_frame) in H;
      try same_frame_side.
    cbv zeta in H. destruct H as (payload & s0 & w0 & _ & Hreq & Hs).
    apply request_some in Hreq; [|exact Hok|reflexivity].
    eapply same_frame_driver_ok; eassumption.
  - intros w status w' Hok H.
    apply (stable_deselect same_frame) in H; try same_frame_side.
    eapply same_frame_driver_ok; [split; [exact Hok | reflexivity] | exact H].
Qed.

Lemma stable_request_same_mem mask command :
  stable_under same_mem (request mask command).
Proof.
  unfold request.
  apply stable_bind; try same_mem_side;
    [apply stable_build_in_buffer; same_mem_side | intros len].
  apply stable_bind; try same_mem_side;
    [apply stable_gets; same_mem_side | intros buffer].
  apply stable_io_send_i2c_command; same_mem_side.
Qed.

(** X13: no command but a read writes to the caller's memory: whatever
    they return, [deselect], the three selections, [update_binary] and the
    receive step of an update, with the extensions it grants, leave every
    block of it as it was. *)
Theorem only_reads_write_caller_memory :
  keeps_memory deselect /\
  keeps_memory select_application /\
  keeps_memory select_cc_file /\
  (forall ndef_file_id, keeps_memory (select_ndef_file ndef_file_id)) /\
  (forall offset len data, keeps_memory (update_binary offset len data)) /\
  keeps_memory receive_update_binary.
Proof.
  refine (conj _ (conj _ (conj _ (conj _ (conj _ _))))).
  - intros w status w' H.
    apply (stable_deselect same_mem) in H; try same_mem_side.
  - intros w status w' H.
    apply (select_application_after_request same_mem) in H;
      try same_mem_side.
    destruct H as (s0 & w0 & Hreq & Hs).
    apply stable_request_same_mem in Hreq. unfold same_mem in *. congruence.
  - intros w status w' H.
    apply (select_cc_file_after_request same_mem) in H; try same_mem_side.
    destruct H as (s0 & w0 & Hreq & Hs).
    apply stable_request_same_mem in Hreq. unfold same_mem in *. congruence.
  - intros ndef_file_id w status w' H.
    apply (stable_select_ndef_file same_mem) in H; try same_mem_side.
  - intros offset len data w status w' H.
    apply (stable_update_binary same_mem) in H; try same_mem_side.
  - intros w status w' H.
    apply (stable_receive_update_binary same_mem) in H; try same_mem_side.
Qed.


(** ** Asynchronous mode and [manage_event] *)

(** X14: in asynchronous mode a read returns success as soon as the request
    is acknowledged, without polling: nothing is delivered yet and [READ]
    is pending with the caller's pointer, the length and the offset.
    [manage_event] then runs the receive step: on the chip's answer with
    header, payload, status 90 00 and CRC it copies the payload to the
    caller's block, reports once through [on_read_byte] with the recorded
    arguments and leaves no command pending. A further [manage_event], with
    nothing pending, returns success and changes nothing. *)
Theorem read_binary_resumed_by_manage_event
    offset len a block pcb payload rest w :
  driver_ok w -> _communication_type w = ASYNC -> acknowledging w ->
  0 <= len <= MAX_OPERATION_SIZE ->
  mem w !! a = Some block -> len <= Z.of_nat (length block) ->
  Z.of_nat (length payload) = len ->
  i2c_replies (_i2c_channel w) =
    (0, crc_framed (pcb :: payload ++ [0x90; 0x00])) :: rest ->
  exists w1 w2,
    read_binary offset len (Some a) w = Some (M24SR_SUCCESS, w1) /\
    _last_command w1 = READ /\
    _last_command_data w1 =
      {| lcd_data := Some a; lcd_length := len; lcd_offset := offset |} /\
    callbacks w1 = callbacks w /\ mem w1 = mem w /\
    i2c_sent (_i2c_channel w1) =
      i2c_sent (_i2c_channel w) ++
      [read_binary_frame C_APDU_CLA_DEFAULT (toggle (block_number w))
                         offset len] /\
    manage_event w1 = Some (M24SR_SUCCESS, w2) /\
    mem w2 = <[a := payload ++ drop (length payload) block]> (mem w) /\
    callbacks w2 =
      callbacks w ++ [on_read_byte M24SR_SUCCESS offset (Some a) len] /\
    _last_command w2 = NONE /\
    i2c_sent (_i2c_channel w2) = i2c_sent (_i2c_channel w1) /\
    manage_event w2 = Some (M24SR_SUCCESS, w2).
Proof.
  intros Hok Hct Hack Hlen Hblock Hsize Hpay Hreplies.
  unfold read_binary.
  replace (len >? MAX_OPERATION_SIZE) with false
    by (symmetry; rewrite Z.gtb_ltb; apply Z.ltb_ge; lia).
  rewrite (request_eq CMD_MASK_READBINARY _
             (read_binary_frame C_APDU_CLA_DEFAULT (toggle (block_number w))
                                offset len));
    [ | reflexivity | reflexivity | exact Hok | cbn; lia | intros [=] ].
  unfold acknowledging in Hack.
  rewrite (acknowledging_hd _ Hack), io_status_ack, failed_success.
  unfold bind at 1, modify at 1. unfold bind at 1, modify at 1.
  unfold bind at 1, gets at 1.
  cbn [_communication_type set_last_command_data set_last_command requested
       set_i2c_channel set_block_number set_buffer].
  rewrite Hct. unfold ret.
  match goal with
  | |- context [Some (M24SR_SUCCESS, ?w0) = _] => set (w1 := w0)
  end.
  assert (length (_buffer w1) = 255%nat) as Hbuf1.
  { subst w1. cbn [_buffer set_i2c_channel set_last_command_data
                   set_last_command requested set_block_number set_buffer].
    rewrite length_app, length_drop. destruct Hok as [Hb _]. rewrite Hb.
    unfold read_binary_frame. rewrite length_crc_framed. simpl. lia. }
  pose proof (receive_read_binary_success w1 a block pcb payload rest Hbuf1
                Hlen eq_refl Hblock Hsize Hpay Hreplies) as Hrecv.
  cbv zeta in Hrecv.
  exists w1. eexists.
  split; [reflexivity|]. split; [reflexivity|]. split; [reflexivity|].
  split; [reflexivity|]. split; [reflexivity|]. split; [reflexivity|].
  split.
  { unfold manage_event. unfold bind at 1, gets at 1.
    change (_last_command w1) with READ. cbv iota. exact Hrecv. }
  cbn. repeat split; reflexivity.
Qed.


(** ** The password commands *)

(** Reading a five-byte status response into a zeroed local array. *)
Lemma io_receive_status_response w reply rest :
  i2c_replies (_i2c_channel w) = (0, reply) :: rest ->
  length reply = 5%nat ->
  io_receive_i2c_response 5 (replicate 5 0) w =
    Some ((M24SR_SUCCESS, reply), received w).
Proof.
  intros Hreplies Hlen.
  rewrite io_receive_i2c_response_eq by (simpl; lia).
  cbv zeta. rewrite Hreplies. cbn [hd fst snd].
  rewrite take_ge by lia. rewrite Hlen.
  change (drop 5 (replicate 5 0)) with (@nil Z). rewrite app_nil_r.
  reflexivity.
Qed.

Lemma deref_inv p w payload w' :
  deref p w = Some (payload, w') ->
  w' = w /\
  match p with
  | Some a => exists bytes, mem w !! a = Some bytes /\ payload = Some bytes
  | None => payload = None
  end.
Proof.
  unfold deref. destruct p as [a|].
  - destruct (mem w !! a) as [bytes|]; [|discriminate]. obind.
    intros [= <- <-]. eauto.
  - intros [= <- <-]. auto.
Qed.

Lemma verify_frame_with_password_eq password_type bytes bn :
  frame_without_did CMD_MASK_VERIFYBINARYWITHPWD
    {| CLA := C_APDU_CLA_DEFAULT; INS := C_APDU_VERIFY;
       P1 := GETMSB password_type; P2 := GETLSB password_type; LC := 0x10;
       body_data := Some bytes; LE := 0 |} bn =
  verify_frame bn password_type (Some bytes).
Proof.
  unfold frame_without_did, with_crc, frame_fields, crc_field, payload_field,
    field, verify_frame, crc_framed.
  change (needed CMD_MASK_VERIFYBINARYWITHPWD PCB_NEEDED) with true.
  change (needed CMD_MASK_VERIFYBINARYWITHPWD CLA_NEEDED) with true.
  change (needed CMD_MASK_VERIFYBINARYWITHPWD INS_NEEDED) with true.
  change (needed CMD_MASK_VERIFYBINARYWITHPWD P1_NEEDED) with true.
  change (needed CMD_MASK_VERIFYBINARYWITHPWD P2_NEEDED) with true.
  change (needed CMD_MASK_VERIFYBINARYWITHPWD LC_NEEDED) with true.
  change (needed CMD_MASK_VERIFYBINARYWITHPWD DATA_NEEDED) with true.
  change (needed CMD_MASK_VERIFYBINARYWITHPWD LE_NEEDED) with false.
  change (needed CMD_MASK_VERIFYBINARYWITHPWD CRC_NEEDED) with true.
  cbn [CLA INS P1 P2 LC LE body_data app].
  change (Z.to_nat 16) with 16%nat.
  rewrite app_nil_r. reflexivity.
Qed.

(** X15: [verify] rejects a password type above [I2C_PASSWORD] before it
    builds anything: the listener gets the parameter error and the driver
    is untouched. Otherwise the request carries the type in P1 and P2 and,
    when a password is given, the length 0x10 and its 16 bytes; without a
    password it carries the length 0 and no payload. In asynchronous mode
    the command then is pending with the pointer and the type, and
    [manage_event] hands the verdict on the chip's answer to [on_verified]
    together with that type and pointer, with no command pending any
    more. *)
Theorem verify_request_and_completion (password_type : Z) (password : ptr)
    (payload : option (list Z)) w :
  driver_ok w -> acknowledging w -> _communication_type w = ASYNC ->
  deref password w = Some (payload, w) ->
  (forall bytes, payload = Some bytes -> 16 <= Z.of_nat (length bytes)) ->
  let frame := verify_frame (toggle (block_number w)) password_type payload in
  let w1 := pending VERIFY password password_type (requested frame w) in
  (I2C_PASSWORD < password_type ->
   verify password_type password w =
     (notify (on_verified M24SR_IO_ERROR_PARAMETER password_type password);;
      ret M24SR_IO_ERROR_PARAMETER) w) /\
  (password_type <= I2C_PASSWORD ->
   verify password_type password w = Some (M24SR_SUCCESS, w1) /\
   length frame = (match payload with Some _ => 24 | None => 8 end)%nat /\
   forall reply rest status,
     i2c_replies (_i2c_channel w) = (0, reply) :: rest ->
     length reply = 5%nat ->
     is_correct_crc_residue reply STATUSRESPONSE_NBBYTE = Some status ->
     manage_event w1 =
       (notify (on_verified status password_type password);; ret status)
         (received (set_last_command NONE w1))).
Proof.
  intros Hok Hack Hct Hderef Hsize frame w1. split.
  - intros Hgt. unfold verify.
    replace (password_type >? I2C_PASSWORD) with true
      by (symmetry; rewrite Z.gtb_ltb; apply Z.ltb_lt; lia).
    reflexivity.
  - intros Hle.
    assert (length frame =
            (match payload with Some _ => 24 | None => 8 end)%nat) as Hframe.
    { subst frame. unfold verify_frame. rewrite length_crc_framed.
      destruct payload as [bytes|]; [|reflexivity].
      specialize (Hsize bytes eq_refl).
      rewrite length_app. cbn [length]. rewrite length_take. lia. }
    assert (verify password_type password w = Some (M24SR_SUCCESS, w1))
      as Hrun.
    { unfold verify.
      replace (password_type >? I2C_PASSWORD) with false
        by (symmetry; rewrite Z.gtb_ltb; apply Z.ltb_ge; lia).
      unfold bind at 1. rewrite Hderef.
      apply deref_inv in Hderef as [_ Hp].
      unfold acknowledging in Hack.
      destruct password as [a|].
      - destruct Hp as (bytes & Hmem & ->).
        specialize (Hsize bytes eq_refl).
        rewrite (request_eq CMD_MASK_VERIFYBINARYWITHPWD _ frame);
          [ | reflexivity | symmetry; apply verify_frame_with_password_eq
            | exact Hok | lia | intros _; cbn; lia ].
        rewrite (acknowledging_hd _ Hack), io_status_ack, failed_success.
        unfold bind at 1, modify at 1. unfold bind at 1, modify at 1.
        unfold bind at 1, gets at 1.
        cbn [_communication_type set_last_command_data set_last_command
             requested set_i2c_channel set_block_number set_buffer].
        rewrite Hct. reflexivity.
      - subst payload.
        rewrite (request_eq CMD_MASK_VERIFYBINARYWOPWD _ frame);
          [ | reflexivity | reflexivity | exact Hok | lia | intros [=] ].
        rewrite (acknowledging_hd _ Hack), io_status_ack, failed_success.
        unfold bind at 1, modify at 1. unfold bind at 1, modify at 1.
        unfold bind at 1, gets at 1.
        cbn [_communication_type set_last_command_data set_last_command
             requested set_i2c_channel set_block_number set_buffer].
        rewrite Hct. reflexivity. }
    split; [exact Hrun|]. split; [exact Hframe|].
    intros reply rest status Hreplies Hlen Hres.
    unfold manage_event. unfold bind at 1, gets at 1.
    change (_last_command w1) with VERIFY. cbv iota.
    unfold receive_verify.
    unfold bind at 1, modify at 1. unfold bind at 1, gets at 1.
    rewrite (bind_eq _ _ _ _ _
               (io_receive_status_response (set_last_command NONE w1) reply
                  rest Hreplies Hlen)).
    rewrite failed_success, Hres. unfold bind at 1, lift at 1.
    reflexivity.
Qed.


(** ** The protection commands *)

Lemma enable_verification_requirement_eq password_type :
  enable_verification_requirement password_type =
  protection_command C_APDU_CLA_DEFAULT C_APDU_ENABLE CMD_MASK_ENABLEVERIFREQ
    ENABLE_VERIFICATION_REQUIREMENT on_enable_verification_requirement
    on_enable_verification_requirement on_enable_verification_requirement
    password_type.
Proof. reflexivity. Qed.

Lemma disable_verification_requirement_eq password_type :
  disable_verification_requirement password_type =
  protection_command C_APDU_CLA_DEFAULT C_APDU_DISABLE CMD_MASK_DISABLEVERIFREQ
    DISABLE_VERIFICATION_REQUIREMENT on_disable_verification_requirement
    on_disable_verification_requirement on_disable_verification_requirement
    password_type.
Proof. reflexivity. Qed.

Lemma enable_permanent_state_eq password_type :
  enable_permanent_state password_type =
  protection_command C_APDU_CLA_ST C_APDU_ENABLE CMD_MASK_ENABLEVERIFREQ
    ENABLE_PERMANET_STATE on_enable_permanent_state on_enable_permanent_state
    on_enable_permanent_state password_type.
Proof. reflexivity. Qed.

Lemma disable_permanent_state_eq password_type :
  disable_permanent_state password_type =
  protection_command C_APDU_CLA_ST C_APDU_DISABLE CMD_MASK_DISABLEVERIFREQ
    DISABLE_PERMANET_STATE on_disable_permanent_state
    on_enable_permanent_state on_disable_permanent_state password_type.
Proof. reflexivity. Qed.

Lemma protection_frame_eq cla ins password_type bn :
  frame_without_did CMD_MASK_ENABLEVERIFREQ
    {| CLA := cla; INS := ins;
       P1 := GETMSB password_type; P2 := GETLSB password_type;
       LC := 0; body_data := None; LE := 0 |} bn =
  protection_frame bn cla ins password_type.
Proof. reflexivity. Qed.

Lemma protection_command_behaviour cla ins command_id rejected refused
    unanswered :
  protection_behaviour
    (protection_command cla ins CMD_MASK_ENABLEVERIFREQ command_id rejected
                        refused unanswered)
    cla ins command_id rejected refused.
Proof.
  intros password_type w Hok ack w0. split.
  - intros [Hr Hw]. unfold protection_command.
    apply Z.eqb_neq in Hr, Hw. rewrite Hr, Hw. reflexivity.
  - intros Hvalid. unfold protection_command.
    replace (negb (password_type =? READ_PASSWORD) &&
             negb (password_type =? WRITE_PASSWORD)) with false
      by (destruct Hvalid as [-> | ->]; rewrite Z.eqb_refl; cbn;
          rewrite ?andb_false_r; reflexivity).
    rewrite (request_eq CMD_MASK_ENABLEVERIFREQ _
               (protection_frame (toggle (block_number w)) cla ins
                                 password_type));
      [ | reflexivity | symmetry; apply protection_frame_eq | exact Hok
        | cbn; lia | intros [=] ].
    fold ack. fold w0. split.
    + intros Hnak. rewrite io_status_nak by exact Hnak.
      rewrite failed_timeout. reflexivity.
    + intros Hack Hct. rewrite Hack, io_status_ack, failed_success.
      unfold bind at 1, modify at 1. unfold bind at 1, modify at 1.
      unfold bind at 1, gets at 1.
      cbn [_communication_type set_last_command_data set_last_command].
      change (_communication_type w0) with (_communication_type w).
      rewrite Hct. reflexivity.
Qed.

(** X16: the four commands that switch a protection have one behaviour. A
    password type other than [READ_PASSWORD] and [WRITE_PASSWORD] is
    rejected before anything is built: the command's callback gets the
    parameter error. Otherwise the request is header, class, instruction,
    the type in P1 and P2, and CRC, with no length byte; a refused write is
    reported with the timeout, and an acknowledged one leaves the command
    pending with the type, as a byte, in the offset field. The commands
    differ in class (0x00 for the verification requirement, 0xA2 for the
    permanent state) and instruction (0x28 to enable, 0x26 to disable), and
    [disable_permanent_state] reports a refused write through
    [on_enable_permanent_state]. *)
Theorem protection_commands_behaviour :
  protection_behaviour enable_verification_requirement
    C_APDU_CLA_DEFAULT C_APDU_ENABLE ENABLE_VERIFICATION_REQUIREMENT
    on_enable_verification_requirement on_enable_verification_requirement /\
  protection_behaviour disable_verification_requirement
    C_APDU_CLA_DEFAULT C_APDU_DISABLE DISABLE_VERIFICATION_REQUIREMENT
    on_disable_verification_requirement on_disable_verification_requirement /\
  protection_behaviour enable_permanent_state
    C_APDU_CLA_ST C_APDU_ENABLE ENABLE_PERMANET_STATE
    on_enable_permanent_state on_enable_permanent_state /\
  protection_behaviour disable_permanent_state
    C_APDU_CLA_ST C_APDU_DISABLE DISABLE_PERMANET_STATE
    on_disable_permanent_state on_enable_permanent_state.
Proof.
  refine (conj _ (conj _ (conj _ _)));
    intros password_type w; cbv zeta.
  - rewrite enable_verification_requirement_eq.
    apply protection_command_behaviour.
  - rewrite disable_verification_requirement_eq.
    apply (protection_command_behaviour C_APDU_CLA_DEFAULT C_APDU_DISABLE).
  - rewrite enable_permanent_state_eq.
    apply protection_command_behaviour.
  - rewrite disable_permanent_state_eq.
    apply (protection_command_behaviour C_APDU_CLA_ST C_APDU_DISABLE).
Qed.


Lemma change_reference_data_frame_eq password_type payload bn :
  frame_without_did CMD_MASK_CHANGEREFDATA
    {| CLA := C_APDU_CLA_DEFAULT; INS := C_APDU_CHANGE;
       P1 := GETMSB password_type; P2 := GETLSB password_type;
       LC := PASSWORD_NBBYTE; body_data := payload; LE := 0 |} bn =
  change_reference_data_frame bn password_type payload.
Proof.
  unfold frame_without_did, with_crc, frame_fields, crc_field, payload_field,
    field, change_reference_data_frame, crc_framed.
  change (needed CMD_MASK_CHANGEREFDATA PCB_NEEDED) with true.
  change (needed CMD_MASK_CHANGEREFDATA CLA_NEEDED) with true.
  change (needed CMD_MASK_CHANGEREFDATA INS_NEEDED) with true.
  change (needed CMD_MASK_CHANGEREFDATA P1_NEEDED) with true.
  change (needed CMD_MASK_CHANGEREFDATA P2_NEEDED) with true.
  change (needed CMD_MASK_CHANGEREFDATA LC_NEEDED) with true.
  change (needed CMD_MASK_CHANGEREFDATA DATA_NEEDED) with true.
  change (needed CMD_MASK_CHANGEREFDATA LE_NEEDED) with false.
  change (needed CMD_MASK_CHANGEREFDATA CRC_NEEDED) with true.
  cbn [CLA INS P1 P2 LC LE body_data app].
  change (Z.to_nat PASSWORD_NBBYTE) with 16%nat.
  rewrite app_nil_r. destruct payload; reflexivity.
Qed.

(** X17: [change_reference_data] rejects a password type above
    [I2C_PASSWORD] before it builds anything. Otherwise the request always
    announces 16 bytes: the 16 bytes of the new password, or 16 zero bytes
    when the pointer is null. In asynchronous mode the command then is
    pending with the pointer and the type as a byte, and [manage_event]
    hands the verdict on the chip's answer to [on_change_reference_data]
    with that type and pointer; unlike [receive_verify], the receive step
    calls the listener with [CHANGE_REFERENCE_DATA] still pending, so a
    further [manage_event] would run the receive step again. *)
Theorem change_reference_data_request_and_completion
    (password_type : Z) (password : ptr) (payload : option (list Z)) w :
  driver_ok w -> acknowledging w -> _communication_type w = ASYNC ->
  deref password w = Some (payload, w) ->
  (forall bytes, payload = Some bytes -> 16 <= Z.of_nat (length bytes)) ->
  let frame :=
    change_reference_data_frame (toggle (block_number w)) password_type
                                payload in
  let w1 :=
    pending CHANGE_REFERENCE_DATA password (u8 password_type)
            (requested frame w) in
  (I2C_PASSWORD < password_type ->
   change_reference_data password_type password w =
     (notify (on_change_reference_data M24SR_IO_ERROR_PARAMETER password_type
                                       password);;
      ret M24SR_IO_ERROR_PARAMETER) w) /\
  (password_type <= I2C_PASSWORD ->
   change_reference_data password_type password w =
     Some (M24SR_SUCCESS, w1) /\
   length frame = 24%nat /\
   forall reply rest status,
     i2c_replies (_i2c_channel w) = (0, reply) :: rest ->
     length reply = 5%nat ->
     is_correct_crc_residue reply STATUSRESPONSE_NBBYTE = Some status ->
     manage_event w1 =
       (notify (on_change_reference_data status (u8 password_type) password);;
        ret status) (received w1) /\
     _last_command (received w1) = CHANGE_REFERENCE_DATA).
Proof.
  intros Hok Hack Hct Hderef Hsize frame w1. split.
  - intros Hgt. unfold change_reference_data.
    replace (password_type >? I2C_PASSWORD) with true
      by (symmetry; rewrite Z.gtb_ltb; apply Z.ltb_lt; lia).
    reflexivity.
  - intros Hle.
    assert (length frame = 24%nat) as Hframe.
    { subst frame. unfold change_reference_data_frame.
      rewrite length_crc_framed, length_app.
      destruct payload as [bytes|].
      - specialize (Hsize bytes eq_refl). rewrite length_take.
        cbn [length]. lia.
      - reflexivity. }
    assert (change_reference_data password_type password w =
            Some (M24SR_SUCCESS, w1)) as Hrun.
    { unfold change_reference_data.
      replace (password_type >? I2C_PASSWORD) with false
        by (symmetry; rewrite Z.gtb_ltb; apply Z.ltb_ge; lia).
      unfold bind at 1. rewrite Hderef.
      unfold acknowledging in Hack.
      rewrite (request_eq CMD_MASK_CHANGEREFDATA _ frame);
        [ | reflexivity | symmetry; apply change_reference_data_frame_eq
          | exact Hok | lia | ].
      - rewrite (acknowledging_hd _ Hack), io_status_ack, failed_success.
        unfold bind at 1, modify at 1. unfold bind at 1, modify at 1.
        unfold bind at 1, gets at 1.
        cbn [_communication_type set_last_command_data set_last_command
             requested set_i2c_channel set_block_number set_buffer].
        rewrite Hct. reflexivity.
      - intros _. cbn [LC body_data]. unfold PASSWORD_NBBYTE.
        split; [lia|]. destruct payload as [bytes|]; [|exact I].
        apply Hsize. reflexivity. }
    split; [exact Hrun|]. split; [exact Hframe|].
    intros reply rest status Hreplies Hlen Hres.
    split; [|reflexivity].
    unfold manage_event. unfold bind at 1, gets at 1.
    change (_last_command w1) with CHANGE_REFERENCE_DATA. cbv iota.
    unfold receive_change_reference_data.
    unfold bind at 1, gets at 1.
    change (Z.to_nat STATUSRESPONSE_NBBYTE) with 5%nat.
    rewrite (bind_eq _ _ _ _ _
               (io_receive_status_response w1 reply rest Hreplies Hlen)).
    rewrite failed_success, Hres. unfold bind at 1, lift at 1.
    reflexivity.
Qed.


(** ** Opening a session *)

(** X18: [get_session] writes one byte, 0x26 when [force] is set and 0x52
    when it is not, and never reads. If the write is refused the listener
    gets the timeout through [on_session_open] at once; if it is
    acknowledged the driver polls first and the listener gets success. *)
Theorem get_session_sends_one_byte (force : bool) w :
  let w1 :=
    set_i2c_channel
      (written [if force then 0x26 else 0x52] (_i2c_channel w)) w in
  get_session force w =
    if hd 0 (i2c_acks (_i2c_channel w)) =? 0 then
      (notify (on_session_open M24SR_SUCCESS);; ret M24SR_SUCCESS)
        (set_i2c_channel (polled (_i2c_channel w1)) w1)
    else
      (notify (on_session_open M24SR_IO_ERROR_I2CTIMEOUT);;
       ret M24SR_IO_ERROR_I2CTIMEOUT) w1.
Proof.
  intros w1. unfold get_session.
  assert ((if force then io_send_i2c_command 1 [0x26]
           else io_send_i2c_command 1 [0x52]) w =
          Some (io_status (hd 0 (i2c_acks (_i2c_channel w))), w1)) as Hsend.
  { subst w1. destruct force;
      rewrite io_send_i2c_command_eq by (simpl; lia); reflexivity. }
  rewrite (bind_eq _ _ _ _ _ Hsend).
  destruct (Z.eqb_spec (hd 0 (i2c_acks (_i2c_channel w))) 0) as [Hack|Hnak].
  - rewrite Hack, io_status_ack, failed_success.
    erewrite bind_eq by apply io_poll_i2c_eq. reflexivity.
  - rewrite io_status_nak by exact Hnak. rewrite failed_timeout. reflexivity.
Qed.

(** ** The exchanges of the GPO commands *)

(** X19: [send_receive_i2c] delivers no callback and leaves the pending
    command alone. If the write of the request is refused it returns the
    timeout without polling or reading; otherwise it polls, reads five
    bytes over the start of the buffer, and returns the timeout if the read
    fails and the validator's verdict on the buffer if it does not. *)
Theorem send_receive_i2c_result (len : Z) (buffer : list Z) w :
  0 <= len <= 255 -> len <= Z.of_nat (length buffer) ->
  (5 <= length buffer)%nat ->
  let w1 :=
    set_i2c_channel (written (take (Z.to_nat len) buffer) (_i2c_channel w)) w in
  let w2 := received (set_i2c_channel (polled (_i2c_channel w1)) w1) in
  let reply := hd (1, []) (i2c_replies (_i2c_channel w)) in
  let got := take 5 (snd reply) in
  let answer := got ++ drop (length got) buffer in
  send_receive_i2c len buffer w =
    (if negb (hd 0 (i2c_acks (_i2c_channel w)) =? 0)
     then Some ((M24SR_IO_ERROR_I2CTIMEOUT, buffer), w1)
     else if negb (fst reply =? 0)
     then Some ((M24SR_IO_ERROR_I2CTIMEOUT, answer), w2)
     else option_map (fun status => ((status, answer), w2))
            (is_correct_crc_residue answer STATUSRESPONSE_NBBYTE)) /\
  callbacks w2 = callbacks w /\ _last_command w2 = _last_command w /\
  mem w2 = mem w.
Proof.
  intros Hlen Hbuf H5 w1 w2 reply got answer.
  split; [|repeat split; reflexivity].
  unfold send_receive_i2c.
  erewrite bind_eq by (apply io_send_i2c_command_eq; assumption).
  destruct (Z.eqb_spec (hd 0 (i2c_acks (_i2c_channel w))) 0) as [Hack|Hnak];
    cbn [negb].
  2:{ rewrite io_status_nak by exact Hnak. rewrite failed_timeout.
      reflexivity. }
  rewrite Hack, io_status_ack, failed_success.
  erewrite bind_eq by apply io_poll_i2c_eq. rewrite failed_success.
  erewrite bind_eq
    by (apply io_receive_i2c_response_eq; unfold STATUSRESPONSE_NBBYTE; lia).
  cbv zeta. cbn [_i2c_channel set_i2c_channel polled i2c_replies written].
  fold reply. change (Z.to_nat STATUSRESPONSE_NBBYTE) with 5%nat.
  fold got. fold answer.
  destruct (Z.eqb_spec (fst reply) 0) as [Hok|Hfail]; cbn [negb].
  - rewrite Hok, io_status_ack, failed_success.
    unfold bind, lift, ret.
    destruct (is_correct_crc_residue answer STATUSRESPONSE_NBBYTE);
      reflexivity.
  - rewrite io_status_nak by exact Hfail. rewrite failed_timeout.
    reflexivity.
Qed.

Lemma build_in_buffer_built mask command frame w :
  needed mask PCB_NEEDED = true ->
  frame = frame_without_did mask command (toggle (block_number w)) ->
  driver_ok w ->
  (0 < length frame <= 255)%nat ->
  (needed mask DATA_NEEDED = true ->
   0 <= LC command /\
   match body_data command with
   | Some data => LC command <= Z.of_nat (length data)
   | None => True
   end) ->
  build_in_buffer mask command w =
    Some (Z.of_nat (length frame), built frame w).
Proof.
  intros Hpcb Hframe Hok Hlen Hdata.
  pose proof (build_in_buffer_eq mask command w) as Hb. cbv zeta in Hb.
  unfold next_block_number in Hb. rewrite Hpcb in Hb. rewrite <- Hframe in Hb.
  apply Hb; try assumption; try lia.
  intros _ Hnil. apply (f_equal length) in Hnil.
  unfold frame_fields, field in Hnil. rewrite Hpcb in Hnil.
  simpl in Hnil. lia.
Qed.

(** X20: the two GPO commands start with [manage_i2c_gpo], whatever it
    does. [send_interrupt] stops with its status when it is not success,
    and otherwise builds the six-byte interrupt command with its CRC and
    exchanges it with the chip. [state_control] tests the status the other
    way round: when [manage_i2c_gpo] succeeds it returns success at once
    without building or sending the state command, and it builds the
    command, with the requested state as its one payload byte, and
    exchanges it only when [manage_i2c_gpo] has failed. *)
Theorem gpo_commands_after_manage_i2c_gpo (gpo_reset : bool) w :
  (forall status w0,
     manage_i2c_gpo INTERRUPT w = Some (status, w0) -> driver_ok w0 ->
     send_interrupt w =
       if failed status then Some (status, w0)
       else exchange 8
              (built (send_interrupt_frame (toggle (block_number w0))) w0)) /\
  (forall status w0,
     manage_i2c_gpo STATE_CONTROL w = Some (status, w0) -> driver_ok w0 ->
     state_control gpo_reset w =
       if status =? M24SR_SUCCESS then Some (M24SR_SUCCESS, w0)
       else exchange 9
              (built (state_control_frame (toggle (block_number w0))
                                          gpo_reset) w0)).
Proof.
  split; intros status w0 Hgpo Hok.
  - unfold send_interrupt. rewrite (bind_eq _ _ _ _ _ Hgpo).
    destruct (failed status); [reflexivity|].
    erewrite bind_eq; cycle 1.
    { apply (build_in_buffer_built CMD_MASK_SENDINTERRUPT _
               (send_interrupt_frame (toggle (block_number w0))));
        [reflexivity | reflexivity | exact Hok | cbn; lia | intros [=]]. }
    reflexivity.
  - unfold state_control. rewrite (bind_eq _ _ _ _ _ Hgpo).
    destruct (Z.eqb_spec status M24SR_SUCCESS) as [->|Hne]; [reflexivity|].
    erewrite bind_eq; cycle 1.
    { apply (build_in_buffer_built CMD_MASK_GPOSTATE _
               (state_control_frame (toggle (block_number w0)) gpo_reset));
        [reflexivity | reflexivity | exact Hok | cbn; lia
        | intros _; cbn; lia]. }
    reflexivity.
Qed.

(** ** The selections *)

(** X21: the requests of the four selections, in asynchronous mode on a
    channel that acknowledges the write: each command returns success with
    its request written and itself pending. The application is selected by
    name (P1 P2 = 04 00, the seven bytes D2 76 00 00 85 01 01 and the
    expected length 00); the files are selected by identifier (P1 P2 =
    00 0C and two bytes: E1 03 for the CC file, E1 01 for the system file,
    the identifier given for an NDEF file, high byte first). *)
Theorem selections_request w :
  driver_ok w -> acknowledging w -> _communication_type w = ASYNC ->
  let bn := toggle (block_number w) in
  select_application w =
    Some (M24SR_SUCCESS,
          set_last_command SELECT_APPLICATION
            (requested (select_application_request bn) w)) /\
  select_cc_file w =
    Some (M24SR_SUCCESS,
          set_last_command SELECT_CC_FILE
            (requested (select_cc_file_frame bn) w)) /\
  select_system_file w =
    Some (M24SR_SUCCESS,
          set_last_command SELECT_SYSTEM_FILE
            (requested (select_system_file_frame bn) w)) /\
  (forall ndef_file_id,
     select_ndef_file ndef_file_id w =
       Some (M24SR_SUCCESS,
             set_last_command SELECT_NDEF_FILE
               (requested (select_ndef_file_frame bn ndef_file_id) w))).
Proof.
  intros Hok Hack Hct bn. unfold acknowledging in Hack.
  refine (conj _ (conj _ (conj _ _))).
  - unfold select_application.
    rewrite (request_eq CMD_MASK_SELECTAPPLICATION _
               (select_application_request bn));
      [ | reflexivity | reflexivity | exact Hok | cbn; lia
        | intros _; cbn; lia ].
    rewrite (acknowledging_hd _ Hack), io_status_ack, failed_success.
    unfold bind at 1, modify at 1. unfold bind at 1, gets at 1.
    cbn [_communication_type set_last_command requested set_i2c_channel
         set_block_number set_buffer].
    rewrite Hct. reflexivity.
  - unfold select_cc_file.
    rewrite (request_eq CMD_MASK_SELECTCCFILE _ (select_cc_file_frame bn));
      [ | reflexivity | reflexivity | exact Hok | cbn; lia
        | intros _; cbn; lia ].
    rewrite (acknowledging_hd _ Hack), io_status_ack, failed_success.
    unfold bind at 1, modify at 1. unfold bind at 1, gets at 1.
    cbn [_communication_type set_last_command requested set_i2c_channel
         set_block_number set_buffer].
    rewrite Hct. reflexivity.
  - unfold select_system_file.
    rewrite (request_eq CMD_MASK_SELECTCCFILE _
               (select_system_file_frame bn));
      [ | reflexivity | reflexivity | exact Hok | cbn; lia
        | intros _; cbn; lia ].
    rewrite (acknowledging_hd _ Hack), io_status_ack, failed_success.
    unfold bind at 1, modify at 1. unfold bind at 1, gets at 1.
    cbn [_communication_type set_last_command requested set_i2c_channel
         set_block_number set_buffer].
    rewrite Hct. reflexivity.
  - intros ndef_file_id. unfold select_ndef_file.
    rewrite (request_eq CMD_MASK_SELECTNDEFFILE _
               (select_ndef_file_frame bn ndef_file_id));
      [ | reflexivity | reflexivity | exact Hok | cbn; lia
        | intros _; cbn; lia ].
    rewrite (acknowledging_hd _ Hack), io_status_ack, failed_success.
    unfold bind at 1, modify at 1. unfold bind at 1, gets at 1.
    cbn [_communication_type set_last_command requested set_i2c_channel
         set_block_number set_buffer].
    rewrite Hct. reflexivity.
Qed.


Lemma status_answer_length (bytes : list Z) :
  length (take 5 bytes ++ drop (length (take 5 bytes)) (replicate 5 0)) =
    5%nat.
Proof.
  rewrite length_app, length_drop, length_take, length_replicate. lia.
Qed.

Ltac reports_once_run :=
  intros w reply got answer;
  erewrite bind_eq by (apply io_receive_i2c_response_eq; simpl; lia);
  cbv zeta; cbn [_i2c_channel set_last_command];
  change (Z.to_nat 5) with 5%nat; fold reply; fold got; fold answer;
  destruct (Z.eqb_spec (fst reply) 0) as [Hok|Hfail];
  [ rewrite Hok, io_status_ack, failed_success;
    destruct (is_correct_crc_residue answer 5) as [status|] eqn:Hres;
    [ exists status; split; [reflexivity|]; split; [lia | reflexivity]
    | exfalso; rewrite is_correct_crc_residue_cases in Hres
        by (subst answer got; rewrite ?status_answer_length; lia);
      discriminate ]
  | rewrite io_status_nak by exact Hfail; rewrite failed_timeout;
    eexists; split; [reflexivity|]; split; [reflexivity | contradiction] ].

(** X22: the receive steps of the three selections always return, whatever
    the chip answers: they clear the pending command first, read five
    bytes, and deliver exactly one callback of their own kind, carrying the
    status they return: the timeout when the read fails, and otherwise the
    validator's verdict on the bytes read. *)
Theorem selection_receive_reports_once :
  reports_once receive_select_application on_selected_application /\
  reports_once receive_select_cc_file on_selected_cc_file /\
  reports_once receive_select_ndef_file on_selected_ndef_file.
Proof.
  refine (conj _ (conj _ _)).
  - unfold receive_select_application. unfold bind at 1, modify at 1.
    reports_once_run.
  - unfold receive_select_cc_file. unfold bind at 1, modify at 1.
    reports_once_run.
  - unfold receive_select_ndef_file. unfold bind at 1, modify at 1.
    reports_once_run.
Qed.

End Driver.

(** * Closed instances

    The theorems above are parametric in the enumerators of [M24srError_t].
    The instances below take the sample values for them and run the model
    on the sample worlds. *)

Example success_response_is_valid :
  is_correct_crc_residue sample_SUCCESS sample_IO_ERROR_CRC success_response 5 =
    Some sample_SUCCESS.
Proof. vm_compute. reflexivity. Qed.

Example select_application_frame :
  frame_without_did CMD_MASK_SELECTAPPLICATION select_application_command 0 =
    [0x02; 0x00; 0xA4; 0x04; 0x00; 0x07; 0xD2; 0x76; 0x00; 0x00; 0x85; 0x01;
     0x01; 0x00; 0x35; 0xC0].
Proof. vm_compute. reflexivity. Qed.

(** C1, counterexample: a frame whose residue over the full span is zero
    and whose status bytes are 00 12 makes the validator return the CRC
    error code, although no residue is non-zero. *)
Lemma crc_error_code_with_zero_residue :
  compute_crc [0x02; 0x00; 0x12; 0x3F; 0x23] 5 = Some 0 /\
  is_correct_crc_residue sample_SUCCESS sample_IO_ERROR_CRC
                         [0x02; 0x00; 0x12; 0x3F; 0x23] 5 =
    Some sample_IO_ERROR_CRC.
Proof. split; vm_compute; reflexivity. Qed.

(** C1, witness: the chip's success response. *)
Lemma is_correct_crc_residue_two_windows_witness :
  (4 <= 5 <= 255 /\ 5 <= Z.of_nat (length success_response)) /\
  is_correct_crc_residue sample_SUCCESS sample_IO_ERROR_CRC success_response 5 =
    Some sample_SUCCESS.
Proof.
  assert (4 <= 5 <= 255) as H1 by lia.
  assert (5 <= Z.of_nat (length success_response)) as H2 by (simpl; lia).
  split; [split; assumption|].
  destruct (is_correct_crc_residue_two_windows
              sample_SUCCESS sample_IO_ERROR_CRC success_response 5 H1 H2 H2)
    as (_ & _ & Hfull & _).
  apply Hfull. vm_compute. reflexivity.
Defined.

(** C2, counterexample: the select-application mask has bit [DID_NEEDED]
    set, the frame the specification describes then carries the device-id
    byte after the header (17 bytes), and the codec emits the 16-byte frame
    without it. *)
Lemma device_id_selected_but_not_emitted :
  needed CMD_MASK_SELECTAPPLICATION DID_NEEDED = true /\
  encode_spec CMD_MASK_SELECTAPPLICATION select_application_command 0x00 0 =
    [0x02; 0x00; 0x00; 0xA4; 0x04; 0x00; 0x07; 0xD2; 0x76; 0x00; 0x00; 0x85;
     0x01; 0x01; 0x00; 0xA6; 0x7B] /\
  build_I_block_command CMD_MASK_SELECTAPPLICATION select_application_command
                        0x00 1 (replicate 255 0) =
    Some (16,
          [0x02; 0x00; 0xA4; 0x04; 0x00; 0x07; 0xD2; 0x76; 0x00; 0x00; 0x85;
           0x01; 0x01; 0x00; 0x35; 0xC0] ++ replicate 239 0,
          0).
Proof. repeat split; vm_compute; reflexivity. Qed.

(** C2, witness: the select-application frame, built on a fresh driver. *)
Lemma build_I_block_command_fields_witness :
  (0 <= 1 <= 1 /\ (length (replicate 255 0) <= 255)%nat) /\
  build_I_block_command CMD_MASK_SELECTAPPLICATION select_application_command
                        0x00 1 (replicate 255 0) =
    Some (16,
          [0x02; 0x00; 0xA4; 0x04; 0x00; 0x07; 0xD2; 0x76; 0x00; 0x00; 0x85;
           0x01; 0x01; 0x00; 0x35; 0xC0] ++ replicate 239 0,
          0).
Proof.
  assert (0 <= 1 <= 1) as H1 by lia.
  assert (length (replicate 255 0) <= 255)%nat as H2
    by (rewrite length_replicate; lia).
  split; [split; assumption|].
  destruct (build_I_block_command_fields
              CMD_MASK_SELECTAPPLICATION select_application_command 0x00 1
              (replicate 255 0) H1 H2) as [Hbuild _].
  - apply Nat.leb_le. vm_compute. reflexivity.
  - intros _. simpl. lia.
  - intros _. discriminate.
  - rewrite Hbuild. vm_compute. reflexivity.
Defined.

(** C4, counterexample: on a wait-time-extension request the only frame
    the driver writes before its next poll is [F2 01 91 40]: four bytes,
    not five. *)
Lemma fwt_acknowledgement_has_four_bytes :
  option_map (fun r => i2c_sent (_i2c_channel (snd r)))
    (receive_update_binary sample_SUCCESS sample_ERROR sample_IO_ERROR_I2CTIMEOUT
       sample_IO_ERROR_CRC
       (driver SYNC [] [(0, wtx_response); (0, success_response)] ∅)) =
    Some [[0xF2; 0x01; 0x91; 0x40]; []] /\
  length [0xF2; 0x01; 0x91; 0x40] = 4%nat.
Proof. split; vm_compute; reflexivity. Qed.

(** C4, witness: a wait-time-extension request followed by the success
    response, in synchronous mode. *)
Lemma receive_update_binary_wait_time_extension_witness :
  (Z.land (nth 0 (take 5 wtx_response) 0) MASK_BLOCK = MASK_SBLOCK /\
   is_correct_crc_residue sample_SUCCESS sample_IO_ERROR_CRC
     (take 5 wtx_response) WATINGTIMEEXTRESPONSE_NBBYTE <>
     Some sample_IO_ERROR_CRC) /\
  option_map
    (fun r => (fst r, i2c_sent (_i2c_channel (snd r)), callbacks (snd r)))
    (receive_update_binary sample_SUCCESS sample_ERROR sample_IO_ERROR_I2CTIMEOUT
       sample_IO_ERROR_CRC
       (driver SYNC [] [(0, wtx_response); (0, success_response)] ∅)) =
    Some (sample_SUCCESS, [[0xF2; 0x01; 0x91; 0x40]; []],
          [on_updated_binary sample_SUCCESS 0 None 0]).
Proof.
  assert (Z.land (nth 0 (take 5 wtx_response) 0) MASK_BLOCK = MASK_SBLOCK)
    as H1 by reflexivity.
  assert (is_correct_crc_residue sample_SUCCESS sample_IO_ERROR_CRC
            (take 5 wtx_response) WATINGTIMEEXTRESPONSE_NBBYTE <>
          Some sample_IO_ERROR_CRC) as H2 by (vm_compute; discriminate).
  split; [split; assumption|].
  destruct (receive_update_binary_wait_time_extension
              sample_SUCCESS sample_ERROR sample_IO_ERROR_I2CTIMEOUT
              sample_IO_ERROR_CRC
              (driver SYNC [] [(0, wtx_response); (0, success_response)] ∅)
              (0, wtx_response) [(0, success_response)]
              eq_refl eq_refl (le_n 5) H1 H2) as [_ Hrun].
  rewrite Hrun. vm_compute. reflexivity.
Defined.

Lemma sample_timeout_is_failure : sample_IO_ERROR_I2CTIMEOUT <> sample_SUCCESS.
Proof. discriminate. Defined.

Lemma sample_crc_error_is_failure : sample_IO_ERROR_CRC <> sample_SUCCESS.
Proof. discriminate. Defined.

(** C5, witness: an asynchronous driver whose first write is refused. *)
Lemma deselect_transmit_failure_not_aborted_witness :
  1 <> 0 /\
  exists w',
    deselect sample_SUCCESS sample_IO_ERROR_I2CTIMEOUT (driver ASYNC [1] [] ∅) =
      Some (sample_SUCCESS, w') /\
    _last_command w' = DESELECT /\
    callbacks w' = [on_deselect sample_IO_ERROR_I2CTIMEOUT].
Proof.
  assert (1 <> 0) as H1 by discriminate.
  split; [exact H1|].
  exact (deselect_transmit_failure_not_aborted
           sample_SUCCESS sample_IO_ERROR_I2CTIMEOUT sample_timeout_is_failure
           (driver ASYNC [1] [] ∅) 1 [] H1 eq_refl eq_refl).
Defined.

Lemma driver_is_ok ct acks replies m : driver_ok (driver ct acks replies m).
Proof. split; [reflexivity | simpl; lia]. Defined.

(** C6, witness: synchronous drivers whose first write is refused. *)
Lemma transmit_failure_callback_count_witness :
  (exists w',
     select_ndef_file sample_SUCCESS sample_IO_ERROR_I2CTIMEOUT
                      sample_IO_ERROR_CRC 0x0001 (driver SYNC [1] [] ∅) =
       Some (sample_IO_ERROR_I2CTIMEOUT, w') /\
     callbacks w' = []) /\
  (exists status w',
     deselect sample_SUCCESS sample_IO_ERROR_I2CTIMEOUT
              (driver SYNC [1] [(0, [0xC2; 0xE0; 0xB4])] ∅) =
       Some (status, w') /\
     callbacks w' =
       [on_deselect sample_IO_ERROR_I2CTIMEOUT; on_deselect status]).
Proof.
  assert (1 <> 0) as H1 by discriminate.
  destruct (transmit_failure_callback_count
              sample_SUCCESS sample_IO_ERROR_I2CTIMEOUT sample_IO_ERROR_CRC
              sample_timeout_is_failure) as [Hselect Hdeselect].
  split.
  - exact (Hselect 0x0001 (driver SYNC [1] [] ∅) 1 []
                   (driver_is_ok _ _ _ _) H1 eq_refl).
  - exact (Hdeselect (driver SYNC [1] [(0, [0xC2; 0xE0; 0xB4])] ∅) 1 []
                     H1 eq_refl eq_refl).
Defined.

(** C7, witness: a select-application and then a read, on a fresh driver:
    headers 0x02 and 0x03. *)
Lemma sequence_bit_alternates_witness :
  (build_I_block_command CMD_MASK_SELECTAPPLICATION select_application_command
     0x00 1 (replicate 255 0) =
     Some (16,
           [0x02; 0x00; 0xA4; 0x04; 0x00; 0x07; 0xD2; 0x76; 0x00; 0x00; 0x85;
            0x01; 0x01; 0x00; 0x35; 0xC0] ++ replicate 239 0,
           0) /\
   build_I_block_command CMD_MASK_READBINARY
     {| CLA := C_APDU_CLA_DEFAULT; INS := C_APDU_READ_BINARY;
        P1 := 0x00; P2 := 0x00; LC := 0; body_data := None; LE := 16 |}
     0x00 0
     ([0x02; 0x00; 0xA4; 0x04; 0x00; 0x07; 0xD2; 0x76; 0x00; 0x00; 0x85;
       0x01; 0x01; 0x00; 0x35; 0xC0] ++ replicate 239 0) =
     Some (8,
           [0x03; 0x00; 0xB0; 0x00; 0x00; 0x10; 0xD3; 0x4A; 0x00; 0x00; 0x85;
            0x01; 0x01; 0x00; 0x35; 0xC0] ++ replicate 239 0,
           1)) /\
  exists h1 h2,
    ([0x02; 0x00; 0xA4; 0x04; 0x00; 0x07; 0xD2; 0x76; 0x00; 0x00; 0x85;
      0x01; 0x01; 0x00; 0x35; 0xC0] ++ replicate 239 0) !! 0%nat = Some h1 /\
    ([0x03; 0x00; 0xB0; 0x00; 0x00; 0x10; 0xD3; 0x4A; 0x00; 0x00; 0x85;
      0x01; 0x01; 0x00; 0x35; 0xC0] ++ replicate 239 0) !! 0%nat = Some h2 /\
    Z.testbit h1 0 <> Z.testbit h2 0.
Proof.
  assert (build_I_block_command CMD_MASK_SELECTAPPLICATION
            select_application_command 0x00 1 (replicate 255 0) =
          Some (16,
                [0x02; 0x00; 0xA4; 0x04; 0x00; 0x07; 0xD2; 0x76; 0x00; 0x00;
                 0x85; 0x01; 0x01; 0x00; 0x35; 0xC0] ++ replicate 239 0,
                0)) as H1 by (vm_compute; reflexivity).
  assert (build_I_block_command CMD_MASK_READBINARY
            {| CLA := C_APDU_CLA_DEFAULT; INS := C_APDU_READ_BINARY;
               P1 := 0x00; P2 := 0x00; LC := 0; body_data := None;
               LE := 16 |}
            0x00 0
            ([0x02; 0x00; 0xA4; 0x04; 0x00; 0x07; 0xD2; 0x76; 0x00; 0x00;
              0x85; 0x01; 0x01; 0x00; 0x35; 0xC0] ++ replicate 239 0) =
          Some (8,
                [0x03; 0x00; 0xB0; 0x00; 0x00; 0x10; 0xD3; 0x4A; 0x00; 0x00;
                 0x85; 0x01; 0x01; 0x00; 0x35; 0xC0] ++ replicate 239 0,
                1)) as H2 by (vm_compute; reflexivity).
  split; [split; assumption|].
  refine (sequence_bit_alternates _ _ _ _ _ _ _ _ _ _ _ _ _ _ _ _ _ H1 H2).
  - rewrite length_replicate. lia.
  - reflexivity.
  - reflexivity.
Defined.

(** C8, counterexample: a descriptor with a payload of 247 bytes is encoded
    into a 255-byte frame; no error results. *)
Lemma oversized_payload_is_encoded :
  MAX_OPERATION_SIZE < LC oversized_update_command /\
  option_map (fun r => (fst (fst r), take 6 (snd (fst r))))
    (build_I_block_command CMD_MASK_UPDATEBINARY oversized_update_command
                           0x00 1 (replicate 255 0)) =
    Some (255, [0x02; 0x00; 0xD6; 0x00; 0x00; 247]).
Proof. split; vm_compute; reflexivity. Qed.

(** C8, witness: the update descriptor with 247 payload bytes. *)
Lemma build_I_block_command_encodes_oversized_witness :
  (MAX_OPERATION_SIZE < LC oversized_update_command /\
   needed CMD_MASK_UPDATEBINARY DATA_NEEDED = true) /\
  option_map (fun r => fst (fst r))
    (build_I_block_command CMD_MASK_UPDATEBINARY oversized_update_command
                           0x00 1 (replicate 255 0)) =
    Some 255.
Proof.
  assert (MAX_OPERATION_SIZE < LC oversized_update_command) as H1
    by (vm_compute; reflexivity).
  assert (needed CMD_MASK_UPDATEBINARY DATA_NEEDED = true) as H2
    by reflexivity.
  split; [split; assumption|].
  destruct (build_I_block_command_encodes_oversized
              CMD_MASK_UPDATEBINARY oversized_update_command 0x00 1
              (replicate 255 0) H1 H2) as [Hbuild _].
  - apply Z.leb_le. vm_compute. reflexivity.
  - rewrite length_replicate. lia.
  - apply Nat.leb_le. vm_compute. reflexivity.
  - rewrite Hbuild. vm_compute. reflexivity.
Defined.

(** C9, witness: the read whose answer has a corrupted CRC byte. *)
Lemma read_binary_crc_error_keeps_caller_buffer_witness :
  sample_IO_ERROR_CRC <> sample_SUCCESS /\
  exists w',
    receive_read_binary sample_SUCCESS sample_IO_ERROR_I2CTIMEOUT
                        sample_IO_ERROR_CRC corrupted_read =
      Some (sample_IO_ERROR_CRC, w') /\
    mem w' = mem corrupted_read /\
    callbacks w' = [on_read_byte sample_IO_ERROR_CRC 0 (Some 0%nat) 4].
Proof.
  split; [exact sample_crc_error_is_failure|].
  destruct (read_binary_crc_error_keeps_caller_buffer
              sample_SUCCESS sample_IO_ERROR_I2CTIMEOUT sample_IO_ERROR_CRC
              sample_crc_error_is_failure) as [Hcrc _].
  apply (Hcrc corrupted_read).
  - reflexivity.
  - unfold MAX_OPERATION_SIZE. simpl. lia.
  - reflexivity.
  - vm_compute. reflexivity.
Defined.

(** C10, witness: a read and an update called with length 255. *)
Lemma oversized_length_is_clamped_witness :
  (MAX_OPERATION_SIZE < 255 <= 255 /\
   mem oversized_call !! 0%nat = Some (replicate 255 0xEE)) /\
  read_binary sample_SUCCESS sample_IO_ERROR_I2CTIMEOUT sample_IO_ERROR_CRC
              0x0000 255 (Some 0%nat) oversized_call =
    read_binary sample_SUCCESS sample_IO_ERROR_I2CTIMEOUT sample_IO_ERROR_CRC
                0x0000 MAX_OPERATION_SIZE (Some 0%nat) oversized_call /\
  exists status w',
    update_binary sample_SUCCESS sample_ERROR sample_IO_ERROR_I2CTIMEOUT
                  sample_IO_ERROR_CRC 0x0000 255 (Some 0%nat) oversized_call =
      Some (status, w') /\
    i2c_sent (_i2c_channel w') !! 0%nat =
      Some (update_binary_frame 0 0x0000 MAX_OPERATION_SIZE
                                (replicate 255 0xEE)).
Proof.
  assert (MAX_OPERATION_SIZE < 255 <= 255) as H1
    by (unfold MAX_OPERATION_SIZE; lia).
  assert (mem oversized_call !! 0%nat = Some (replicate 255 0xEE)) as H2
    by reflexivity.
  split; [split; assumption|].
  destruct (oversized_length_is_clamped
              sample_SUCCESS sample_ERROR sample_IO_ERROR_I2CTIMEOUT
              sample_IO_ERROR_CRC sample_timeout_is_failure
              0x0000 255 0%nat (replicate 255 0xEE) oversized_call
              H1 (driver_is_ok _ _ _ _) H2)
    as ((Hread & _) & _ & (_ & Hupdate)).
  - rewrite length_replicate. unfold MAX_OPERATION_SIZE. lia.
  - split; [exact Hread | exact Hupdate].
Defined.

(** * Closed instances of the further properties *)

(** X2, witness: the status byte 0x90 of the chip's success response
    replaced by 0x91. *)
Lemma compute_crc_detects_corrupted_byte_witness :
  (0 < 5 <= 255 /\ 5 <= Z.of_nat (length success_response) /\
   (1 < Z.to_nat 5)%nat /\ success_response !! 1%nat = Some 0x90 /\
   0 <= 0x90 < 256 /\ 0 <= 0x91 < 256 /\ 0x91 <> 0x90) /\
  exists r r',
    compute_crc success_response 5 = Some r /\
    compute_crc (<[1%nat := 0x91]> success_response) 5 = Some r' /\ r' <> r.
Proof.
  assert (0 < 5 <= 255) as H1 by lia.
  assert (5 <= Z.of_nat (length success_response)) as H2 by (simpl; lia).
  assert (1 < Z.to_nat 5)%nat as H3 by (simpl; lia).
  assert (success_response !! 1%nat = Some 0x90) as H4 by reflexivity.
  assert (0 <= 0x90 < 256) as H5 by lia.
  assert (0 <= 0x91 < 256) as H6 by lia.
  assert (0x91 <> 0x90) as H7 by discriminate.
  split; [exact (conj H1 (conj H2 (conj H3 (conj H4 (conj H5 (conj H6 H7))))))|].
  exact (compute_crc_detects_corrupted_byte success_response 5 1 0x90 0x91
           H1 H2 H3 H4 H5 H6 H7).
Defined.

(** X3, witness: header 02, status 90 00 and the CRC. *)
Lemma is_correct_crc_residue_accepts_framed_status_witness :
  (0 <= 0x90 < 256 /\ 0 <= 0x00 < 256 /\
   (length (crc_framed ([0x02] ++ [0x90; 0x00])%Z) <= 255)%nat) /\
  is_correct_crc_residue sample_SUCCESS sample_IO_ERROR_CRC
    (crc_framed ([0x02] ++ [0x90; 0x00]) ++ [])
    (Z.of_nat (length (crc_framed ([0x02] ++ [0x90; 0x00])))) =
    Some sample_SUCCESS.
Proof.
  assert (0 <= 0x90 < 256) as H1 by lia.
  assert (0 <= 0x00 < 256) as H2 by lia.
  assert (length (crc_framed ([0x02] ++ [0x90; 0x00])%Z) <= 255)%nat as H3
    by (simpl; lia).
  split; [exact (conj H1 (conj H2 H3))|].
  destruct (is_correct_crc_residue_accepts_framed_status
              sample_SUCCESS sample_IO_ERROR_CRC [0x02] [] 0x90 0x00 H1 H2 H3)
    as [Hsuccess _].
  apply Hsuccess. split; reflexivity.
Defined.

(** X4, witness: the last CRC byte of the success response replaced. *)
Lemma is_correct_crc_residue_rejects_corrupted_byte_witness :
  ((5 <= length success_response)%nat /\
   compute_crc success_response 5 = Some 0 /\
   success_response !! 4%nat = Some 0x09 /\ 0x0A <> 0x09) /\
  is_correct_crc_residue sample_SUCCESS sample_IO_ERROR_CRC
    (<[4%nat := 0x0A]> success_response) 5 = Some sample_IO_ERROR_CRC.
Proof.
  assert (5 <= length success_response)%nat as H1 by (simpl; lia).
  assert (compute_crc success_response 5 = Some 0) as H2
    by (vm_compute; reflexivity).
  assert (4 < 5)%nat as H3 by lia.
  assert (success_response !! 4%nat = Some 0x09) as H4 by reflexivity.
  assert (0 <= 0x09 < 256) as H5 by lia.
  assert (0 <= 0x0A < 256) as H6 by lia.
  assert (0x0A <> 0x09) as H7 by discriminate.
  split; [exact (conj H1 (conj H2 (conj H4 H7)))|].
  exact (is_correct_crc_residue_rejects_corrupted_byte
           sample_SUCCESS sample_IO_ERROR_CRC success_response 4 0x09 0x0A
           H1 H2 H3 H4 H5 H6 H7).
Defined.

(** X5, witness: the select-application frame in the scratch buffer of a
    fresh driver. *)
Lemma build_I_block_command_frame_effect_witness :
  (length (replicate 255 0) <= 255)%nat /\
  is_Some (build_I_block_command CMD_MASK_SELECTAPPLICATION
             select_application_command 0x00 1 (replicate 255 0)).
Proof.
  assert (length (replicate 255 0) <= 255)%nat as H1
    by (rewrite length_replicate; lia).
  split; [exact H1|].
  destruct (build_I_block_command_frame_effect
              CMD_MASK_SELECTAPPLICATION select_application_command 0x00 1
              (replicate 255 0) H1) as [[Hbuilds _] _].
  apply Hbuilds. split; [|split].
  - apply Nat.leb_le. vm_compute. reflexivity.
  - intros _. simpl. lia.
  - intros _. discriminate.
Defined.

(** X6, witness: the select-application frame has residue zero over its 16
    bytes. *)
Lemma build_I_block_command_crc_residue_witness :
  ((length (replicate 255 0) <= 255)%nat /\
   needed CMD_MASK_SELECTAPPLICATION CRC_NEEDED = true /\
   build_I_block_command CMD_MASK_SELECTAPPLICATION select_application_command
                         0x00 1 (replicate 255 0) =
     Some (16,
           [0x02; 0x00; 0xA4; 0x04; 0x00; 0x07; 0xD2; 0x76; 0x00; 0x00; 0x85;
            0x01; 0x01; 0x00; 0x35; 0xC0] ++ replicate 239 0,
           0)) /\
  3 <= 16 <= 255 /\
  compute_crc
    ([0x02; 0x00; 0xA4; 0x04; 0x00; 0x07; 0xD2; 0x76; 0x00; 0x00; 0x85;
      0x01; 0x01; 0x00; 0x35; 0xC0] ++ replicate 239 0) 16 = Some 0.
Proof.
  assert (length (replicate 255 0) <= 255)%nat as H1
    by (rewrite length_replicate; lia).
  assert (needed CMD_MASK_SELECTAPPLICATION CRC_NEEDED = true) as H2
    by reflexivity.
  assert (build_I_block_command CMD_MASK_SELECTAPPLICATION
            select_application_command 0x00 1 (replicate 255 0) =
          Some (16,
                [0x02; 0x00; 0xA4; 0x04; 0x00; 0x07; 0xD2; 0x76; 0x00; 0x00;
                 0x85; 0x01; 0x01; 0x00; 0x35; 0xC0] ++ replicate 239 0,
                0)) as H3 by (vm_compute; reflexivity).
  split; [exact (conj H1 (conj H2 H3))|].
  exact (build_I_block_command_crc_residue
           CMD_MASK_SELECTAPPLICATION select_application_command 0x00 1
           (replicate 255 0) 16 _ 0 H1 H2 H3).
Defined.

(** X7, witness: the header of a wait-time-extension request. *)
Lemma is_S_block_classifies_witness :
  0 <= 0xF2 < 256 /\
  is_S_block sample_SUCCESS sample_ERROR wtx_response = Some sample_SUCCESS.
Proof.
  assert (0 <= 0xF2 < 256) as H1 by lia.
  split; [exact H1|].
  destruct (is_S_block_classifies sample_SUCCESS sample_ERROR 0xF2
              [0x01; 0x91; 0x40; 0x00] H1) as [Hclass _].
  exact Hclass.
Defined.

(** X8, witness: a chip that refuses the address twice. *)
Lemma io_poll_i2c_until_acknowledged_witness :
  Forall (fun r => r <> 0) [1; 1] /\
  option_map
    (fun r => (fst r, i2c_sent (_i2c_channel (snd r)),
               i2c_acks (_i2c_channel (snd r))))
    (io_poll_i2c sample_SUCCESS (driver SYNC [1; 1; 0; 5] [] ∅)) =
    Some (sample_SUCCESS, [[]; []; []], [5]).
Proof.
  assert (Forall (fun r => r <> 0) [1; 1]) as H1
    by (repeat constructor; discriminate).
  split; [exact H1|].
  destruct (io_poll_i2c_until_acknowledged sample_SUCCESS
              (driver SYNC [1; 1; 0; 5] [] ∅) [1; 1] H1) as [Hpoll _].
  rewrite (Hpoll [5] eq_refl). reflexivity.
Defined.

Lemma sample_error_is_failure : sample_ERROR <> sample_SUCCESS.
Proof. discriminate. Defined.

Lemma wtx_response_is_request :
  wtx_request sample_SUCCESS sample_IO_ERROR_CRC wtx_response.
Proof.
  split; [reflexivity|]. split; [reflexivity|]. vm_compute. discriminate.
Defined.

(** X10, witness: an update of four bytes that the chip answers with one
    wait-time-extension request and then with success. *)
Lemma update_binary_with_extensions_witness :
  (sample_ERROR <> sample_SUCCESS /\
   Forall (wtx_request sample_SUCCESS sample_IO_ERROR_CRC) [wtx_response] /\
   is_correct_crc_residue sample_SUCCESS sample_IO_ERROR_CRC success_response
     STATUSRESPONSE_NBBYTE = Some sample_SUCCESS) /\
  exists w',
    update_binary sample_SUCCESS sample_ERROR sample_IO_ERROR_I2CTIMEOUT
      sample_IO_ERROR_CRC 0x0000 4 (Some 0%nat)
      (driver SYNC [] [(0, wtx_response); (0, success_response)] caller) =
      Some (sample_SUCCESS, w') /\
    i2c_sent (_i2c_channel w') =
      [update_binary_frame 0 0x0000 4 (replicate 16 0xEE); [];
       fwt_frame 0x01; []] /\
    callbacks w' = [on_updated_binary sample_SUCCESS 0x0000 (Some 0%nat) 4].
Proof.
  pose (w := driver SYNC [] [(0, wtx_response); (0, success_response)] caller).
  assert (Forall (wtx_request sample_SUCCESS sample_IO_ERROR_CRC)
            [wtx_response]) as H1
    by (constructor; [exact wtx_response_is_request | constructor]).
  assert (is_correct_crc_residue sample_SUCCESS sample_IO_ERROR_CRC
            success_response STATUSRESPONSE_NBBYTE = Some sample_SUCCESS) as H2
    by (vm_compute; reflexivity).
  assert (acknowledging w) as H3 by constructor.
  assert (0 <= 4 <= MAX_OPERATION_SIZE) as H4
    by (unfold MAX_OPERATION_SIZE; lia).
  assert (mem w !! 0%nat = Some (replicate 16 0xEE)) as H5 by reflexivity.
  assert (4 <= Z.of_nat (length (replicate 16 0xEE))) as H6 by (simpl; lia).
  assert (Z.land (nth 0 success_response 0) MASK_BLOCK <> MASK_SBLOCK) as H7
    by (vm_compute; discriminate).
  split; [exact (conj sample_error_is_failure (conj H1 H2))|].
  destruct (update_binary_with_extensions
              sample_SUCCESS sample_ERROR sample_IO_ERROR_I2CTIMEOUT
              sample_IO_ERROR_CRC 0x0000 4 0%nat (replicate 16 0xEE)
              [wtx_response] success_response [] sample_SUCCESS w
              sample_error_is_failure (driver_is_ok _ _ _ _) eq_refl H3 H4 H5
              H6 eq_refl H1 eq_refl H7 H2)
    as (w' & Hrun & Hsent & _ & Hcb & _).
  exists w'. split; [exact Hrun|]. split; [exact Hsent | exact Hcb].
Defined.

(** X11, witness: a synchronous read of four bytes. *)
Lemma read_binary_delivers_payload_witness :
  (0 <= 4 <= MAX_OPERATION_SIZE /\
   4 <= Z.of_nat (length (replicate 16 0xEE))) /\
  exists w',
    read_binary sample_SUCCESS sample_IO_ERROR_I2CTIMEOUT sample_IO_ERROR_CRC
      0x0010 4 (Some 0%nat) (driver SYNC [] [(0, read_response)] caller) =
      Some (sample_SUCCESS, w') /\
    mem w' !! 0%nat = Some ([0x01; 0x02; 0x03; 0x04] ++ replicate 12 0xEE) /\
    callbacks w' = [on_read_byte sample_SUCCESS 0x0010 (Some 0%nat) 4].
Proof.
  pose (w := driver SYNC [] [(0, read_response)] caller).
  assert (acknowledging w) as H3 by constructor.
  assert (0 <= 4 <= MAX_OPERATION_SIZE) as H4
    by (unfold MAX_OPERATION_SIZE; lia).
  assert (mem w !! 0%nat = Some (replicate 16 0xEE)) as H5 by reflexivity.
  assert (4 <= Z.of_nat (length (replicate 16 0xEE))) as H6 by (simpl; lia).
  split; [split; assumption|].
  destruct (read_binary_delivers_payload
              sample_SUCCESS sample_IO_ERROR_I2CTIMEOUT sample_IO_ERROR_CRC
              0x0010 4 0%nat (replicate 16 0xEE) 0x02 [0x01; 0x02; 0x03; 0x04]
              [] w (driver_is_ok _ _ _ _) eq_refl H3 H4 H5 H6 eq_refl eq_refl)
    as [(w' & Hrun & _ & Hmem & Hcb & _) _].
  exists w'. split; [exact Hrun|]. split; [|exact Hcb].
  rewrite Hmem. apply lookup_insert_eq.
Defined.

(** X14, witness: the same read in asynchronous mode, resumed. *)
Lemma read_binary_resumed_by_manage_event_witness :
  (0 <= 4 <= MAX_OPERATION_SIZE /\
   4 <= Z.of_nat (length (replicate 16 0xEE))) /\
  exists w1 w2,
    read_binary sample_SUCCESS sample_IO_ERROR_I2CTIMEOUT sample_IO_ERROR_CRC
      0x0010 4 (Some 0%nat) (driver ASYNC [] [(0, read_response)] caller) =
      Some (sample_SUCCESS, w1) /\
    _last_command w1 = READ /\ callbacks w1 = [] /\
    manage_event sample_SUCCESS sample_ERROR sample_IO_ERROR_I2CTIMEOUT
      sample_IO_ERROR_CRC silent w1 = Some (sample_SUCCESS, w2) /\
    mem w2 !! 0%nat = Some ([0x01; 0x02; 0x03; 0x04] ++ replicate 12 0xEE) /\
    callbacks w2 = [on_read_byte sample_SUCCESS 0x0010 (Some 0%nat) 4] /\
    _last_command w2 = NONE.
Proof.
  pose (w := driver ASYNC [] [(0, read_response)] caller).
  assert (acknowledging w) as H3 by constructor.
  assert (0 <= 4 <= MAX_OPERATION_SIZE) as H4
    by (unfold MAX_OPERATION_SIZE; lia).
  assert (mem w !! 0%nat = Some (replicate 16 0xEE)) as H5 by reflexivity.
  assert (4 <= Z.of_nat (length (replicate 16 0xEE))) as H6 by (simpl; lia).
  split; [split; assumption|].
  destruct (read_binary_resumed_by_manage_event
              sample_SUCCESS sample_ERROR sample_IO_ERROR_I2CTIMEOUT
              sample_IO_ERROR_CRC silent
              0x0010 4 0%nat (replicate 16 0xEE) 0x02 [0x01; 0x02; 0x03; 0x04]
              [] w (driver_is_ok _ _ _ _) eq_refl H3 H4 H5 H6 eq_refl eq_refl)
    as (w1 & w2 & Hrun & Hlc & _ & Hcb & _ & _ & Hev & Hmem & Hcb2 & Hlc2 & _).
  exists w1, w2. split; [exact Hrun|]. split; [exact Hlc|].
  split; [exact Hcb|]. split; [exact Hev|].
  split; [rewrite Hmem; apply lookup_insert_eq|].
  split; [exact Hcb2 | exact Hlc2].
Defined.

(** X15, witness: the read password, of 16 bytes, verified on an
    asynchronous driver. *)
Lemma verify_request_and_completion_witness :
  (sample_READ_PASSWORD <= sample_I2C_PASSWORD /\
   deref (Some 0%nat) (driver ASYNC [] [(0, success_response)] caller) =
     Some (Some (replicate 16 0xEE),
           driver ASYNC [] [(0, success_response)] caller)) /\
  option_map (fun r => (fst r, _last_command (snd r),
                        i2c_sent (_i2c_channel (snd r))))
    (verify sample_SUCCESS sample_IO_ERROR_I2CTIMEOUT sample_IO_ERROR_CRC
       sample_IO_ERROR_PARAMETER sample_I2C_PASSWORD silent
       sample_READ_PASSWORD (Some 0%nat)
       (driver ASYNC [] [(0, success_response)] caller)) =
    Some (sample_SUCCESS, VERIFY,
          [verify_frame 0 sample_READ_PASSWORD (Some (replicate 16 0xEE))]).
Proof.
  pose (w := driver ASYNC [] [(0, success_response)] caller).
  assert (sample_READ_PASSWORD <= sample_I2C_PASSWORD) as H1
    by (vm_compute; discriminate).
  assert (deref (Some 0%nat) w = Some (Some (replicate 16 0xEE), w)) as H2
    by reflexivity.
  assert (acknowledging w) as H3 by constructor.
  assert (forall bytes, Some (replicate 16 0xEE) = Some bytes ->
            16 <= Z.of_nat (length bytes)) as H4
    by (intros bytes [= <-]; simpl; lia).
  split; [split; assumption|].
  destruct (verify_request_and_completion
              sample_SUCCESS sample_ERROR sample_IO_ERROR_I2CTIMEOUT
              sample_IO_ERROR_CRC sample_IO_ERROR_PARAMETER
              sample_I2C_PASSWORD silent sample_READ_PASSWORD (Some 0%nat)
              (Some (replicate 16 0xEE)) w (driver_is_ok _ _ _ _) H3 eq_refl
              H2 H4) as [_ Haccepted].
  destruct (Haccepted H1) as [Hrun _].
  fold w. rewrite Hrun. reflexivity.
Defined.

(** X16, witness: [disable_permanent_state] for the read password on a
    channel that refuses the request. *)
Lemma protection_commands_behaviour_witness :
  sample_IO_ERROR_I2CTIMEOUT <> sample_SUCCESS /\
  option_map fst
    (disable_permanent_state sample_SUCCESS sample_IO_ERROR_I2CTIMEOUT
       sample_IO_ERROR_CRC sample_IO_ERROR_PARAMETER sample_READ_PASSWORD
       sample_WRITE_PASSWORD silent sample_READ_PASSWORD
       (driver ASYNC [1] [] ∅)) =
    Some sample_IO_ERROR_I2CTIMEOUT.
Proof.
  split; [exact sample_timeout_is_failure|].
  destruct (protection_commands_behaviour
              sample_SUCCESS sample_IO_ERROR_I2CTIMEOUT sample_IO_ERROR_CRC
              sample_timeout_is_failure sample_IO_ERROR_PARAMETER
              sample_READ_PASSWORD sample_WRITE_PASSWORD silent)
    as (_ & _ & _ & Hdisable).
  pose proof (Hdisable sample_READ_PASSWORD (driver ASYNC [1] [] ∅)
                (driver_is_ok _ _ _ _)) as H.
  cbv zeta in H. destruct H as [_ Hvalid].
  destruct (Hvalid (or_introl eq_refl)) as [Hrefused _].
  rewrite Hrefused by discriminate. reflexivity.
Defined.

(** X17, witness: a new read password of 16 bytes on an asynchronous
    driver. *)
Lemma change_reference_data_request_and_completion_witness :
  (sample_READ_PASSWORD <= sample_I2C_PASSWORD /\
   deref (Some 0%nat) (driver ASYNC [] [(0, success_response)] caller) =
     Some (Some (replicate 16 0xEE),
           driver ASYNC [] [(0, success_response)] caller)) /\
  option_map (fun r => (fst r, _last_command (snd r),
                        i2c_sent (_i2c_channel (snd r))))
    (change_reference_data sample_SUCCESS sample_IO_ERROR_I2CTIMEOUT
       sample_IO_ERROR_CRC sample_IO_ERROR_PARAMETER sample_I2C_PASSWORD
       silent sample_READ_PASSWORD (Some 0%nat)
       (driver ASYNC [] [(0, success_response)] caller)) =
    Some (sample_SUCCESS, CHANGE_REFERENCE_DATA,
          [change_reference_data_frame 0 sample_READ_PASSWORD
             (Some (replicate 16 0xEE))]).
Proof.
  pose (w := driver ASYNC [] [(0, success_response)] caller).
  assert (sample_READ_PASSWORD <= sample_I2C_PASSWORD) as H1
    by (vm_compute; discriminate).
  assert (deref (Some 0%nat) w = Some (Some (replicate 16 0xEE), w)) as H2
    by reflexivity.
  assert (acknowledging w) as H3 by constructor.
  assert (forall bytes, Some (replicate 16 0xEE) = Some bytes ->
            16 <= Z.of_nat (length bytes)) as H4
    by (intros bytes [= <-]; simpl; lia).
  split; [split; assumption|].
  destruct (change_reference_data_request_and_completion
              sample_SUCCESS sample_ERROR sample_IO_ERROR_I2CTIMEOUT
              sample_IO_ERROR_CRC sample_IO_ERROR_PARAMETER
              sample_I2C_PASSWORD silent sample_READ_PASSWORD (Some 0%nat)
              (Some (replicate 16 0xEE)) w (driver_is_ok _ _ _ _) H3 eq_refl
              H2 H4) as [_ Haccepted].
  destruct (Haccepted H1) as [Hrun _].
  fold w. rewrite Hrun. reflexivity.
Defined.

(** X18, witness: a forced session on a channel that acknowledges. *)
Lemma get_session_sends_one_byte_witness :
  sample_IO_ERROR_I2CTIMEOUT <> sample_SUCCESS /\
  option_map (fun r => (fst r, i2c_sent (_i2c_channel (snd r))))
    (get_session sample_SUCCESS sample_IO_ERROR_I2CTIMEOUT silent true
       (driver SYNC [] [] ∅)) =
    Some (sample_SUCCESS, [[0x26]; []]).
Proof.
  split; [exact sample_timeout_is_failure|].
  rewrite (get_session_sends_one_byte sample_SUCCESS
             sample_IO_ERROR_I2CTIMEOUT sample_timeout_is_failure silent true
             (driver SYNC [] [] ∅)).
  reflexivity.
Defined.

(** X19, witness: an exchange answered with the success response. *)
Lemma send_receive_i2c_result_witness :
  (sample_IO_ERROR_I2CTIMEOUT <> sample_SUCCESS /\ 0 <= 8 <= 255 /\
   8 <= Z.of_nat (length (replicate 255 0)) /\
   (5 <= length (replicate 255 0))%nat) /\
  option_map (fun r => fst (fst r))
    (send_receive_i2c sample_SUCCESS sample_IO_ERROR_I2CTIMEOUT
       sample_IO_ERROR_CRC 8 (replicate 255 0)
       (driver SYNC [] [(0, success_response)] ∅)) =
    Some sample_SUCCESS.
Proof.
  assert (0 <= 8 <= 255) as H1 by lia.
  assert (8 <= Z.of_nat (length (replicate 255 0))) as H2
    by (rewrite length_replicate; lia).
  assert (5 <= length (replicate 255 0))%nat as H3
    by (rewrite length_replicate; lia).
  split; [exact (conj sample_timeout_is_failure (conj H1 (conj H2 H3)))|].
  destruct (send_receive_i2c_result
              sample_SUCCESS sample_IO_ERROR_I2CTIMEOUT sample_IO_ERROR_CRC
              sample_timeout_is_failure 8 (replicate 255 0)
              (driver SYNC [] [(0, success_response)] ∅) H1 H2 H3)
    as [Hrun _].
  rewrite Hrun. vm_compute. reflexivity.
Defined.

(** X21, witness: the application selected on a fresh asynchronous
    driver. *)
Lemma selections_request_witness :
  acknowledging (driver ASYNC [] [] ∅) /\
  option_map (fun r => (fst r, _last_command (snd r),
                        i2c_sent (_i2c_channel (snd r))))
    (select_application sample_SUCCESS sample_IO_ERROR_I2CTIMEOUT
       sample_IO_ERROR_CRC (driver ASYNC [] [] ∅)) =
    Some (sample_SUCCESS, SELECT_APPLICATION,
          [[0x02; 0x00; 0xA4; 0x04; 0x00; 0x07; 0xD2; 0x76; 0x00; 0x00; 0x85;
            0x01; 0x01; 0x00; 0x35; 0xC0]]).
Proof.
  assert (acknowledging (driver ASYNC [] [] ∅)) as H1 by constructor.
  split; [exact H1|].
  pose proof (selections_request sample_SUCCESS sample_IO_ERROR_I2CTIMEOUT
                sample_IO_ERROR_CRC silent (driver ASYNC [] [] ∅)
                (driver_is_ok _ _ _ _) H1 eq_refl) as H.
  cbv zeta in H. destruct H as [Happ _].
  rewrite Happ. vm_compute. reflexivity.
Defined.

(** X22, witness: the CC file selected, and the success response read. *)
Lemma selection_receive_reports_once_witness :
  sample_IO_ERROR_I2CTIMEOUT <> sample_SUCCESS /\
  option_map (fun r => (fst r, callbacks (snd r), _last_command (snd r)))
    (receive_select_cc_file sample_SUCCESS sample_IO_ERROR_I2CTIMEOUT
       sample_IO_ERROR_CRC (driver SYNC [] [(0, success_response)] ∅)) =
    Some (sample_SUCCESS, [on_selected_cc_file sample_SUCCESS], NONE).
Proof.
  split; [exact sample_timeout_is_failure|].
  destruct (selection_receive_reports_once
              sample_SUCCESS sample_IO_ERROR_I2CTIMEOUT sample_IO_ERROR_CRC
              sample_timeout_is_failure) as (_ & Hcc & _).
  pose proof (Hcc (driver SYNC [] [(0, success_response)] ∅)) as H.
  cbv zeta in H. destruct H as (status & Hrun & _ & Hverdict).
  specialize (Hverdict eq_refl). vm_compute in Hverdict.
  injection Hverdict as <-.
  rewrite Hrun. reflexivity.
Defined.
